(** * fitnity-ai: the Convex HTTP actions and the plan store

    A shallow embedding of [src/convex/http.ts] and [src/convex/plans.ts],
    and the properties of the two modules that the specification states.

    Layout: the JavaScript values the code inspects ([Js]), the shape
    validators and normalizers of [http.ts] ([Http]), the plan table of
    [plans.ts] ([Plans]), the two HTTP actions ([Handlers]), then the
    theorems. *)

From Stdlib Require Import ZArith Ascii String Floats.SpecFloat.
From stdpp Require Import base option list sorting gmap strings pretty.

Set Warnings "-register-all,-clear-no-such-hyp".
Set Default Proof Using "Type".

Open Scope string_scope.
Open Scope list_scope.
Open Scope nat_scope.

(** ** JavaScript values *)

Module Js.

(** A Number is an IEEE 754 binary64 value. *)
Definition number : Type := spec_float.

(** The Number value of a mathematical integer: round to nearest, ties to
    even. *)
Definition NumberOfZ (z : Z) : number := binary_normalize 53 1024 z 0 false.

Definition isNaN (n : number) : bool :=
  match n with S754_nan => true | _ => false end.

Definition isZero (n : number) : bool :=
  match n with S754_zero _ => true | _ => false end.

(** The values [JSON.parse] builds, and [undefined], which reading an absent
    property yields.  An object is a finite map from its own property names to
    values; an array is a dense list. *)
Inductive JsValue : Type :=
| JUndefined
| JNull
| JBool (b : bool)
| JNum (n : number)
| JStr (s : string)
| JArr (items : list JsValue)
| JObj (props : gmap string JsValue).

(** What a [throw] carries: an [Error] instance with its message, or any
    other thrown value, kept as the text [String(value)] gives. *)
Inductive Exn : Type :=
| ErrorExn (message : string)
| OtherExn (text : string).

Definition TypeError (message : string) : Exn := ErrorExn message.

(** The outcome of evaluating an expression or running a statement list. *)
Inductive Completion (A : Type) : Type :=
| Normal (a : A)
| Throw (e : Exn).
Arguments Normal {A} a.
Arguments Throw {A} e.

#[global] Instance Completion_ret : MRet Completion := λ _ a, Normal a.
#[global] Instance Completion_bind : MBind Completion := λ _ _ k c,
  match c with
  | Normal a => k a
  | Throw e => Throw e
  end.

(** [typeof v]. *)
Inductive JsType : Type := TUndefined | TObject | TBoolean | TNumber | TString.

Definition typeof (v : JsValue) : JsType :=
  match v with
  | JUndefined => TUndefined
  | JNull => TObject
  | JBool _ => TBoolean
  | JNum _ => TNumber
  | JStr _ => TString
  | JArr _ => TObject
  | JObj _ => TObject
  end.

(** [typeof v === "string"] and [typeof v === "number"]. *)
Definition isString (v : JsValue) : bool :=
  match typeof v with TString => true | _ => false end.

Definition isNumber (v : JsValue) : bool :=
  match typeof v with TNumber => true | _ => false end.

(** [v !== null && typeof v === "object"]. *)
Definition isNonNullObject (v : JsValue) : bool :=
  match v with JArr _ | JObj _ => true | _ => false end.

(** [ToBoolean]: the test of [if (v)], [!v] and [v || w]. *)
Definition ToBoolean (v : JsValue) : bool :=
  match v with
  | JUndefined | JNull => false
  | JBool b => b
  | JNum n => negb (isZero n || isNaN n)
  | JStr s => negb (String.eqb s "")
  | JArr _ | JObj _ => true
  end.

(** [v || w]. *)
Definition or_else (v w : JsValue) : JsValue :=
  if ToBoolean v then v else w.

(** [v.k] for a receiver that is neither [null] nor [undefined], and a name
    [k] that no built-in prototype defines (every name the code reads:
    [node], [user_id], [schedule], [routines], [sets], ...): the own property
    of an object, [undefined] on anything else. *)
Definition field (v : JsValue) (k : string) : JsValue :=
  match v with
  | JObj props => default JUndefined (props !! k)
  | _ => JUndefined
  end.

(** [v.k] for any receiver: reading a property of [null] or [undefined]
    throws. *)
Definition getProp (v : JsValue) (k : string) : Completion JsValue :=
  match v with
  | JUndefined | JNull =>
      Throw (TypeError ("Cannot read properties of null or undefined (reading '" +:+ k +:+ "')"))
  | _ => Normal (field v k)
  end.

(** ["k" in v] for a non-null object and such a name [k]. *)
Definition hasProp (v : JsValue) (k : string) : bool :=
  match v with
  | JObj props => bool_decide (is_Some (props !! k))
  | _ => false
  end.

(** [v.map(f)]: only an array has a callable [map]. *)
Definition mapArray (v : JsValue) (f : JsValue → Completion JsValue) : Completion JsValue :=
  match v with
  | JArr items => ys ← mapM f items; mret (JArr ys)
  | JUndefined | JNull =>
      Throw (TypeError "Cannot read properties of null or undefined (reading 'map')")
  | _ => Throw (TypeError "map is not a function")
  end.

(** [v.some(d => typeof d !== "string")] on an array. *)
Definition someNotString (items : list JsValue) : bool :=
  existsb (λ d, negb (isString d)) items.

(** [!Array.isArray(v) || v.some(d => typeof d !== "string")] is false. *)
Definition isStringArray (v : JsValue) : bool :=
  match v with
  | JArr items => negb (someNotString items)
  | _ => false
  end.

(** *** White space and [trim]

    Strings are kept as UTF-8 bytes.  [WhiteSpace] and [LineTerminator] are
    TAB, LF, VT, FF, CR, SP, U+00A0, U+1680, U+2000..U+200A, U+2028, U+2029,
    U+202F, U+205F, U+3000 and U+FEFF. *)
Definition isWhite1 (a : ascii) : bool :=
  let n := Ascii.N_of_ascii a in
  ((9 <=? n) && (n <=? 13) || (n =? 32))%N.

Definition isWhite2 (a b : ascii) : bool :=
  ((Ascii.N_of_ascii a =? 194) && (Ascii.N_of_ascii b =? 160))%N.

Definition isWhite3 (a b c : ascii) : bool :=
  let x := Ascii.N_of_ascii a in
  let y := Ascii.N_of_ascii b in
  let z := Ascii.N_of_ascii c in
  ((x =? 225) && (y =? 154) && (z =? 128)
   || (x =? 226) && (y =? 128)
      && ((128 <=? z) && (z <=? 138) || (z =? 168) || (z =? 169) || (z =? 175))
   || (x =? 226) && (y =? 129) && (z =? 159)
   || (x =? 227) && (y =? 128) && (z =? 128)
   || (x =? 239) && (y =? 187) && (z =? 191))%N.

(** Drop the white space a string starts with; with [fwd = false] the string
    is read back to front, so the bytes of a character come in reverse. *)
Fixpoint stripWhite (fwd : bool) (s : string) : string :=
  match s with
  | String a r1 =>
      if isWhite1 a then stripWhite fwd r1 else
      match r1 with
      | String b r2 =>
          if (if fwd then isWhite2 a b else isWhite2 b a) then stripWhite fwd r2 else
          match r2 with
          | String c r3 =>
              if (if fwd then isWhite3 a b c else isWhite3 c b a)
              then stripWhite fwd r3 else s
          | EmptyString => s
          end
      | EmptyString => s
      end
  | EmptyString => s
  end.

Definition trimStart (s : string) : string := stripWhite true s.
Definition trimEnd (s : string) : string := String.rev (stripWhite false (String.rev s)).
Definition trim (s : string) : string := trimEnd (trimStart s).

(** *** [parseInt(string)] with no radix

    The string is trimmed at its start, an optional sign and an optional
    [0x] are read, then the longest run of digits; the integer they write is
    rounded to a Number.  (Past twenty significant digits an engine may round
    the digits first; here the integer is exact.) *)

Definition digitValue (radix : Z) (a : ascii) : option Z :=
  let n := Z.of_N (Ascii.N_of_ascii a) in
  let d :=
    (if (48 <=? n) && (n <=? 57) then Some (n - 48)
     else if (97 <=? n) && (n <=? 122) then Some (n - 87)
     else if (65 <=? n) && (n <=? 90) then Some (n - 55)
     else None)%Z in
  d' ← d; if (d' <? radix)%Z then Some d' else None.

(** The longest prefix of radix-[radix] digits, as an integer; [acc] is
    [None] until a digit has been read. *)
Fixpoint parseDigits (radix : Z) (acc : option Z) (s : string) : option Z :=
  match s with
  | String a rest =>
      match digitValue radix a with
      | Some d => parseDigits radix (Some (default 0 acc * radix + d)%Z) rest
      | None => acc
      end
  | EmptyString => acc
  end.

Definition parseIntString (input : string) : number :=
  let s := trimStart input in
  let '(negative, s) :=
    match s with
    | String "-" rest => (true, rest)
    | String "+" rest => (false, rest)
    | _ => (false, s)
    end in
  let '(radix, s) :=
    match s with
    | String "0" (String "x" rest) => (16%Z, rest)
    | String "0" (String "X" rest) => (16%Z, rest)
    | _ => (10%Z, s)
    end in
  match parseDigits radix None s with
  | None => S754_nan
  | Some 0%Z => S754_zero negative
  | Some mathInt => NumberOfZ (if negative then - mathInt else mathInt)%Z
  end.

(** *** [ToString] and [parseInt] of any value

    [Number::toString] is the engine's; it is needed only for a number inside
    an array. *)
Section ToString.
Variable NumberToString : number → string.

(** An array prints as [join(",")], whose [null] and [undefined] elements
    print as nothing.  An object prints through [Object.prototype.toString]
    unless an own [toString] property, which cannot be callable here, hides
    it; then no primitive is found. *)
Fixpoint ToString (v : JsValue) : Completion string :=
  match v with
  | JUndefined => Normal "undefined"
  | JNull => Normal "null"
  | JBool b => Normal (if b then "true" else "false")
  | JNum n => Normal (NumberToString n)
  | JStr s => Normal s
  | JArr items =>
      (fix join (xs : list JsValue) : Completion string :=
         match xs with
         | [] => Normal ""
         | x :: rest =>
             let element :=
               match x with
               | JUndefined | JNull => Normal ""
               | _ => ToString x
               end in
             match rest with
             | [] => element
             | _ => s ← element; t ← join rest; Normal (s +:+ "," +:+ t)
             end
         end) items
  | JObj props =>
      if bool_decide (is_Some (props !! "toString"))
      then Throw (TypeError "Cannot convert object to primitive value")
      else Normal "[object Object]"
  end.

Definition parseInt (v : JsValue) : Completion number :=
  s ← ToString v; Normal (parseIntString s).
End ToString.

End Js.

(** ** [http.ts]: shape validators and normalizers *)

Module Http.
Import Js.

(** [{ value?: A; error?: string }]. *)
Record Result (A : Type) : Type := mkResult {
  value : option A;
  error : option string;
}.
Arguments mkResult {A} value error.
Arguments value {A} r.
Arguments error {A} r.

Definition succeed {A} (a : A) : Result A := mkResult (Some a) None.
Definition fail {A} (msg : string) : Result A := mkResult None (Some msg).

(** [{ payload?: GenerateProgramPayload; error?: string }]. *)
Definition payload {A} (r : Result A) : option A := value r.

(** *** [unwrapNode] *)

Definition unwrapNode (obj : JsValue) : JsValue :=
  if isNonNullObject obj && hasProp obj "node" then
    let candidate := field obj "node" in
    if isNonNullObject candidate then candidate
    else or_else obj JNull
  else or_else obj JNull.

(** *** [assertPayloadShape] *)

Record GenerateProgramPayload : Type := {
  user_id : string;
  age : number;
  height : string;
  weight : string;
  injuries : string;
  workout_days : list string;
  fitness_goal : string;
  fitness_level : string;
  dietary_restrictions : list string;
}.

(** The typed reading of a value that has passed its [typeof] check. *)
Definition asString (v : JsValue) : string :=
  match v with JStr s => s | _ => "" end.
Definition asNumber (v : JsValue) : number :=
  match v with JNum n => n | _ => S754_nan end.
Definition asStringList (v : JsValue) : list string :=
  match v with JArr items => asString <$> items | _ => [] end.

Definition assertPayloadShape (obj : JsValue) : Result GenerateProgramPayload :=
  if negb (isNonNullObject obj) then fail "Payload is not an object." else
  let raw := obj in
  if negb (isString (field raw "user_id")) then
    fail "Missing or invalid 'user_id' (expected string)."
  else if negb (isNumber (field raw "age")) then
    fail "Missing or invalid 'age' (expected number)."
  else if negb (isString (field raw "height")) then
    fail "Missing or invalid 'height' (expected string)."
  else if negb (isString (field raw "weight")) then
    fail "Missing or invalid 'weight' (expected string)."
  else if negb (isString (field raw "injuries")) then
    fail "Missing or invalid 'injuries' (expected string)."
  else if negb (isStringArray (field raw "workout_days")) then
    fail "Missing or invalid 'workout_days' (expected string[])."
  else if negb (isString (field raw "fitness_goal")) then
    fail "Missing or invalid 'fitness_goal' (expected string)."
  else if negb (isString (field raw "fitness_level")) then
    fail "Missing or invalid 'fitness_level' (expected string)."
  else if negb (isStringArray (field raw "dietary_restrictions")) then
    fail "Missing or invalid 'dietary_restrictions' (expected string[])."
  else
    succeed {|
      user_id := asString (field raw "user_id");
      age := asNumber (field raw "age");
      height := asString (field raw "height");
      weight := asString (field raw "weight");
      injuries := asString (field raw "injuries");
      workout_days := asStringList (field raw "workout_days");
      fitness_goal := asString (field raw "fitness_goal");
      fitness_level := asString (field raw "fitness_level");
      dietary_restrictions := asStringList (field raw "dietary_restrictions");
    |}.

(** How the generate-program action reads its body:
    [unwrapNode(rawBody) || null], then [assertPayloadShape]. *)
Definition checkBody (rawBody : JsValue) : Result GenerateProgramPayload :=
  let unwrapped := or_else (unwrapNode rawBody) JNull in
  assertPayloadShape unwrapped.

(** *** [assertWorkoutShape] *)

(** [typeof v !== "number" || Number.isNaN(v)]. *)
Definition notANumber (v : JsValue) : bool :=
  match v with
  | JNum n => isNaN n
  | _ => true
  end.

(** The text of [`exercises[${i}]`] and [`exercises[${i}].routines[${j}]`]. *)
Definition exercisePath (i : nat) : string :=
  "exercises[" +:+ pretty i +:+ "]".
Definition routinePath (i j : nat) : string :=
  exercisePath i +:+ ".routines[" +:+ pretty j +:+ "]".

(** The inner loop, from index [j] on; [None] when it runs to its end. *)
Fixpoint checkRoutines (i j : nat) (routines : list JsValue) : option string :=
  match routines with
  | [] => None
  | r :: rest =>
      if negb (isNonNullObject r) then
        Some ("Workout plan ‘" +:+ routinePath i j +:+ "’ is not an object.")
      else if negb (isString (field r "name")) then
        Some ("Workout plan ‘" +:+ routinePath i j +:+ ".name’ must be string.")
      else if notANumber (field r "sets") then
        Some ("Workout plan ‘" +:+ routinePath i j +:+ ".sets’ must be number.")
      else if notANumber (field r "reps") then
        Some ("Workout plan ‘" +:+ routinePath i j +:+ ".reps’ must be number.")
      else checkRoutines i (S j) rest
  end.

(** The outer loop, from index [i] on. *)
Fixpoint checkExercises (i : nat) (exercises : list JsValue) : option string :=
  match exercises with
  | [] => None
  | ex :: rest =>
      if negb (isNonNullObject ex) then
        Some ("Workout plan ‘" +:+ exercisePath i +:+ "’ is not an object.")
      else if negb (isString (field ex "day")) then
        Some ("Workout plan ‘" +:+ exercisePath i +:+ ".day’ must be string.")
      else
        match field ex "routines" with
        | JArr routines =>
            match checkRoutines i 0 routines with
            | Some err => Some err
            | None => checkExercises (S i) rest
            end
        | _ => Some ("Workout plan ‘" +:+ exercisePath i +:+ ".routines’ must be an array.")
        end
  end.

Definition assertWorkoutShape (obj : JsValue) : Result JsValue :=
  if negb (isNonNullObject obj) then fail "Workout plan is not an object." else
  let raw := obj in
  if negb (isStringArray (field raw "schedule")) then
    fail "Workout plan ‘schedule’ must be string[]."
  else
    match field raw "exercises" with
    | JArr exercises =>
        match checkExercises 0 exercises with
        | Some err => fail err
        | None => succeed raw
        end
    | _ => fail "Workout plan ‘exercises’ must be an array."
    end.

(** *** [assertDietShape] *)

Fixpoint checkMeals (i : nat) (meals : list JsValue) : option string :=
  match meals with
  | [] => None
  | meal :: rest =>
      if negb (isNonNullObject meal) then
        Some ("Diet plan ‘meals[" +:+ pretty i +:+ "]’ is not an object.")
      else if negb (isString (field meal "name")) then
        Some ("Diet plan ‘meals[" +:+ pretty i +:+ "].name’ must be string.")
      else if negb (isStringArray (field meal "foods")) then
        Some ("Diet plan ‘meals[" +:+ pretty i +:+ "].foods’ must be string[].")
      else checkMeals (S i) rest
  end.

Definition assertDietShape (obj : JsValue) : Result JsValue :=
  if negb (isNonNullObject obj) then fail "Diet plan is not an object." else
  let raw := obj in
  if notANumber (field raw "dailyCalories") then
    fail "Diet plan ‘dailyCalories’ must be a number."
  else
    match field raw "meals" with
    | JArr meals =>
        match checkMeals 0 meals with
        | Some err => fail err
        | None => succeed raw
        end
    | _ => fail "Diet plan ‘meals’ must be an array."
    end.

(** *** [validateWorkoutPlan] and [validateDietPlan] *)

Section Normalizers.
Variable NumberToString : number → string.

(** [typeof v === "number" ? v : parseInt(v) || fallback]. *)
Definition numberOr (fallback : Z) (v : JsValue) : Completion JsValue :=
  if isNumber v then Normal v
  else
    n ← parseInt NumberToString v;
    Normal (or_else (JNum n) (JNum (NumberOfZ fallback))).

Definition validateRoutine (routine : JsValue) : Completion JsValue :=
  name ← getProp routine "name";
  rawSets ← getProp routine "sets";
  sets ← numberOr 1 rawSets;
  rawReps ← getProp routine "reps";
  reps ← numberOr 10 rawReps;
  Normal (JObj {[ "name" := name; "sets" := sets; "reps" := reps ]}).

Definition validateExercise (exercise : JsValue) : Completion JsValue :=
  day ← getProp exercise "day";
  rawRoutines ← getProp exercise "routines";
  routines ← mapArray rawRoutines validateRoutine;
  Normal (JObj {[ "day" := day; "routines" := routines ]}).

Definition validateWorkoutPlan (plan : JsValue) : Completion JsValue :=
  schedule ← getProp plan "schedule";
  rawExercises ← getProp plan "exercises";
  exercises ← mapArray rawExercises validateExercise;
  Normal (JObj {[ "schedule" := schedule; "exercises" := exercises ]}).
End Normalizers.

Definition validateMeal (meal : JsValue) : Completion JsValue :=
  name ← getProp meal "name";
  foods ← getProp meal "foods";
  Normal (JObj {[ "name" := name; "foods" := foods ]}).

Definition validateDietPlan (plan : JsValue) : Completion JsValue :=
  dailyCalories ← getProp plan "dailyCalories";
  rawMeals ← getProp plan "meals";
  meals ← mapArray rawMeals validateMeal;
  Normal (JObj {[ "dailyCalories" := dailyCalories; "meals" := meals ]}).

End Http.

(** ** [plans.ts]: the plan table *)

Module Plans.
Import Js.

(** The fields of a document of the [plans] table, which are also the
    arguments of [createPlan]. *)
Record Plan : Type := {
  userId : string;
  name : string;
  workoutPlan : JsValue;
  dietPlan : JsValue;
  isActive : bool;
}.

(** The table holds its documents in the order they were inserted; nothing
    deletes one.  A document's [_id] is its position, so a larger [_id] is a
    later [_creationTime]. *)
Abbreviation Id := nat (only parsing).
Abbreviation Table := (list Plan) (only parsing).
Abbreviation Doc := (nat * Plan)%type (only parsing).

Definition documents (db : Table) : list Doc := imap (λ i d, (i, d)) db.

(** [ctx.db.query("plans").withIndex("by_user_id", q => q.eq("userId", u))]:
    the user's documents in index order, oldest first. *)
Definition by_user_id (u : string) (db : Table) : list Doc :=
  filter (λ d : Doc, userId d.2 = u) (documents db).

Definition deactivate (d : Plan) : Plan :=
  {| userId := userId d; name := name d; workoutPlan := workoutPlan d;
     dietPlan := dietPlan d; isActive := false |}.

(** [ctx.db.patch(id, { isActive: false })]; it throws on an [_id] the table
    does not hold. *)
Definition patch (db : Table) (id : Id) : Completion Table :=
  match db !! id with
  | Some d => Normal (<[id := deactivate d]> db)
  | None => Throw (ErrorExn "Update on nonexistent document ID")
  end.

(** [ctx.db.insert("plans", args)]. *)
Definition insert (db : Table) (args : Plan) : Id * Table :=
  (length db, (db ++ [args])%list).

(** [for (const plans of activePlans) await ctx.db.patch(plans._id, ...)]. *)
Fixpoint patchAll (db : Table) (activePlans : list Doc) : Completion Table :=
  match activePlans with
  | [] => Normal db
  | plans :: rest => db' ← patch db plans.1; patchAll db' rest
  end.

(** *** The validators of [convex/values], as [createPlan] uses them

    [v.string()] and [v.number()] admit a string and a Number; [v.array(item)]
    admits an array whose elements [item] admits; [v.object({ k: ... })]
    admits a plain object, not an array and not [null], that holds every
    named field with a value the field's validator admits, and no other
    property.  A property that holds [undefined] is not sent with the call, so
    it does not count as one. *)
Definition v_string (value : JsValue) : bool := isString value.

Definition v_number (value : JsValue) : bool := isNumber value.

Definition v_array (item : JsValue → bool) (value : JsValue) : bool :=
  match value with
  | JArr items => forallb item items
  | _ => false
  end.

Definition isUndefined (value : JsValue) : bool :=
  match value with JUndefined => true | _ => false end.

Definition v_object (fields : list (string * (JsValue → bool))) (value : JsValue) : bool :=
  match value with
  | JObj props =>
      forallb (λ f : string * (JsValue → bool), f.2 (field value f.1)) fields
      && bool_decide (map_Forall (λ k x, isUndefined x = true ∨ k ∈ fields.*1) props)
  | _ => false
  end.

(** The [args] of [createPlan].  [userId], [name] and [isActive] are typed in
    [Plan] as [v.string()], [v.string()] and [v.boolean()] admit them, and
    [Plan] has no sixth field; the two plans are checked here. *)
Definition workoutPlan_args : JsValue → bool :=
  v_object [
    ("schedule", v_array v_string);
    ("exercises", v_array (v_object [
       ("day", v_string);
       ("routines", v_array (v_object [
          ("name", v_string);
          ("sets", v_number);
          ("reps", v_number) ])) ])) ].

Definition dietPlan_args : JsValue → bool :=
  v_object [
    ("dailyCalories", v_number);
    ("meals", v_array (v_object [
       ("name", v_string);
       ("foods", v_array v_string) ])) ].

Definition createPlan_args (args : Plan) : bool :=
  workoutPlan_args (workoutPlan args) && dietPlan_args (dietPlan args).

(** What a call with arguments the validators reject throws.  Convex adds
    the failing path to the message; nothing here reads the message. *)
Definition ArgumentValidationError : Exn := ErrorExn "ArgumentValidationError".

(** The [handler] of [createPlan]. *)
Definition createPlan_handler (args : Plan) (db : Table) : Completion (Id * Table) :=
  let activePlans :=
    filter (λ d : Doc, isActive d.2 = true) (by_user_id (userId args) db) in
  db' ← patchAll db activePlans;
  Normal (insert db' args).

(** [mutation({ args, handler })]: the handler runs only on arguments the
    validators admit.  A call that throws returns no table: it has written
    nothing. *)
Definition createPlan (args : Plan) (db : Table) : Completion (Id * Table) :=
  if createPlan_args args then createPlan_handler args db
  else Throw ArgumentValidationError.

(** [.order("desc").collect()] over the same index range: newest first. *)
Definition getUserPlans (u : string) (db : Table) : list Doc :=
  reverse (by_user_id u db).

End Plans.

(** ** [http.ts]: the two HTTP actions *)

Module Handlers.
Import Js Http.

(** A [Request], as far as the actions read it: [headers.get(name)] with the
    names in lower case, and what [await request.json()] completes with. *)
Record Request : Type := {
  headers : gmap string string;
  json : Completion JsValue;
}.

(** [new Response(body, { status })]; [Json v] is the text
    [JSON.stringify(v)]. *)
Inductive Body : Type :=
| Text (s : string)
| Json (v : JsValue).

Record Response : Type := {
  status : nat;
  body : Body;
}.

(** The event a verified webhook carries, typed as Clerk's [WebhookEvent]
    declares it. *)
Record EmailAddressJSON : Type := { email_address : string }.

Record UserJSON : Type := {
  id : string;
  first_name : option string;
  last_name : option string;
  image_url : string;
  email_addresses : list EmailAddressJSON;
}.

Inductive WebhookEvent : Type :=
| UserCreated (data : UserJSON)
| UserUpdated (data : UserJSON)
| OtherEvent (type : string).

(** The argument of [api.users.syncUser] and [api.users.updateUser]. *)
Record UserArgs : Type := {
  email : string;
  name : string;
  image : string;
  clerkId : string;
}.

(** What an action asks of the services around it, in order. *)
Inductive Call : Type :=
| CallGenerateContent (prompt : string)
| CallSyncUser (args : UserArgs)
| CallUpdateUser (args : UserArgs)
| CallCreatePlan (args : Plans.Plan).

Record World : Type := {
  plans : Plans.Table;
  calls : list Call;
}.

Definition record (c : Call) (w : World) : World :=
  {| plans := plans w; calls := (calls w ++ [c])%list |}.

(** An [async] body: it runs on the world and completes or throws. *)
Definition Action (A : Type) : Type := World → Completion A * World.

#[global] Instance Action_ret : MRet Action := λ _ a w, (Normal a, w).
#[global] Instance Action_bind : MBind Action := λ _ _ k act w,
  match act w with
  | (Normal a, w') => k a w'
  | (Throw e, w') => (Throw e, w')
  end.

Definition lift {A} (c : Completion A) : Action A := λ w, (c, w).

(** [try { body } catch (e) { handler }]. *)
Definition tryCatch {A} (body : Action A) (handler : Exn → Action A) : Action A :=
  λ w,
    match body w with
    | (Throw e, w') => handler e w'
    | done => done
    end.

(** [e instanceof Error ? e.message : String(e)]. *)
Definition messageOf (e : Exn) : string :=
  match e with
  | ErrorExn message => message
  | OtherExn text => text
  end.

(** The test [if (s)] of an optional string, keeping the string. *)
Definition truthy (s : option string) : option string :=
  match s with
  | Some text => if String.eqb text "" then None else Some text
  | None => None
  end.

Definition errorResponse (code : nat) (message : string) : Response :=
  {| status := code;
     body := Json (JObj {[ "success" := JBool false; "error" := JStr message ]}) |}.

Section Platform.
(** The engine: [Number::toString] and [JSON.parse]. *)
Variable NumberToString : number → string.
Variable JSON_parse : string → Completion JsValue.
(** [new Webhook(secret).verify(body, headers)] of svix, on the body and
    the [svix-id], [svix-timestamp] and [svix-signature] headers. *)
Variable verify : JsValue → string → string → string → Completion WebhookEvent.
(** The mutations of [users.ts]. *)
Variable syncUser updateUser : UserArgs → Completion unit.
(** The model's reply to the [n]-th prompt of a request:
    [(await model.generateContent(prompt)).response.text()]. *)
Variable generateContent : nat → string → Completion string.
(** The two prompt templates, whose text nothing below depends on. *)
Variable workoutPrompt dietPrompt : GenerateProgramPayload → string.
(** [new Date().toLocaleDateString()]. *)
Variable toLocaleDateString : string.
(** A call of [createPlan] that fails for a reason [plans.ts] does not
    hold: the schema of the table, a size limit of the platform, a lost
    connection. *)
Variable createPlanFault : Plans.Plan → option Exn.

Definition runSyncUser (args : UserArgs) : Action unit :=
  λ w, (syncUser args, record (CallSyncUser args) w).

Definition runUpdateUser (args : UserArgs) : Action unit :=
  λ w, (updateUser args, record (CallUpdateUser args) w).

Definition runGenerateContent (n : nat) (prompt : string) : Action string :=
  λ w, (generateContent n prompt, record (CallGenerateContent prompt) w).

(** [ctx.runMutation(api.plans.createPlan, args)]: one transaction, which
    commits the handler's writes or none; the mutation checks its arguments
    itself. *)
Definition runCreatePlan (args : Plans.Plan) : Action Plans.Id :=
  λ w,
    let w' := record (CallCreatePlan args) w in
    match createPlanFault args with
    | Some e => (Throw e, w')
    | None =>
        match Plans.createPlan args (plans w') with
        | Normal (newPlanId, db) => (Normal newPlanId, {| plans := db; calls := calls w' |})
        | Throw e => (Throw e, w')
        end
    end.

(** *** [POST /clerk-webhook] *)

(** [!h] of a header read: absent or empty. *)
Definition missing (h : option string) : bool :=
  match truthy h with Some _ => false | None => true end.

(** [email_addresses[0].email_address]. *)
Definition firstEmail (data : UserJSON) : Completion string :=
  match email_addresses data with
  | first :: _ => Normal (email_address first)
  | [] => Throw (TypeError "Cannot read properties of undefined (reading 'email_address')")
  end.

(** [`${first_name || ""} ${last_name || ""}`.trim()]. *)
Definition displayName (data : UserJSON) : string :=
  trim (default "" (first_name data) +:+ " " +:+ default "" (last_name data)).

Definition clerkWebhook (request : Request) : Action Response :=
  let svix_id := headers request !! "svix-id" in
  let svix_signature := headers request !! "svix-signature" in
  let svix_timestamp := headers request !! "svix-timestamp" in
  if missing svix_id || missing svix_signature || missing svix_timestamp then
    mret {| status := 400; body := Text "No svix headers found" |}
  else
    verified ← tryCatch
      (payloadBody ← lift (json request);
       evt ← lift (verify payloadBody (default "" svix_id) (default "" svix_timestamp)
                     (default "" svix_signature));
       mret (inr evt))
      (λ _, mret (inl {| status := 400; body := Text "Invalid webhook signature" |}));
    match verified with
    | inl response => mret response
    | inr evt =>
        let processed := {| status := 200; body := Text "Webhooks processed successfully" |} in
        match evt with
        | UserCreated data =>
            email ← lift (firstEmail data);
            let name := displayName data in
            tryCatch
              (runSyncUser {| email := email; name := name; image := image_url data;
                              clerkId := id data |};;
               mret processed)
              (λ _, mret {| status := 500; body := Text "Error creating user" |})
        | UserUpdated data =>
            email ← lift (firstEmail data);
            let name := displayName data in
            tryCatch
              (runUpdateUser {| clerkId := id data; email := email; name := name;
                                image := image_url data |};;
               mret processed)
              (λ _, mret {| status := 500; body := Text "Error updating user" |})
        | OtherEvent _ => mret processed
        end
    end.

(** *** [POST /vapi/generate-program] *)

(** One [try] block around a model call: the reply parsed as JSON, or the
    response the [catch] returns. *)
Definition generateJson (n : nat) (prompt failure : string) : Action (Response + JsValue) :=
  tryCatch
    (text ← runGenerateContent n prompt;
     parsed ← lift (JSON_parse text);
     mret (inr parsed))
    (λ _, mret (inl (errorResponse 500 failure))).

(** [const { ... } = payload!]. *)
Definition destructure (p : option GenerateProgramPayload) : Completion GenerateProgramPayload :=
  match p with
  | Some fields => Normal fields
  | None => Throw (TypeError "Cannot destructure 'payload' as it is undefined.")
  end.

Definition successResponse (planId : Plans.Id) (workoutPlan dietPlan : JsValue) : Response :=
  {| status := 200;
     body := Json (JObj {[
       "success" := JBool true;
       "data" := JObj {[ "planId" := JStr (pretty planId);
                         "workoutPlan" := workoutPlan;
                         "dietPlan" := dietPlan ]} ]}) |}.

Definition generateProgramBody (request : Request) : Action Response :=
  rawBody ← lift (json request);
  let checkedPayload := checkBody rawBody in
  match truthy (error checkedPayload) with
  | Some payloadError => mret (errorResponse 400 payloadError)
  | None =>
  fields ← lift (destructure (payload checkedPayload));
  workoutStep ← generateJson 0 (workoutPrompt fields)
                  "Failed to generate a valid workout plan from AI.";
  match workoutStep with
  | inl response => mret response
  | inr workoutPlanRaw =>
  let checkedWorkout := assertWorkoutShape workoutPlanRaw in
  match truthy (error checkedWorkout) with
  | Some workoutError => mret (errorResponse 500 ("Invalid workout plan: " +:+ workoutError))
  | None =>
  workoutPlan ← lift (validateWorkoutPlan NumberToString
                        (default JUndefined (value checkedWorkout)));
  dietStep ← generateJson 1 (dietPrompt fields)
               "Failed to generate a valid diet plan from AI.";
  match dietStep with
  | inl response => mret response
  | inr dietPlanRaw =>
  let checkedDiet := assertDietShape dietPlanRaw in
  match truthy (error checkedDiet) with
  | Some dietError => mret (errorResponse 500 ("Invalid diet plan: " +:+ dietError))
  | None =>
  dietPlan ← lift (validateDietPlan (default JUndefined (value checkedDiet)));
  saved ← tryCatch
    (planId ← runCreatePlan {|
       Plans.userId := user_id fields;
       Plans.dietPlan := dietPlan;
       Plans.isActive := true;
       Plans.workoutPlan := workoutPlan;
       Plans.name := fitness_goal fields +:+ " Plan - " +:+ toLocaleDateString |};
     mret (inr planId))
    (λ _, mret (inl (errorResponse 500 "Failed to save plan to database.")));
  match saved with
  | inl response => mret response
  | inr planId => mret (successResponse planId workoutPlan dietPlan)
  end
  end end end end end.

Definition generateProgram (request : Request) : Action Response :=
  tryCatch (generateProgramBody request)
           (λ unexpected, mret (errorResponse 500 (messageOf unexpected))).
End Platform.

End Handlers.

(** * Properties *)

(** ** The request validator, in the specification's words *)

Module PayloadSpec.
Import Js Http.

(** The nine fields of a generation request and the type each must have. *)
Inductive Field : Type :=
| f_user_id | f_age | f_height | f_weight | f_injuries | f_workout_days
| f_fitness_goal | f_fitness_level | f_dietary_restrictions.

Inductive Kind : Type := KString | KNumber | KStringList.

Definition fieldName (f : Field) : string :=
  match f with
  | f_user_id => "user_id" | f_age => "age" | f_height => "height"
  | f_weight => "weight" | f_injuries => "injuries"
  | f_workout_days => "workout_days" | f_fitness_goal => "fitness_goal"
  | f_fitness_level => "fitness_level"
  | f_dietary_restrictions => "dietary_restrictions"
  end.

Definition fieldKind (f : Field) : Kind :=
  match f with
  | f_age => KNumber
  | f_workout_days | f_dietary_restrictions => KStringList
  | _ => KString
  end.

Definition kindText (k : Kind) : string :=
  match k with KString => "string" | KNumber => "number" | KStringList => "string[]" end.

(** The fixed order of the checks. *)
Definition checkOrder : list Field :=
  [f_user_id; f_age; f_height; f_weight; f_injuries; f_workout_days;
   f_fitness_goal; f_fitness_level; f_dietary_restrictions].

Definition hasKind (k : Kind) (v : JsValue) : bool :=
  match k with
  | KString => isString v
  | KNumber => isNumber v
  | KStringList => isStringArray v
  end.

Definition wellTyped (obj : JsValue) (f : Field) : bool :=
  hasKind (fieldKind f) (field obj (fieldName f)).

(** The first field, in the fixed order, that is absent or ill-typed. *)
Definition firstFailure (obj : JsValue) : option Field :=
  List.find (λ f, negb (wellTyped obj f)) checkOrder.

(** The error that names a field. *)
Definition fieldError (f : Field) : string :=
  "Missing or invalid '" +:+ fieldName f +:+ "' (expected " +:+ kindText (fieldKind f) +:+ ").".

(** A payload carries the fields of the value it was read from. *)
Definition carries (p : GenerateProgramPayload) (obj : JsValue) : Prop :=
  field obj "user_id" = JStr (user_id p)
  ∧ field obj "age" = JNum (age p)
  ∧ field obj "height" = JStr (height p)
  ∧ field obj "weight" = JStr (weight p)
  ∧ field obj "injuries" = JStr (injuries p)
  ∧ field obj "workout_days" = JArr (JStr <$> workout_days p)
  ∧ field obj "fitness_goal" = JStr (fitness_goal p)
  ∧ field obj "fitness_level" = JStr (fitness_level p)
  ∧ field obj "dietary_restrictions" = JArr (JStr <$> dietary_restrictions p).

(** The contract: the typed request when no field fails, and otherwise the
    one error that names the first failing field, with no payload. *)
Definition reportsFirstFailure (obj : JsValue) : Prop :=
  match firstFailure obj with
  | Some f => assertPayloadShape obj = fail (fieldError f)
  | None => ∃ p, assertPayloadShape obj = succeed p ∧ carries p obj
  end.

End PayloadSpec.

(** ** The workout validator, in the specification's words *)

Module WorkoutSpec.
Import Js Http.

(** A routine holds a [name] (string), [sets] and [reps] (numbers, not
    NaN). *)
Definition wellFormedRoutine (r : JsValue) : bool :=
  isNonNullObject r && isString (field r "name")
  && negb (notANumber (field r "sets")) && negb (notANumber (field r "reps")).

(** An exercise holds a [day] (string) and [routines], a list of routines. *)
Definition wellFormedExercise (ex : JsValue) : bool :=
  isNonNullObject ex && isString (field ex "day")
  && match field ex "routines" with
     | JArr routines => forallb wellFormedRoutine routines
     | _ => false
     end.

(** A workout plan holds a [schedule] (string list) and [exercises], a list
    of exercises. *)
Definition wellFormedWorkout (obj : JsValue) : bool :=
  isNonNullObject obj && isStringArray (field obj "schedule")
  && match field obj "exercises" with
     | JArr exercises => forallb wellFormedExercise exercises
     | _ => false
     end.

(** [needle] occurs in [text]. *)
Definition contains (needle text : string) : Prop :=
  ∃ before after, text = before +:+ needle +:+ after.

(** The index path of the [reps] of routine [j] of exercise [i]. *)
Definition repsPath (i j : nat) : string :=
  "exercises[" +:+ pretty i +:+ "].routines[" +:+ pretty j +:+ "].reps".

Definition repsError (i j : nat) : string :=
  "Workout plan ‘" +:+ repsPath i j +:+ "’ must be number.".

End WorkoutSpec.

(** ** The workout normalizer, in the specification's words *)

Module NormalizeSpec.
Import Js Http.

(** A parse that failed (NaN) or gave a falsy number (zero). *)
Definition falsyNumber (n : number) : bool := isNaN n || isZero n.

(** What a value that is not a number is replaced by, once parsed. *)
Definition parsedOr (fallback : Z) (parsed : number) : JsValue :=
  JNum (if falsyNumber parsed then NumberOfZ fallback else parsed).

(** A string of decimal digits and the integer it writes. *)
Definition isDecimalDigit (a : ascii) : bool :=
  let n := Ascii.N_of_ascii a in ((48 <=? n) && (n <=? 57))%N.

Fixpoint allDigits (s : string) : bool :=
  match s with
  | EmptyString => true
  | String a rest => isDecimalDigit a && allDigits rest
  end.

Fixpoint decimalValue (acc : Z) (s : string) : Z :=
  match s with
  | EmptyString => acc
  | String a rest => decimalValue (acc * 10 + (Z.of_N (Ascii.N_of_ascii a) - 48))%Z rest
  end.

(** A routine, an exercise and a plan with their fields kept as they are and
    all others dropped. *)
Definition keepRoutine (r : JsValue) : JsValue :=
  JObj {[ "name" := field r "name"; "sets" := field r "sets"; "reps" := field r "reps" ]}.

Definition routinesOf (ex : JsValue) : list JsValue :=
  match field ex "routines" with JArr routines => routines | _ => [] end.

Definition keepExercise (ex : JsValue) : JsValue :=
  JObj {[ "day" := field ex "day";
          "routines" := JArr (keepRoutine <$> routinesOf ex) ]}.

Definition exercisesOf (plan : JsValue) : list JsValue :=
  match field plan "exercises" with JArr exercises => exercises | _ => [] end.

Definition keepWorkout (plan : JsValue) : JsValue :=
  JObj {[ "schedule" := field plan "schedule";
          "exercises" := JArr (keepExercise <$> exercisesOf plan) ]}.

(** The rule for one count: a number is kept; anything else is parsed as an
    integer and replaced by the fallback when the parse fails or gives a
    falsy number.  A count that is no object is meant: a string is parsed as
    it stands, and the text of [undefined], [null], [true] and [false] is no
    number. *)
Definition plainCount (v : JsValue) : bool := negb (isNonNullObject v).

Definition normalCount (fallback : Z) (v : JsValue) : JsValue :=
  match v with
  | JNum n => JNum n
  | JStr s => parsedOr fallback (parseIntString s)
  | _ => JNum (NumberOfZ fallback)
  end.

(** A routine, an exercise and a plan as the normalizer leaves them: 1 is
    the fallback of [sets], 10 that of [reps]. *)
Definition normalRoutine (r : JsValue) : JsValue :=
  JObj {[ "name" := field r "name";
          "sets" := normalCount 1 (field r "sets");
          "reps" := normalCount 10 (field r "reps") ]}.

Definition normalExercise (ex : JsValue) : JsValue :=
  JObj {[ "day" := field ex "day";
          "routines" := JArr (normalRoutine <$> routinesOf ex) ]}.

Definition normalWorkout (plan : JsValue) : JsValue :=
  JObj {[ "schedule" := field plan "schedule";
          "exercises" := JArr (normalExercise <$> exercisesOf plan) ]}.

(** A plan of exercises with routines, whatever their fields hold, as long
    as no count is an object. *)
Definition plainRoutine (r : JsValue) : bool :=
  isNonNullObject r && plainCount (field r "sets") && plainCount (field r "reps").

Definition plainExercise (ex : JsValue) : bool :=
  isNonNullObject ex
  && match field ex "routines" with
     | JArr routines => forallb plainRoutine routines
     | _ => false
     end.

Definition plainWorkout (plan : JsValue) : bool :=
  isNonNullObject plan
  && match field plan "exercises" with
     | JArr exercises => forallb plainExercise exercises
     | _ => false
     end.

(** [out] is [plan] with every routine normalized: the same [schedule], the
    exercises one for one with the same [day], their routines one for one,
    each the result [normalized] relates to it. *)
Definition routinewise (normalized : JsValue → JsValue → Prop) (plan out : JsValue) : Prop :=
  ∃ exercises,
    out = JObj {[ "schedule" := field plan "schedule"; "exercises" := JArr exercises ]}
    ∧ Forall2 (λ ex ex',
         ∃ routines,
           ex' = JObj {[ "day" := field ex "day"; "routines" := JArr routines ]}
           ∧ Forall2 normalized (routinesOf ex) routines)
        (exercisesOf plan) exercises.

End NormalizeSpec.

(** ** The plan table, in the specification's words *)

Module PlansSpec.
Import Js Plans.

(** The plans of user [u] that are active, with their identifiers. *)
Definition activePlansOf (u : string) (db : Table) : list Doc :=
  filter (λ d : Doc, userId d.2 = u ∧ isActive d.2 = true) (documents db).

(** The table with every plan of user [u] made inactive. *)
Definition deactivateUser (u : string) (db : Table) : Table :=
  (λ d, if decide (userId d = u) then deactivate d else d) <$> db.

(** [x] comes before [y] in a newest-first list: it was inserted later. *)
Definition newerThan (x y : Doc) : Prop := y.1 < x.1.

(** The table a call of a mutation leaves: the one it returns, or the one it
    found when it throws. *)
Definition tableAfter (outcome : Completion (Id * Table)) (db : Table) : Table :=
  match outcome with
  | Normal (_, db') => db'
  | Throw _ => db
  end.

End PlansSpec.

(** ** The two actions, in the specification's words *)

Module ActionSpec.
Import Js Http Handlers.

(** The [createPlan] calls made so far. *)
Definition createPlanCalls (w : World) : list Plans.Plan :=
  omap (λ c, match c with CallCreatePlan args => Some args | _ => None end) (calls w).

(** The database mutations asked for so far, of either table. *)
Definition isMutation (c : Call) : bool :=
  match c with CallGenerateContent _ => false | _ => true end.

Definition mutationCalls (w : World) : list Call :=
  filter (λ c, isMutation c = true) (calls w).

(** A generation stage fails when the model call or [JSON.parse] throws, or
    when the parsed reply does not pass its shape validator. *)
Definition stageFails (check : JsValue → Result JsValue) (reply : Completion JsValue) : Prop :=
  match reply with
  | Throw _ => True
  | Normal raw => ∃ err, check raw = fail err
  end.

(** A diet plan with its fields kept as they are and all others dropped. *)
Definition keepMeal (meal : JsValue) : JsValue :=
  JObj {[ "name" := field meal "name"; "foods" := field meal "foods" ]}.

Definition mealsOf (plan : JsValue) : list JsValue :=
  match field plan "meals" with JArr meals => meals | _ => [] end.

Definition keepDiet (plan : JsValue) : JsValue :=
  JObj {[ "dailyCalories" := field plan "dailyCalories";
          "meals" := JArr (keepMeal <$> mealsOf plan) ]}.

(** A required signature header is absent. *)
Definition headerAbsent (request : Request) : Prop :=
  headers request !! "svix-id" = None
  ∨ headers request !! "svix-signature" = None
  ∨ headers request !! "svix-timestamp" = None.

End ActionSpec.

(** ** The diet validator, in the specification's words *)

Module DietSpec.
Import Js Http.

(** A meal holds a [name] (string) and [foods] (string list). *)
Definition wellFormedMeal (meal : JsValue) : bool :=
  isNonNullObject meal && isString (field meal "name")
  && isStringArray (field meal "foods").

(** A diet plan holds [dailyCalories] (a number, not NaN) and [meals], a
    list of meals. *)
Definition wellFormedDiet (obj : JsValue) : bool :=
  isNonNullObject obj && negb (notANumber (field obj "dailyCalories"))
  && match field obj "meals" with
     | JArr meals => forallb wellFormedMeal meals
     | _ => false
     end.

(** The text of [`meals[${i}]`]. *)
Definition mealPath (i : nat) : string := "meals[" +:+ pretty i +:+ "]".

End DietSpec.

(** ** Module start *)

Module Startup.
Import Js.

(** The two checks [http.ts] makes when it is loaded, on [process.env]:
    [if (!process.env.NAME) throw new Error(...)]. *)
Definition loadModule (env : gmap string string) : Completion unit :=
  if Handlers.missing (env !! "GEMINI_API_KEY") then
    Throw (ErrorExn "Missing GEMINI_API_KEY environment variable")
  else if Handlers.missing (env !! "CLERK_WEBHOOK_SECRET") then
    Throw (ErrorExn "Missing CLERK_WEBHOOK_SECRET environment variable")
  else Normal tt.

End Startup.

(** ** More of the behaviour, in plain words *)

Module ExtraSpec.
Import Js Http Handlers.

(** The property names [assertPayloadShape] reads. *)
Definition payloadNames : list string :=
  ["user_id"; "age"; "height"; "weight"; "injuries"; "workout_days";
   "fitness_goal"; "fitness_level"; "dietary_restrictions"].

(** A validator's answer is a value and no error, or no value and an error
    that is not the empty string. *)
Definition decided {A} (r : Result A) : Prop :=
  (∃ a, r = succeed a) ∨ (∃ err, r = fail err ∧ err ≠ "").

(** Every user has at most one active plan. *)
Definition singleActive (db : list Plans.Plan) : Prop :=
  ∀ u, length (PlansSpec.activePlansOf u db) ≤ 1.

(** A count written as text: an optional sign, digits, and text that the
    digits do not run into.  The digits are decimal, or hexadecimal after
    [0x] or [0X]. *)
Definition isSign (sign : string) : bool :=
  String.eqb sign "" || String.eqb sign "-" || String.eqb sign "+".

Definition signed (sign : string) (value : Z) : Z :=
  if String.eqb sign "-" then (- value)%Z else value.

Definition isHexDigit (a : ascii) : bool :=
  let n := Ascii.N_of_ascii a in
  ((48 <=? n) && (n <=? 57) || (97 <=? n) && (n <=? 102) || (65 <=? n) && (n <=? 70))%N.

Fixpoint allHex (s : string) : bool :=
  match s with
  | EmptyString => true
  | String a rest => isHexDigit a && allHex rest
  end.

Definition hexDigitValue (a : ascii) : Z :=
  let n := Z.of_N (Ascii.N_of_ascii a) in
  (if n <=? 57 then n - 48 else if n <=? 70 then n - 55 else n - 87)%Z.

Fixpoint hexValue (acc : Z) (s : string) : Z :=
  match s with
  | EmptyString => acc
  | String a rest => hexValue (acc * 16 + hexDigitValue a)%Z rest
  end.

(** Text that does not go on with a decimal digit, or with a hexadecimal
    one. *)
Definition endsNumber (t : string) : bool :=
  match t with
  | EmptyString => true
  | String a _ => negb (NormalizeSpec.isDecimalDigit a)
  end.

Definition endsHex (t : string) : bool :=
  match t with
  | EmptyString => true
  | String a _ => negb (isHexDigit a)
  end.

(** The digits [s] and the text [t] after them begin a hexadecimal literal:
    [0x] or [0X] and a hexadecimal digit. *)
Definition hexLiteral (s t : string) : bool :=
  String.eqb s "0"
  && match t with
     | String x (String h _) => (Ascii.eqb x "x" || Ascii.eqb x "X") && isHexDigit h
     | _ => false
     end.

(** [writes text value]: [text] is a count written as text, and [value] is
    the integer its sign and digits write. *)
Inductive writes : string → Z → Prop :=
| writes_decimal (sign s t : string) :
    isSign sign = true → s ≠ "" → NormalizeSpec.allDigits s = true →
    endsNumber t = true → hexLiteral s t = false →
    writes (sign +:+ s +:+ t) (signed sign (NormalizeSpec.decimalValue 0 s))
| writes_hex (sign : string) (x : ascii) (h t : string) :
    isSign sign = true → Ascii.eqb x "x" || Ascii.eqb x "X" = true →
    h ≠ "" → allHex h = true → endsHex t = true →
    writes (sign +:+ String "0" (String x (h +:+ t))) (signed sign (hexValue 0 h)).

(** The count that takes the place of text writing [value]. *)
Definition countOr (fallback value : Z) : JsValue :=
  JNum (NumberOfZ (if (value =? 0)%Z then fallback else value)).

(** The routines of a normalized plan, all exercises together. *)
Definition allRoutines (plan : JsValue) : list JsValue :=
  NormalizeSpec.exercisesOf plan ≫= NormalizeSpec.routinesOf.

(** The calls a webhook may add: none, or one mutation of the users table. *)
Definition userMutation (c : Call) : bool :=
  match c with CallSyncUser _ | CallUpdateUser _ => true | _ => false end.

End ExtraSpec.

(** ** Sample values *)

Module Samples.
Import Js Http.

(** A well-formed generation request for the user [who]. *)
Definition request (who : string) : gmap string JsValue :=
  {[ "user_id" := JStr who;
     "age" := JNum (NumberOfZ 31);
     "height" := JStr "180cm";
     "weight" := JStr "75kg";
     "injuries" := JStr "none";
     "workout_days" := JArr [JStr "Monday"; JStr "Friday"];
     "fitness_goal" := JStr "Strength";
     "fitness_level" := JStr "beginner";
     "dietary_restrictions" := JArr [] ]}.

(** A request that validates and also carries a [node] property, itself a
    request of another user. *)
Definition nestedRequest : JsValue :=
  JObj (<["node" := JObj (request "u2")]> (request "u1")).

Definition routine (name : string) (sets reps : JsValue) : JsValue :=
  JObj {[ "name" := JStr name; "sets" := sets; "reps" := reps ]}.

Definition three : JsValue := JNum (NumberOfZ 3).

(** A workout plan of one day. *)
Definition oneDay (schedule : JsValue) (day : string) (routines : list JsValue) : JsValue :=
  JObj {[ "schedule" := schedule;
          "exercises" := JArr [JObj {[ "day" := JStr day; "routines" := JArr routines ]}] ]}.

(** [Number::toString] on the integers a sample needs; the text of any
    other number is left empty. *)
Definition integerText (n : number) : string :=
  match n with
  | S754_zero _ => "0"
  | S754_finite negative m e =>
      match e with
      | Z0 => (if negative then "-" else "") +:+ pretty (Z.pos m)
      | Z.pos k => (if negative then "-" else "") +:+ pretty (Z.pos m * 2 ^ Z.pos k)%Z
      | Z.neg k =>
          if (Z.pos m mod 2 ^ Z.pos k =? 0)%Z
          then (if negative then "-" else "") +:+ pretty (Z.pos m / 2 ^ Z.pos k)%Z
          else ""
      end
  | S754_infinity negative => if negative then "-Infinity" else "Infinity"
  | S754_nan => "NaN"
  end.

(** A workout plan whose second routine of its second exercise has a textual
    [reps]. *)
Definition badRepsPlan : JsValue :=
  JObj {[
    "schedule" := JArr [JStr "Monday"; JStr "Friday"];
    "exercises" := JArr [
      JObj {[ "day" := JStr "Monday";
              "routines" := JArr [routine "Squat" three three] ]};
      JObj {[ "day" := JStr "Friday";
              "routines" := JArr [routine "Row" three three;
                                  routine "Plank" three (JStr "To failure");
                                  routine "Curl" (JStr "x") three] ]} ] ]}.

(** A webhook request that carries the three signature headers, and one
    without [svix-signature]. *)
Definition signedRequest : Handlers.Request :=
  {| Handlers.headers := {[ "svix-id" := "msg_1"; "svix-signature" := "v1,abc";
                            "svix-timestamp" := "1700000000" ]};
     Handlers.json := Normal (JObj {[ "type" := JStr "user.created" ]}) |}.

Definition unsignedRequest : Handlers.Request :=
  {| Handlers.headers := {[ "svix-id" := "msg_1"; "svix-timestamp" := "1700000000" ]};
     Handlers.json := Normal (JObj {[ "type" := JStr "user.created" ]}) |}.

(** A user without any email address. *)
Definition userWithoutEmail : Handlers.UserJSON :=
  {| Handlers.id := "user_1"; Handlers.first_name := Some "Ada";
     Handlers.last_name := None; Handlers.image_url := "https://img";
     Handlers.email_addresses := [] |}.

(** A verifier that accepts every request as the creation of that user, and
    mutations that succeed. *)
Definition acceptAll (payloadBody : JsValue) (svix_id svix_timestamp svix_signature : string)
    : Completion Handlers.WebhookEvent :=
  Normal (Handlers.UserCreated userWithoutEmail).

Definition mutationOk (args : Handlers.UserArgs) : Completion unit := Normal tt.

Definition emptyWorld : Handlers.World :=
  {| Handlers.plans := []; Handlers.calls := [] |}.

(** A model that answers the first prompt with a well-formed workout plan
    and the second with text that is not JSON. *)
Definition replies (n : nat) (prompt : string) : Completion string :=
  Normal (if n is 0 then "workout" else "oops").

Definition parseReply (text : string) : Completion JsValue :=
  if String.eqb text "workout"
  then Normal (JObj {[ "schedule" := JArr [JStr "Monday"]; "exercises" := JArr [] ]})
  else Throw (ErrorExn "Unexpected token o in JSON at position 0").

Definition promptOf (fields : GenerateProgramPayload) : string := fitness_goal fields.

Definition noFault (args : Plans.Plan) : option Exn := None.

Definition generationRequest : Handlers.Request :=
  {| Handlers.headers := ∅; Handlers.json := Normal (JObj (request "u1")) |}.

(** A diet plan whose third meal lists a number among its foods, and carries
    a field the schema does not have. *)
Definition meal (title : string) (foods : list JsValue) : JsValue :=
  JObj {[ "name" := JStr title; "foods" := JArr foods ]}.

Definition badFoodsDiet : JsValue :=
  JObj {[ "dailyCalories" := JNum (NumberOfZ 2200);
          "macros" := JStr "40/30/30";
          "meals" := JArr [meal "Breakfast" [JStr "Oats"]; meal "Lunch" [];
                           meal "Dinner" [JStr "Rice"; JNum (NumberOfZ 2)]] ]}.

(** A workout plan as a model may send it: counts as text, and a field the
    schema does not have. *)
Definition textualPlan : JsValue :=
  JObj {[
    "schedule" := JArr [JStr "Monday"];
    "exercises" := JArr [
      JObj {[ "day" := JStr "Monday";
              "routines" := JArr [routine "Squat" (JStr "4 sets") (JStr "-12");
                                  routine "Plank" JNull (JStr "To failure")] ]} ];
    "notes" := JStr "go easy" ]}.

(** A user with two email addresses, a verifier that accepts every request
    as an update of that user, one that rejects every request, and a mutation
    that fails. *)
Definition userWithEmails : Handlers.UserJSON :=
  {| Handlers.id := "user_2"; Handlers.first_name := Some "Grace";
     Handlers.last_name := Some "Hopper "; Handlers.image_url := "https://img/2";
     Handlers.email_addresses :=
       [{| Handlers.email_address := "grace@example.org" |};
        {| Handlers.email_address := "gh@example.org" |}] |}.

Definition acceptUpdate (payloadBody : JsValue) (svix_id svix_timestamp svix_signature : string)
    : Completion Handlers.WebhookEvent :=
  Normal (Handlers.UserUpdated userWithEmails).

Definition rejectAll (payloadBody : JsValue) (svix_id svix_timestamp svix_signature : string)
    : Completion Handlers.WebhookEvent :=
  Throw (ErrorExn "No matching signature found").

Definition mutationFails (args : Handlers.UserArgs) : Completion unit :=
  Throw (ErrorExn "write conflict").

(** A webhook request whose [svix-signature] header is empty. *)
Definition emptySignatureRequest : Handlers.Request :=
  {| Handlers.headers := {[ "svix-id" := "msg_1"; "svix-signature" := "";
                            "svix-timestamp" := "1700000000" ]};
     Handlers.json := Normal (JObj {[ "type" := JStr "user.created" ]}) |}.

(** A model that answers both prompts well, and a request whose body lacks
    [age]. *)
Definition goodReplies (n : nat) (prompt : string) : Completion string :=
  Normal (if n is 0 then "workout" else "diet").

Definition parseGoodReply (text : string) : Completion JsValue :=
  if String.eqb text "workout"
  then Normal (JObj {[ "schedule" := JArr [JStr "Monday"]; "exercises" := JArr [] ]})
  else Normal (JObj {[ "dailyCalories" := JNum (NumberOfZ 2000); "meals" := JArr [] ]}).

Definition alwaysFault (args : Plans.Plan) : option Exn := Some (ErrorExn "too large").

Definition ageless : Handlers.Request :=
  {| Handlers.headers := ∅;
     Handlers.json := Normal (JObj {[ "node" := JObj (delete "age" (request "u1")) ]}) |}.

(** A stored plan of user [who]. *)
Definition plan (who title : string) (active : bool) : Plans.Plan :=
  {| Plans.userId := who; Plans.name := title;
     Plans.workoutPlan := JObj {[ "schedule" := JArr []; "exercises" := JArr [] ]};
     Plans.dietPlan := JObj {[ "dailyCalories" := JNum (NumberOfZ 2000); "meals" := JArr [] ]};
     Plans.isActive := active |}.

(** Arguments that [createPlan] does not take: the workout plan is text. *)
Definition illTyped (who title : string) : Plans.Plan :=
  {| Plans.userId := who; Plans.name := title;
     Plans.workoutPlan := JStr "x";
     Plans.dietPlan := JObj {[ "dailyCalories" := JNum (NumberOfZ 2000); "meals" := JArr [] ]};
     Plans.isActive := true |}.

(** A table in which user [u1] has two active plans at once. *)
Definition crowdedTable : list Plans.Plan :=
  [plan "u1" "first" true; plan "u2" "other" true; plan "u1" "second" true].

(** A workout plan that is well formed. *)
Definition goodPlan : JsValue :=
  JObj {[
    "schedule" := JArr [JStr "Monday"];
    "exercises" := JArr [
      JObj {[ "day" := JStr "Monday";
              "routines" := JArr [routine "Squat" three (JNum (NumberOfZ 10))] ]} ];
    "notes" := JStr "extra" ]}.

End Samples.

(** * Theorems *)

(** ** Numbers *)

Section Numbers.
Import Js.
Local Open Scope Z_scope.

Lemma iter_pos_nat {A} (f : A → A) p x :
  SpecFloat.iter_pos f p x = Nat.iter (Pos.to_nat p) f x.
Proof.
  revert x. induction p as [p IH|p IH|]; intros x; cbn [SpecFloat.iter_pos].
  - rewrite !IH, Pos2Nat.inj_xI.
    replace (S (2 * Pos.to_nat p))%nat with (Pos.to_nat p + (Pos.to_nat p + 1))%nat by lia.
    by rewrite !Nat.iter_add.
  - rewrite !IH, Pos2Nat.inj_xO.
    replace (2 * Pos.to_nat p)%nat with (Pos.to_nat p + Pos.to_nat p)%nat by lia.
    by rewrite Nat.iter_add.
  - reflexivity.
Qed.

Lemma shr_1_m mrs : 0 ≤ shr_m mrs → shr_m (shr_1 mrs) = shr_m mrs / 2.
Proof.
  destruct mrs as [m r s]. cbn [shr_m]. intros Hm.
  destruct m as [|[p|p|]|p]; try lia; cbn [shr_1 shr_m].
  - reflexivity.
  - apply Z.div_unique with 1; lia.
  - apply Z.div_unique with 0; lia.
  - reflexivity.
Qed.

Lemma shr_iter_m k mrs :
  0 ≤ shr_m mrs → shr_m (Nat.iter k shr_1 mrs) = shr_m mrs / 2 ^ Z.of_nat k.
Proof.
  intros Hm. induction k as [|k IH].
  - cbn. by rewrite Z.div_1_r.
  - rewrite Nat.iter_succ, shr_1_m.
    + rewrite IH, Nat2Z.inj_succ, Z.pow_succ_r by lia.
      rewrite Z.div_div by lia. f_equal. lia.
    + rewrite IH. apply Z.div_pos; lia.
Qed.

Lemma digits2_pos_le p : 2 ^ (Z.pos (digits2_pos p) - 1) ≤ Z.pos p.
Proof.
  induction p as [p IH|p IH|]; cbn [digits2_pos].
  - rewrite Pos2Z.inj_succ.
    replace (Z.succ (Z.pos (digits2_pos p)) - 1)
      with (Z.succ (Z.pos (digits2_pos p) - 1)) by lia.
    rewrite Z.pow_succ_r by lia. lia.
  - rewrite Pos2Z.inj_succ.
    replace (Z.succ (Z.pos (digits2_pos p)) - 1)
      with (Z.succ (Z.pos (digits2_pos p) - 1)) by lia.
    rewrite Z.pow_succ_r by lia. lia.
  - cbn. lia.
Qed.

(** Shifting a mantissa right by fewer places than it has bits leaves it
    positive. *)
Lemma shr_positive p r s e n :
  n < Z.pos (digits2_pos p) →
  0 < shr_m (shr {| shr_m := Z.pos p; shr_r := r; shr_s := s |} e n).1.
Proof.
  intros Hn. unfold shr. destruct n as [|k|k]; cbn [fst shr_m]; try lia.
  rewrite iter_pos_nat, shr_iter_m by (cbn; lia). cbn [shr_m].
  rewrite positive_nat_Z.
  apply Z.div_str_pos. split; [apply Z.pow_pos_nonneg; lia|].
  etransitivity; [|apply digits2_pos_le].
  apply Z.pow_le_mono_r; lia.
Qed.

Lemma shr_fexp_positive p e l :
  -1074 ≤ e →
  let '(mrs, e') := shr_fexp 53 1024 (Z.pos p) e l in
  0 < shr_m mrs ∧ -1074 ≤ e'.
Proof.
  intros He. unfold shr_fexp.
  set (n := fexp 53 1024 (Zdigits2 (Z.pos p) + e) - e).
  assert (n < Z.pos (digits2_pos p)) as Hn.
  { unfold n, fexp, emin. cbn [Zdigits2]. lia. }
  assert (∃ r s, shr_record_of_loc (Z.pos p) l
                 = {| shr_m := Z.pos p; shr_r := r; shr_s := s |}) as (r & s & ->).
  { destruct l as [|[]]; cbn; eauto. }
  pose proof (shr_positive p r s e n Hn) as Hpos.
  destruct (shr _ e n) as [mrs e'] eqn:Hshr. cbn [fst] in Hpos. split; [exact Hpos|].
  unfold shr in Hshr. destruct n; injection Hshr as <- <-; lia.
Qed.

Lemma round_nearest_even_positive m l : 0 < m → 0 < round_nearest_even m l.
Proof.
  intros Hm. unfold round_nearest_even.
  destruct l as [|[]]; try lia. destruct (Z.even m); lia.
Qed.

Lemma binary_round_aux_truthy s p e l :
  -1074 ≤ e →
  let x := binary_round_aux 53 1024 s (Z.pos p) e l in
  isZero x = false ∧ isNaN x = false.
Proof.
  intros He. unfold binary_round_aux.
  pose proof (shr_fexp_positive p e l He) as H1.
  destruct (shr_fexp 53 1024 (Z.pos p) e l) as [mrs' e'].
  destruct H1 as [Hm' He'].
  pose proof (round_nearest_even_positive (shr_m mrs') (loc_of_shr_record mrs') Hm') as Hr.
  destruct (round_nearest_even (shr_m mrs') (loc_of_shr_record mrs')) as [|p2|p2]; try lia.
  pose proof (shr_fexp_positive p2 e' loc_Exact He') as H2.
  destruct (shr_fexp 53 1024 (Z.pos p2) e' loc_Exact) as [mrs'' e''].
  destruct H2 as [Hm'' _].
  destruct (shr_m mrs''); try lia.
  by destruct (e'' <=? 1024 - 53).
Qed.

(** The Number value of a non-zero integer is neither a zero nor NaN. *)
Lemma NumberOfZ_truthy z : z ≠ 0 → isZero (NumberOfZ z) = false ∧ isNaN (NumberOfZ z) = false.
Proof.
  intros Hz. unfold NumberOfZ, binary_normalize.
  destruct z as [|p|p]; [lia| |]; unfold binary_round.
  all: destruct (shl_align p 0 _) as [mz ez] eqn:Halign.
  all: apply binary_round_aux_truthy.
  all: unfold shl_align in Halign.
  all: destruct (_ - 0) eqn:Hd in Halign; injection Halign as <- <-; try lia.
  all: unfold fexp, emin in *; lia.
Qed.

End Numbers.

(** ** Strings of decimal digits *)

Section Digits.
Import Js NormalizeSpec.

Lemma isDecimalDigit_cases a :
  isDecimalDigit a = true →
  In a ["0"; "1"; "2"; "3"; "4"; "5"; "6"; "7"; "8"; "9"]%char.
Proof.
  destruct a as [[] [] [] [] [] [] [] []]; cbn; intros H; try discriminate H; tauto.
Qed.

Ltac each_digit H :=
  apply isDecimalDigit_cases in H; cbn [In] in H;
  repeat (destruct H as [<-|H]); [..|destruct H].

Lemma digitValue_decimal a :
  isDecimalDigit a = true →
  digitValue 10 a = Some (Z.of_N (Ascii.N_of_ascii a) - 48)%Z.
Proof. intros H. each_digit H; reflexivity. Qed.

Lemma stripWhite_digit a rest :
  isDecimalDigit a = true → stripWhite true (String a rest) = String a rest.
Proof.
  intros H. destruct rest as [|b [|c rest]]; each_digit H; reflexivity.
Qed.

Lemma parseDigits_decimal s acc :
  allDigits s = true →
  parseDigits 10 acc s =
    match s with
    | EmptyString => acc
    | _ => Some (decimalValue (default 0%Z acc) s)
    end.
Proof.
  revert acc. induction s as [|a rest IH]; intros acc; [done|].
  cbn [allDigits parseDigits]. intros [Ha Hrest]%andb_prop.
  rewrite digitValue_decimal, IH by done.
  by destruct rest.
Qed.

Lemma parseIntString_decimal s :
  s ≠ "" → allDigits s = true → parseIntString s = NumberOfZ (decimalValue 0 s).
Proof.
  destruct s as [|a rest]; [done|]. intros _ Hall.
  pose proof (parseDigits_decimal (String a rest) None Hall) as Hparse.
  cbn [allDigits] in Hall. apply andb_prop in Hall as [Ha Hrest].
  unfold parseIntString, trimStart. rewrite stripWhite_digit by done.
  assert (match String a rest with
          | String "0" (String "x" more) => (16%Z, more)
          | String "0" (String "X" more) => (16%Z, more)
          | _ => (10%Z, String a rest)
          end = (10%Z, String a rest)) as Hradix.
  { destruct rest as [|b rest]; [by each_digit Ha|].
    cbn [allDigits] in Hrest. apply andb_prop in Hrest as [Hb _].
    each_digit Ha; try reflexivity. each_digit Hb; reflexivity. }
  each_digit Ha; cbv beta iota; try rewrite Hradix; rewrite Hparse; cbn [default];
    by destruct (decimalValue 0 _).
Qed.

End Digits.

(** ** [parseInt] and [trim] on sample strings *)

Example parseInt_samples :
  Js.parseIntString "3" = Js.NumberOfZ 3 ∧ Js.parseIntString "abc" = S754_nan
  ∧ Js.parseIntString "  -0x1Fg" = Js.NumberOfZ (-31) ∧ Js.parseIntString "-0" = S754_zero true
  ∧ Js.parseIntString "12px" = Js.NumberOfZ 12 ∧ Js.parseIntString "" = S754_nan
  ∧ Js.trim "  a b  " = "a b".
Proof. vm_compute. repeat split. Qed.

(** ** Typed readings *)

Section Readings.
Import Js Http.

Lemma isString_asString v : isString v = true → v = JStr (asString v).
Proof. by destruct v. Qed.

Lemma isNumber_asNumber v : isNumber v = true → v = JNum (asNumber v).
Proof. by destruct v. Qed.

Lemma someNotString_false items :
  someNotString items = false → items = JStr <$> (asString <$> items).
Proof.
  induction items as [|d items IH]; simpl; [done|].
  intros [Hd Hrest]%orb_false_elim.
  apply negb_false_iff, isString_asString in Hd.
  f_equal; [exact Hd | exact (IH Hrest)].
Qed.

Lemma isStringArray_asStringList v :
  isStringArray v = true → v = JArr (JStr <$> asStringList v).
Proof.
  destruct v; simpl; try done.
  intros H%negb_true_iff. f_equal. by apply someNotString_false.
Qed.

End Readings.

(** ** The request validator *)

Section Payload.
Import Js Http PayloadSpec.

Lemma assertPayloadShape_object obj :
  isNonNullObject obj = true → reportsFirstFailure obj.
Proof.
  intros Hobj. unfold reportsFirstFailure, firstFailure, assertPayloadShape.
  rewrite Hobj. cbn -[field].
  repeat match goal with
  | |- context [negb (?c (field obj ?k))] =>
      destruct (c (field obj k)) eqn:?; cbn -[field]; [|reflexivity]
  end.
  eexists; split; [reflexivity|].
  unfold carries; cbn -[field].
  repeat split;
    auto using isString_asString, isNumber_asNumber, isStringArray_asStringList.
Qed.

End Payload.

(** C2, the claim as it is stated, fails on [null]: the validator answers
    that the payload is not an object, which names no field, while the first
    field a [null] lacks is [user_id]. *)
Lemma assertPayloadShape_null_names_no_field :
  ¬ PayloadSpec.reportsFirstFailure Js.JNull
  ∧ ∀ f, Http.assertPayloadShape Js.JNull ≠ Http.fail (PayloadSpec.fieldError f).
Proof.
  split.
  - unfold PayloadSpec.reportsFirstFailure. cbn. discriminate.
  - intros f. destruct f; cbn; discriminate.
Qed.

(** C2, amended: on every non-null object (arrays included) the validator
    returns either the typed request, when all nine fields have their types,
    or the one error that names the first field failing its check in the
    order [user_id], [age], [height], [weight], [injuries], [workout_days],
    [fitness_goal], [fitness_level], [dietary_restrictions], and then no
    payload; on [null] and on any non-object it returns the one error
    "Payload is not an object." *)
Theorem assertPayloadShape_contract (obj : Js.JsValue) :
  if Js.isNonNullObject obj
  then PayloadSpec.reportsFirstFailure obj
  else Http.assertPayloadShape obj = Http.fail "Payload is not an object.".
Proof.
  destruct (Js.isNonNullObject obj) eqn:Hobj.
  - by apply assertPayloadShape_object.
  - unfold Http.assertPayloadShape. by rewrite Hobj.
Qed.

(** ** The envelope *)

Section Envelope.
Import Js Http.

Lemma unwrapNode_eq obj :
  unwrapNode obj =
    if isNonNullObject obj && isNonNullObject (field obj "node")
    then field obj "node" else or_else obj JNull.
Proof.
  unfold unwrapNode.
  destruct obj as [| | | | | |props]; try reflexivity.
  cbn. destruct (props !! "node") as [candidate|] eqn:Hnode; cbn.
  - reflexivity.
  - reflexivity.
Qed.

Lemma unwrapNode_falsy v : ToBoolean v = false → unwrapNode v = JNull.
Proof.
  intros Hv. rewrite unwrapNode_eq.
  destruct v; try discriminate; cbn in *; try reflexivity;
    unfold or_else; cbn; by rewrite Hv.
Qed.

Lemma assertPayloadShape_succeeds_object B p :
  assertPayloadShape B = succeed p → ∃ props, B = JObj props.
Proof.
  destruct B; try discriminate; eauto.
Qed.

End Envelope.

(** C5, the claim as it is stated, fails on a request that validates and has
    a [node] property holding an object: sent as it is, the inner object is
    validated; sent inside [{node: ...}], the request itself is. *)
Lemma nested_request_differs :
  (∃ p, Http.assertPayloadShape Samples.nestedRequest = Http.succeed p)
  ∧ Http.checkBody (Js.JObj {[ "node" := Samples.nestedRequest ]})
    ≠ Http.checkBody Samples.nestedRequest.
Proof.
  split.
  - eexists. vm_compute. reflexivity.
  - vm_compute. discriminate.
Qed.

(** C5, amended: for every request body [B] that validates and has no
    [node] property holding a non-null object, the body [{node: B}] is
    processed as [B] is: unwrapping and then validating gives the same
    result. *)
Theorem wrapped_body_same (B : Js.JsValue) (p : Http.GenerateProgramPayload)
    (Hvalid : Http.assertPayloadShape B = Http.succeed p)
    (Hnode : Js.isNonNullObject (Js.field B "node") = false) :
  Http.checkBody (Js.JObj {[ "node" := B ]}) = Http.checkBody B
  ∧ Http.checkBody B = Http.succeed p.
Proof.
  destruct (assertPayloadShape_succeeds_object B p Hvalid) as [props ->].
  unfold Http.checkBody. rewrite !unwrapNode_eq. rewrite Hnode.
  cbn -[Http.assertPayloadShape]. rewrite lookup_singleton_eq.
  cbn -[Http.assertPayloadShape]. by rewrite Hvalid.
Qed.

Lemma wrapped_body_same_witness :
  Http.checkBody (Js.JObj {[ "node" := Js.JObj (Samples.request "u1") ]})
  = Http.checkBody (Js.JObj (Samples.request "u1")).
Proof.
  refine (proj1 (wrapped_body_same (Js.JObj (Samples.request "u1")) _ _ _));
    vm_compute; reflexivity.
Defined.

(** C10: [unwrapNode] strips one level, and only from a non-null object
    whose [node] property holds a non-null object: [{node: {node: P}}] becomes
    [{node: P}]; an object whose [node] holds anything else goes to validation
    whole, its [node] property included; a falsy input ([null], [0], the empty
    string, [false]) becomes [null], which validation rejects as not an
    object. *)
Theorem unwrapNode_one_level :
  (∀ obj,
     Http.unwrapNode obj =
       if Js.isNonNullObject obj && Js.isNonNullObject (Js.field obj "node")
       then Js.field obj "node" else Js.or_else obj Js.JNull)
  ∧ (∀ P, Http.unwrapNode (Js.JObj {[ "node" := Js.JObj {[ "node" := P ]} ]})
          = Js.JObj {[ "node" := P ]})
  ∧ (∀ props v,
       props !! "node" = Some v → Js.isNonNullObject v = false →
       Http.unwrapNode (Js.JObj props) = Js.JObj props
       ∧ Http.checkBody (Js.JObj props) = Http.assertPayloadShape (Js.JObj props))
  ∧ (∀ v,
       Js.ToBoolean v = false →
       Http.unwrapNode v = Js.JNull
       ∧ Http.checkBody v = Http.fail "Payload is not an object.")
  ∧ Forall (λ v, Js.ToBoolean v = false)
      [Js.JNull; Js.JNum (S754_zero false); Js.JStr ""; Js.JBool false].
Proof.
  split; [exact unwrapNode_eq|].
  split; [intros P; by rewrite unwrapNode_eq|].
  split; [|split].
  - intros props v Hv Hnot.
    assert (Http.unwrapNode (Js.JObj props) = Js.JObj props) as Heq.
    { rewrite unwrapNode_eq. cbn. rewrite Hv. cbn. by rewrite Hnot. }
    split; [done|]. unfold Http.checkBody. by rewrite Heq.
  - intros v Hv. pose proof (unwrapNode_falsy v Hv) as Heq.
    split; [done|]. unfold Http.checkBody. by rewrite Heq.
  - repeat constructor.
Qed.

Lemma unwrapNode_one_level_witness :
  Http.unwrapNode (Js.JObj {[ "node" := Js.JStr "x"; "age" := Js.JNull ]})
    = Js.JObj {[ "node" := Js.JStr "x"; "age" := Js.JNull ]}
  ∧ Http.unwrapNode (Js.JNum (S754_zero false)) = Js.JNull.
Proof.
  destruct unwrapNode_one_level as (_ & _ & Hkeep & Hfalsy & _).
  split.
  - refine (proj1 (Hkeep _ (Js.JStr "x") _ _)); reflexivity.
  - refine (proj1 (Hfalsy _ _)); reflexivity.
Defined.

(** ** The workout validator *)

Section Workout.
Import Js Http WorkoutSpec.

Lemma append_assoc (s1 s2 s3 : string) : (s1 +:+ s2) +:+ s3 = s1 +:+ s2 +:+ s3.
Proof.
  induction s1 as [|a s1 IH]; [done|].
  change (String a ((s1 +:+ s2) +:+ s3) = String a (s1 +:+ s2 +:+ s3)).
  by f_equal.
Qed.

Lemma contains_infix before needle after :
  contains needle (before +:+ needle +:+ after).
Proof. by exists before, after. Qed.

Lemma contains_prefix_of needle longer text :
  contains longer text → (∃ rest, longer = needle +:+ rest) → contains needle text.
Proof.
  intros (before & after & ->) (rest & ->).
  exists before, (rest +:+ after). by rewrite append_assoc.
Qed.

(** The four messages of the inner loop and the three of the outer loop
    embed the index path of the element they are about. *)
Lemma routinePath_in_exercise i j : ∃ rest, routinePath i j = exercisePath i +:+ rest.
Proof. unfold routinePath. eauto. Qed.

Lemma repsError_eq i j :
  repsError i j = "Workout plan ‘" +:+ routinePath i j +:+ ".reps’ must be number.".
Proof.
  unfold repsError, repsPath, routinePath, exercisePath.
  by rewrite !append_assoc.
Qed.

Lemma repsError_contains i j : contains (repsPath i j) (repsError i j).
Proof. apply contains_infix. Qed.

Lemma checkRoutines_None i j routines :
  checkRoutines i j routines = None ↔ forallb wellFormedRoutine routines = true.
Proof.
  revert j. induction routines as [|r rest IH]; intros j; cbn -[field]; [done|].
  unfold wellFormedRoutine.
  destruct (isNonNullObject r); cbn -[field]; [|done].
  destruct (isString (field r "name")); cbn -[field]; [|done].
  destruct (notANumber (field r "sets")); cbn -[field]; [done|].
  destruct (notANumber (field r "reps")); cbn -[field]; [done|].
  apply IH.
Qed.

Lemma checkRoutines_Some i j routines err :
  checkRoutines i j routines = Some err →
  ∃ k r, routines !! k = Some r ∧ wellFormedRoutine r = false
         ∧ forallb wellFormedRoutine (take k routines) = true
         ∧ contains (routinePath i (j + k)) err.
Proof.
  revert j. induction routines as [|r rest IH]; intros j; cbn -[field]; [done|].
  destruct (wellFormedRoutine r) eqn:Hr.
  - pose proof Hr as Hparts. unfold wellFormedRoutine in Hparts.
    apply andb_prop in Hparts
      as [[[-> ->]%andb_prop ->%negb_true_iff]%andb_prop ->%negb_true_iff].
    cbn -[field]. intros (k & r' & ? & ? & ? & ?)%IH.
    exists (S k), r'. cbn -[field]. rewrite Hr.
    replace (j + S k) with (S j + k) by lia. done.
  - intros Herr. exists 0, r. rewrite Nat.add_0_r. repeat split; try done.
    unfold wellFormedRoutine in Hr. revert Herr.
    destruct (isNonNullObject r); cbn -[field];
      [|intros [= <-]; apply contains_infix].
    destruct (isString (field r "name")); cbn -[field];
      [|intros [= <-]; apply contains_infix].
    destruct (notANumber (field r "sets")); cbn -[field];
      [intros [= <-]; apply contains_infix|].
    destruct (notANumber (field r "reps")); cbn -[field];
      [intros [= <-]; apply contains_infix|].
    done.
Qed.

Lemma checkRoutines_reps i j0 routines j r :
  routines !! j = Some r →
  forallb wellFormedRoutine (take j routines) = true →
  isNonNullObject r = true → isString (field r "name") = true →
  notANumber (field r "sets") = false → notANumber (field r "reps") = true →
  checkRoutines i j0 routines = Some (repsError i (j0 + j)).
Proof.
  intros Hj Hbefore Hobj Hname Hsets Hreps. revert j0 j Hj Hbefore.
  induction routines as [|r0 rest IH]; intros j0 [|j] Hj Hbefore; try done.
  - injection Hj as ->. cbn -[field].
    rewrite Hobj, Hname, Hsets, Hreps. cbn -[field].
    by rewrite Nat.add_0_r, repsError_eq.
  - cbn -[field] in Hj, Hbefore |- *. apply andb_prop in Hbefore as [Hr0 Hbefore].
    unfold wellFormedRoutine in Hr0.
    apply andb_prop in Hr0
      as [[[-> ->]%andb_prop ->%negb_true_iff]%andb_prop ->%negb_true_iff].
    cbn -[field]. rewrite (IH (S j0) j Hj Hbefore). f_equal. f_equal. lia.
Qed.

Lemma checkExercises_None i exercises :
  checkExercises i exercises = None ↔ forallb wellFormedExercise exercises = true.
Proof.
  revert i. induction exercises as [|ex rest IH]; intros i; cbn -[field]; [done|].
  unfold wellFormedExercise.
  destruct (isNonNullObject ex); cbn -[field]; [|done].
  destruct (isString (field ex "day")); cbn -[field]; [|done].
  destruct (field ex "routines") as [| | | | |routines|]; try done.
  destruct (checkRoutines i 0 routines) as [err|] eqn:Hinner.
  - destruct (forallb wellFormedRoutine routines) eqn:Hall; [|done].
    pose proof (proj2 (checkRoutines_None i 0 routines) Hall) as Hnone.
    by rewrite Hnone in Hinner.
  - rewrite (proj1 (checkRoutines_None i 0 routines) Hinner). apply IH.
Qed.

Lemma checkExercises_Some i exercises err :
  checkExercises i exercises = Some err →
  ∃ k ex, exercises !! k = Some ex ∧ wellFormedExercise ex = false
          ∧ forallb wellFormedExercise (take k exercises) = true
          ∧ contains (exercisePath (i + k)) err.
Proof.
  revert i. induction exercises as [|ex rest IH]; intros i; [done|].
  destruct (wellFormedExercise ex) eqn:Hex.
  - pose proof (proj2 (checkExercises_None i [ex])) as Hstep.
    cbn -[field] in Hstep |- *. rewrite Hex in Hstep. specialize (Hstep eq_refl).
    destruct (isNonNullObject ex); [|done]. cbn -[field] in Hstep |- *.
    destruct (isString (field ex "day")); [|done]. cbn -[field] in Hstep |- *.
    destruct (field ex "routines") as [| | | | |routines|]; try done.
    destruct (checkRoutines i 0 routines); [done|].
    intros (k & ex' & ? & ? & ? & ?)%IH.
    exists (S k), ex'. cbn -[field]. rewrite Hex.
    replace (i + S k) with (S i + k) by lia. done.
  - intros Herr. exists 0, ex. rewrite Nat.add_0_r. repeat split; try done.
    revert Herr. cbn -[field]. unfold wellFormedExercise in Hex.
    destruct (isNonNullObject ex); cbn -[field] in Hex |- *;
      [|intros [= <-]; apply contains_infix].
    destruct (isString (field ex "day")); cbn -[field] in Hex |- *;
      [|intros [= <-]; apply contains_infix].
    destruct (field ex "routines") as [| | | | |routines|];
      try (intros [= <-]; apply contains_infix).
    destruct (checkRoutines i 0 routines) as [inner|] eqn:Hinner.
    + intros [= <-]. apply checkRoutines_Some in Hinner as (k & _ & _ & _ & _ & Hin).
      eapply contains_prefix_of; [exact Hin|apply routinePath_in_exercise].
    + by rewrite (proj1 (checkRoutines_None i 0 routines) Hinner) in Hex.
Qed.

Lemma checkExercises_reps i0 exercises i ex routines j r :
  exercises !! i = Some ex →
  forallb wellFormedExercise (take i exercises) = true →
  isNonNullObject ex = true → isString (field ex "day") = true →
  field ex "routines" = JArr routines →
  routines !! j = Some r →
  forallb wellFormedRoutine (take j routines) = true →
  isNonNullObject r = true → isString (field r "name") = true →
  notANumber (field r "sets") = false → notANumber (field r "reps") = true →
  checkExercises i0 exercises = Some (repsError (i0 + i) j).
Proof.
  intros Hi Hbefore Hobj Hday Hroutines Hj Hrs Hr Hname Hsets Hreps.
  revert i0 i Hi Hbefore.
  induction exercises as [|ex0 rest IH]; intros i0 [|i] Hi Hbefore; try done.
  - injection Hi as ->. cbn -[field].
    rewrite Hobj, Hday, Hroutines. cbn -[field].
    rewrite (checkRoutines_reps i0 0 routines j r); try done.
    by rewrite Nat.add_0_r.
  - cbn -[field] in Hi, Hbefore. apply andb_prop in Hbefore as [Hex0 Hbefore].
    pose proof (proj2 (checkExercises_None i0 [ex0])) as Hstep.
    cbn -[field] in Hstep |- *. rewrite Hex0 in Hstep. specialize (Hstep eq_refl).
    destruct (isNonNullObject ex0); [|done]. cbn -[field] in Hstep |- *.
    destruct (isString (field ex0 "day")); [|done]. cbn -[field] in Hstep |- *.
    destruct (field ex0 "routines") as [| | | | |routines0|]; try done.
    destruct (checkRoutines i0 0 routines0); [done|].
    rewrite (IH (S i0) i Hi Hbefore). f_equal. f_equal. lia.
Qed.

Lemma checkExercises_skip i exercises k :
  forallb wellFormedExercise (take k exercises) = true →
  checkExercises i exercises = checkExercises (i + k) (drop k exercises).
Proof.
  revert i exercises. induction k as [|k IH]; intros i exercises Hbefore.
  - by rewrite Nat.add_0_r.
  - destruct exercises as [|ex rest]; [done|].
    cbn -[field] in Hbefore. apply andb_prop in Hbefore as [Hex Hbefore].
    pose proof (proj2 (checkExercises_None i [ex])) as Hstep.
    cbn -[field] in Hstep |- *. rewrite Hex in Hstep. specialize (Hstep eq_refl).
    destruct (isNonNullObject ex); [|done]. cbn -[field] in Hstep |- *.
    destruct (isString (field ex "day")); [|done]. cbn -[field] in Hstep |- *.
    destruct (field ex "routines") as [| | | | |routines|]; try done.
    destruct (checkRoutines i 0 routines); [done|].
    rewrite (IH (S i) rest Hbefore). f_equal. lia.
Qed.

Lemma assertWorkoutShape_accepts obj :
  assertWorkoutShape obj = succeed obj ↔ wellFormedWorkout obj = true.
Proof.
  unfold assertWorkoutShape, wellFormedWorkout.
  destruct (isNonNullObject obj); cbn -[field]; [|done].
  destruct (isStringArray (field obj "schedule")); cbn -[field]; [|done].
  destruct (field obj "exercises") as [| | | | |exercises|]; try done.
  rewrite <- (checkExercises_None 0).
  destruct (checkExercises 0 exercises); split; intros; done || discriminate.
Qed.

Lemma assertWorkoutShape_total obj :
  assertWorkoutShape obj = succeed obj ∨ ∃ err, assertWorkoutShape obj = fail err.
Proof.
  unfold assertWorkoutShape.
  destruct (isNonNullObject obj); cbn -[field]; [|eauto].
  destruct (isStringArray (field obj "schedule")); cbn -[field]; [|eauto].
  destruct (field obj "exercises") as [| | | | |exercises|]; eauto.
  destruct (checkExercises 0 exercises); eauto.
Qed.

End Workout.

(** C6: a workout plan that is well formed up to [exercises[i].routines[j]]
    and whose [reps] there is not a number, or is NaN, is rejected with an
    error that holds the index path [exercises[i].routines[j].reps].  More
    generally every element of both nested lists is checked: the plan is
    accepted exactly when all of them are well formed, and the error of a
    rejected list embeds the index path of its first ill-formed exercise and,
    inside it, of the first ill-formed routine. *)
Theorem assertWorkoutShape_index_path (obj : Js.JsValue) (exercises : list Js.JsValue)
    (Hobj : Js.isNonNullObject obj = true)
    (Hschedule : Js.isStringArray (Js.field obj "schedule") = true)
    (Hexercises : Js.field obj "exercises" = Js.JArr exercises) :
  (∀ i ex routines j r,
     exercises !! i = Some ex →
     forallb WorkoutSpec.wellFormedExercise (take i exercises) = true →
     Js.isNonNullObject ex = true → Js.isString (Js.field ex "day") = true →
     Js.field ex "routines" = Js.JArr routines →
     routines !! j = Some r →
     forallb WorkoutSpec.wellFormedRoutine (take j routines) = true →
     Js.isNonNullObject r = true → Js.isString (Js.field r "name") = true →
     Http.notANumber (Js.field r "sets") = false →
     Http.notANumber (Js.field r "reps") = true →
     Http.assertWorkoutShape obj = Http.fail (WorkoutSpec.repsError i j)
     ∧ WorkoutSpec.contains (WorkoutSpec.repsPath i j) (WorkoutSpec.repsError i j))
  ∧ (Http.assertWorkoutShape obj = Http.succeed obj
     ↔ forallb WorkoutSpec.wellFormedExercise exercises = true)
  ∧ (∀ err,
       Http.assertWorkoutShape obj = Http.fail err →
       ∃ i ex,
         exercises !! i = Some ex
         ∧ WorkoutSpec.wellFormedExercise ex = false
         ∧ forallb WorkoutSpec.wellFormedExercise (take i exercises) = true
         ∧ WorkoutSpec.contains (Http.exercisePath i) err
         ∧ ∀ routines,
             Js.isNonNullObject ex = true → Js.isString (Js.field ex "day") = true →
             Js.field ex "routines" = Js.JArr routines →
             ∃ j r,
               routines !! j = Some r
               ∧ WorkoutSpec.wellFormedRoutine r = false
               ∧ forallb WorkoutSpec.wellFormedRoutine (take j routines) = true
               ∧ WorkoutSpec.contains (Http.routinePath i j) err).
Proof.
  assert (Http.assertWorkoutShape obj =
            match Http.checkExercises 0 exercises with
            | Some err => Http.fail err
            | None => Http.succeed obj
            end) as Hshape.
  { unfold Http.assertWorkoutShape. by rewrite Hobj, Hschedule, Hexercises. }
  split; [|split].
  - intros i ex routines j r Hi Hbefore Hex Hday Hroutines Hj Hrs Hr Hname Hsets Hreps.
    split; [|apply repsError_contains].
    rewrite Hshape.
    by rewrite (checkExercises_reps 0 exercises i ex routines j r).
  - rewrite assertWorkoutShape_accepts. unfold WorkoutSpec.wellFormedWorkout.
    by rewrite Hobj, Hschedule, Hexercises.
  - intros err. rewrite Hshape.
    destruct (Http.checkExercises 0 exercises) as [err'|] eqn:Hcheck; [|done].
    intros [= ->].
    destruct (checkExercises_Some 0 exercises err Hcheck)
      as (i & ex & Hi & Hex & Hbefore & Hpath).
    exists i, ex. repeat split; try done.
    intros routines Hexobj Hday Hroutines.
    rewrite (checkExercises_skip 0 exercises i Hbefore) in Hcheck.
    rewrite (drop_S _ _ _ Hi) in Hcheck. cbn -[Js.field] in Hcheck.
    rewrite Hexobj, Hday, Hroutines in Hcheck. cbn -[Js.field] in Hcheck.
    destruct (Http.checkRoutines i 0 routines) as [inner|] eqn:Hinner.
    + injection Hcheck as ->.
      by apply checkRoutines_Some in Hinner.
    + unfold WorkoutSpec.wellFormedExercise in Hex.
      rewrite Hexobj, Hday, Hroutines in Hex.
      by rewrite (proj1 (checkRoutines_None i 0 routines) Hinner) in Hex.
Qed.

Lemma assertWorkoutShape_index_path_witness :
  Http.assertWorkoutShape Samples.badRepsPlan = Http.fail (WorkoutSpec.repsError 1 1)
  ∧ WorkoutSpec.repsError 1 1
    = "Workout plan ‘exercises[1].routines[1].reps’ must be number.".
Proof.
  split; [|reflexivity].
  refine (proj1 (proj1 (assertWorkoutShape_index_path Samples.badRepsPlan _ _ _ _)
                   1 _ _ 1 _ _ _ _ _ _ _ _ _ _ _ _));
    vm_compute; reflexivity.
Defined.

(** ** The workout normalizer *)

Section Normalize.
Import Js Http WorkoutSpec NormalizeSpec.
Variable NumberToString : number → string.

Lemma or_else_number n fallback :
  or_else (JNum n) (JNum (NumberOfZ fallback)) = parsedOr fallback n.
Proof.
  unfold or_else, parsedOr, falsyNumber. cbn.
  rewrite (orb_comm (isZero n)). by destruct (isNaN n || isZero n).
Qed.

Lemma numberOr_number fallback n :
  numberOr NumberToString fallback (JNum n) = Normal (JNum n).
Proof. reflexivity. Qed.

Lemma numberOr_parse fallback v :
  isNumber v = false →
  numberOr NumberToString fallback v =
    (n ← parseInt NumberToString v; Normal (parsedOr fallback n)).
Proof.
  intros Hv. unfold numberOr. rewrite Hv.
  destruct (parseInt NumberToString v) as [n|e]; cbn; [|done].
  by rewrite or_else_number.
Qed.

Lemma numberOr_string fallback s :
  numberOr NumberToString fallback (JStr s) = Normal (parsedOr fallback (parseIntString s)).
Proof. by rewrite numberOr_parse. Qed.

Lemma numberOr_decimal fallback s :
  s ≠ "" → allDigits s = true →
  numberOr NumberToString fallback (JStr s) =
    Normal (JNum (NumberOfZ (if (decimalValue 0 s =? 0)%Z then fallback
                             else decimalValue 0 s))).
Proof.
  intros Hs Hall. rewrite numberOr_string, parseIntString_decimal by done.
  unfold parsedOr, falsyNumber.
  destruct (Z.eqb_spec (decimalValue 0 s) 0) as [->|Hne]; [done|].
  by destruct (NumberOfZ_truthy _ Hne) as [-> ->].
Qed.

Lemma numberOr_absent fallback v :
  v = JUndefined ∨ v = JNull ∨ (∃ b, v = JBool b) →
  numberOr NumberToString fallback v = Normal (JNum (NumberOfZ fallback)).
Proof. intros [->|[->|[[] ->]]]; reflexivity. Qed.

Lemma numberOr_kept fallback v :
  notANumber v = false → numberOr NumberToString fallback v = Normal v.
Proof. by destruct v. Qed.

Lemma mapM_Normal {A B} (f : A → Completion B) (g : A → B) (xs : list A) :
  Forall (λ x, f x = Normal (g x)) xs → mapM f xs = Normal (g <$> xs).
Proof.
  induction 1 as [|x xs Hx _ IH]; [done|].
  cbn. rewrite Hx. cbn. rewrite IH. done.
Qed.

Lemma validateRoutine_wellFormed r :
  wellFormedRoutine r = true → validateRoutine NumberToString r = Normal (keepRoutine r).
Proof.
  unfold wellFormedRoutine.
  intros [[[Hobj Hname]%andb_prop Hsets%negb_true_iff]%andb_prop Hreps%negb_true_iff]%andb_prop.
  unfold validateRoutine. destruct r; try discriminate; cbn -[field numberOr].
  all: rewrite !numberOr_kept by done; reflexivity.
Qed.

Lemma validateExercise_wellFormed ex :
  wellFormedExercise ex = true → validateExercise NumberToString ex = Normal (keepExercise ex).
Proof.
  unfold wellFormedExercise, keepExercise, routinesOf.
  intros [[Hobj Hday]%andb_prop Hroutines]%andb_prop.
  destruct (field ex "routines") as [| | | | |routines|] eqn:Hfield; try discriminate.
  unfold validateExercise.
  destruct ex; try discriminate; cbn -[field validateRoutine].
  all: rewrite Hfield; cbn -[field validateRoutine].
  all: rewrite (mapM_Normal _ keepRoutine);
    [reflexivity|].
  all: apply Forall_forall; intros r Hr;
    apply validateRoutine_wellFormed;
    by apply (proj1 (forallb_forall _ _) Hroutines), list_elem_of_In.
Qed.

Lemma validateWorkoutPlan_wellFormed plan :
  wellFormedWorkout plan = true →
  validateWorkoutPlan NumberToString plan = Normal (keepWorkout plan).
Proof.
  unfold wellFormedWorkout, keepWorkout, exercisesOf.
  intros [[Hobj Hschedule]%andb_prop Hexercises]%andb_prop.
  destruct (field plan "exercises") as [| | | | |exercises|] eqn:Hfield; try discriminate.
  unfold validateWorkoutPlan.
  destruct plan; try discriminate; cbn -[field validateExercise].
  all: rewrite Hfield; cbn -[field validateExercise].
  all: rewrite (mapM_Normal _ keepExercise);
    [reflexivity|].
  all: apply Forall_forall; intros ex Hex;
    apply validateExercise_wellFormed;
    by apply (proj1 (forallb_forall _ _) Hexercises), list_elem_of_In.
Qed.

Lemma validateRoutine_fields r out :
  validateRoutine NumberToString r = Normal out →
  field out "name" = field r "name"
  ∧ numberOr NumberToString 1 (field r "sets") = Normal (field out "sets")
  ∧ numberOr NumberToString 10 (field r "reps") = Normal (field out "reps").
Proof.
  unfold validateRoutine.
  destruct r; try discriminate; cbn -[field numberOr].
  all: destruct (numberOr NumberToString 1 _) as [sets|]; [|discriminate].
  all: cbn -[field numberOr].
  all: destruct (numberOr NumberToString 10 _) as [reps|]; [|discriminate].
  all: cbn -[field numberOr]; intros [= <-]; done.
Qed.

Lemma validateWorkoutPlan_schedule plan out :
  validateWorkoutPlan NumberToString plan = Normal out →
  field out "schedule" = field plan "schedule".
Proof.
  unfold validateWorkoutPlan.
  destruct plan; try discriminate; cbn -[field mapArray].
  all: destruct (mapArray _ _) as [exercises|]; [|discriminate].
  all: cbn -[field]; intros [= <-]; done.
Qed.

Lemma mapM_Normal_inv {A B} (f : A → Completion B) xs ys :
  mapM f xs = Normal ys → Forall2 (λ x y, f x = Normal y) xs ys.
Proof.
  revert ys. induction xs as [|x xs IH]; intros ys; cbn.
  - intros [= <-]. constructor.
  - destruct (f x) as [y|] eqn:Hx; cbn; [|done].
    destruct (mapM f xs) as [ys'|]; cbn; [|done].
    intros [= <-]. constructor; [done|]. by apply IH.
Qed.

Lemma numberOr_isNumber fallback v out :
  numberOr NumberToString fallback v = Normal out → isNumber out = true.
Proof.
  unfold numberOr. destruct (isNumber v) eqn:Hv; [by intros [= <-]|].
  destruct (parseInt NumberToString v) as [n|]; cbn; [|done].
  intros [= <-]. unfold or_else. by case_match.
Qed.

Lemma validateRoutine_out r out :
  validateRoutine NumberToString r = Normal out →
  isNumber (field out "sets") = true ∧ isNumber (field out "reps") = true
  ∧ out = keepRoutine out.
Proof.
  unfold validateRoutine.
  destruct (getProp r "name") as [name|]; cbn -[numberOr]; [|done].
  destruct (getProp r "sets") as [rawSets|]; cbn -[numberOr]; [|done].
  destruct (numberOr NumberToString 1 rawSets) as [sets|] eqn:Hsets;
    cbn -[numberOr]; [|done].
  destruct (getProp r "reps") as [rawReps|]; cbn -[numberOr]; [|done].
  destruct (numberOr NumberToString 10 rawReps) as [reps|] eqn:Hreps;
    cbn -[numberOr]; [|done].
  intros [= <-].
  apply numberOr_isNumber in Hsets, Hreps. by repeat split.
Qed.

Lemma validateWorkoutPlan_out plan out :
  validateWorkoutPlan NumberToString plan = Normal out →
  ∃ exercises,
    out = JObj {[ "schedule" := field plan "schedule"; "exercises" := JArr exercises ]}
    ∧ Forall2 (λ ex ex', validateExercise NumberToString ex = Normal ex')
        (exercisesOf plan) exercises.
Proof.
  unfold validateWorkoutPlan, exercisesOf.
  destruct (getProp plan "schedule") as [schedule|] eqn:Hschedule;
    cbn -[validateExercise]; [|done].
  assert (schedule = field plan "schedule" ∧ getProp plan "exercises"
            = Normal (field plan "exercises")) as [-> ->].
  { destruct plan; try done; by injection Hschedule as <-. }
  cbn -[validateExercise field].
  destruct (field plan "exercises") as [| | | | |items|]; try done.
  cbn -[validateExercise].
  destruct (mapM (validateExercise NumberToString) items) as [exercises|] eqn:Hmap;
    cbn -[validateExercise]; [|done].
  intros [= <-]. exists exercises. split; [done|]. by apply mapM_Normal_inv.
Qed.

Lemma validateExercise_inv ex out :
  validateExercise NumberToString ex = Normal out →
  ∃ routines,
    out = JObj {[ "day" := field ex "day"; "routines" := JArr routines ]}
    ∧ Forall2 (λ r r', validateRoutine NumberToString r = Normal r') (routinesOf ex) routines.
Proof.
  unfold validateExercise, routinesOf.
  destruct (getProp ex "day") as [day|] eqn:Hday; cbn -[validateRoutine]; [|done].
  assert (day = field ex "day" ∧ getProp ex "routines" = Normal (field ex "routines"))
    as [-> ->].
  { destruct ex; try done; by injection Hday as <-. }
  cbn -[validateRoutine field].
  destruct (field ex "routines") as [| | | | |items|]; try done.
  cbn -[validateRoutine].
  destruct (mapM (validateRoutine NumberToString) items) as [routines|] eqn:Hmap;
    cbn -[validateRoutine]; [|done].
  intros [= <-]. exists routines. split; [done|]. by apply mapM_Normal_inv.
Qed.

(** Whatever the normalizer returns is the plan, routine for routine. *)
Lemma validateWorkoutPlan_routinewise plan out :
  validateWorkoutPlan NumberToString plan = Normal out →
  routinewise
    (λ r r',
       field r' "name" = field r "name"
       ∧ numberOr NumberToString 1 (field r "sets") = Normal (field r' "sets")
       ∧ numberOr NumberToString 10 (field r "reps") = Normal (field r' "reps")
       ∧ r' = keepRoutine r')
    plan out.
Proof.
  intros (exercises & -> & Hall)%validateWorkoutPlan_out.
  exists exercises. split; [done|].
  eapply Forall2_impl; [exact Hall|]. cbn beta.
  intros ex ex' (routines & -> & Hroutines)%validateExercise_inv.
  exists routines. split; [done|].
  eapply Forall2_impl; [exact Hroutines|]. cbn beta.
  intros r r' Hr.
  destruct (validateRoutine_fields r r' Hr) as (Hname & Hsets & Hreps).
  apply validateRoutine_out in Hr as (_ & _ & Hkeep). done.
Qed.

Lemma numberOr_plain fallback v :
  plainCount v = true →
  numberOr NumberToString fallback v = Normal (normalCount fallback v).
Proof.
  destruct v as [| |[]|n|s| |]; try done; intros _.
  apply numberOr_string.
Qed.

Lemma validateRoutine_plain r :
  plainRoutine r = true → validateRoutine NumberToString r = Normal (normalRoutine r).
Proof.
  unfold plainRoutine. intros [[Hobj Hsets]%andb_prop Hreps]%andb_prop.
  unfold validateRoutine.
  assert (∀ k, getProp r k = Normal (field r k)) as Hget by (by destruct r).
  rewrite !Hget. cbn [mbind Completion_bind].
  rewrite (numberOr_plain 1) by done. cbn [mbind Completion_bind].
  by rewrite (numberOr_plain 10).
Qed.

Lemma validateExercise_plain ex :
  plainExercise ex = true → validateExercise NumberToString ex = Normal (normalExercise ex).
Proof.
  unfold plainExercise, normalExercise, routinesOf.
  intros [Hobj Hroutines]%andb_prop.
  destruct (field ex "routines") as [| | | | |routines|] eqn:Hfield; try discriminate.
  unfold validateExercise.
  assert (∀ k, getProp ex k = Normal (field ex k)) as Hget by (by destruct ex).
  rewrite !Hget, Hfield. cbn [mbind Completion_bind mapArray].
  rewrite (mapM_Normal _ normalRoutine); [reflexivity|].
  apply Forall_forall. intros r Hr. apply validateRoutine_plain.
  by apply (proj1 (forallb_forall _ _) Hroutines), list_elem_of_In.
Qed.

Lemma validateWorkoutPlan_plain plan :
  plainWorkout plan = true →
  validateWorkoutPlan NumberToString plan = Normal (normalWorkout plan).
Proof.
  unfold plainWorkout, normalWorkout, exercisesOf.
  intros [Hobj Hexercises]%andb_prop.
  destruct (field plan "exercises") as [| | | | |exercises|] eqn:Hfield; try discriminate.
  unfold validateWorkoutPlan.
  assert (∀ k, getProp plan k = Normal (field plan k)) as Hget by (by destruct plan).
  rewrite !Hget, Hfield. cbn [mbind Completion_bind mapArray].
  rewrite (mapM_Normal _ normalExercise); [reflexivity|].
  apply Forall_forall. intros ex Hex. apply validateExercise_plain.
  by apply (proj1 (forallb_forall _ _) Hexercises), list_elem_of_In.
Qed.

End Normalize.

(** C4: [validateWorkoutPlan] passes [schedule] through unchanged and
    returns the exercises one for one, each with its [day] and its routines
    one for one; every routine comes back with its [name] and with nothing
    but [name], [sets] and [reps], where [sets] and [reps] are kept when they
    are numbers and are otherwise parsed as integers, 1 taking the place of
    [sets] and 10 that of [reps] when the parse gives NaN or zero.  So a plan
    whose counts are numbers, strings, booleans, [null] or absent is
    normalized without an exception to the plan the rule describes; a string
    of decimal digits becomes the number it writes unless that is zero; in a
    plan, [sets: "3"] becomes 3, [sets: "abc"] becomes 1 and [reps: "abc"]
    becomes 10; and a plan that passed shape validation comes back with every
    field of the schema as it was. *)
Theorem validateWorkoutPlan_normalizes (NumberToString : Js.number → string) :
  (∀ plan out,
     Http.validateWorkoutPlan NumberToString plan = Js.Normal out →
     NormalizeSpec.routinewise
       (λ r r',
          Js.field r' "name" = Js.field r "name"
          ∧ Http.numberOr NumberToString 1 (Js.field r "sets") = Js.Normal (Js.field r' "sets")
          ∧ Http.numberOr NumberToString 10 (Js.field r "reps")
            = Js.Normal (Js.field r' "reps")
          ∧ r' = NormalizeSpec.keepRoutine r')
       plan out)
  ∧ (∀ plan,
       NormalizeSpec.plainWorkout plan = true →
       Http.validateWorkoutPlan NumberToString plan
         = Js.Normal (NormalizeSpec.normalWorkout plan))
  ∧ (∀ schedule day name,
       Http.validateWorkoutPlan NumberToString
         (Samples.oneDay schedule day
            [Samples.routine name (Js.JStr "3") (Js.JStr "abc");
             Samples.routine name (Js.JStr "abc") (Js.JStr "12")])
       = Js.Normal
           (Samples.oneDay schedule day
              [Samples.routine name (Js.JNum (Js.NumberOfZ 3)) (Js.JNum (Js.NumberOfZ 10));
               Samples.routine name (Js.JNum (Js.NumberOfZ 1)) (Js.JNum (Js.NumberOfZ 12))]))
  ∧ (∀ r out,
       Http.validateRoutine NumberToString r = Js.Normal out →
       Js.field out "name" = Js.field r "name"
       ∧ Http.numberOr NumberToString 1 (Js.field r "sets") = Js.Normal (Js.field out "sets")
       ∧ Http.numberOr NumberToString 10 (Js.field r "reps") = Js.Normal (Js.field out "reps"))
  ∧ (∀ fallback n,
       Http.numberOr NumberToString fallback (Js.JNum n) = Js.Normal (Js.JNum n))
  ∧ (∀ fallback v,
       Js.isNumber v = false →
       Http.numberOr NumberToString fallback v =
         (n ← Js.parseInt NumberToString v;
          Js.Normal (NormalizeSpec.parsedOr fallback n)))
  ∧ (∀ fallback s,
       Http.numberOr NumberToString fallback (Js.JStr s) =
         Js.Normal (NormalizeSpec.parsedOr fallback (Js.parseIntString s)))
  ∧ (∀ fallback s,
       s ≠ "" → NormalizeSpec.allDigits s = true →
       Http.numberOr NumberToString fallback (Js.JStr s) =
         Js.Normal (Js.JNum (Js.NumberOfZ
           (if (NormalizeSpec.decimalValue 0 s =? 0)%Z then fallback
            else NormalizeSpec.decimalValue 0 s))))
  ∧ (∀ fallback v,
       v = Js.JUndefined ∨ v = Js.JNull ∨ (∃ b, v = Js.JBool b) →
       Http.numberOr NumberToString fallback v
         = Js.Normal (Js.JNum (Js.NumberOfZ fallback)))
  ∧ (∀ name,
       Http.validateRoutine NumberToString (Samples.routine name (Js.JStr "3") (Js.JStr "abc"))
         = Js.Normal (Samples.routine name (Js.JNum (Js.NumberOfZ 3)) (Js.JNum (Js.NumberOfZ 10)))
       ∧ Http.validateRoutine NumberToString (Samples.routine name (Js.JStr "abc") (Js.JStr "12"))
         = Js.Normal (Samples.routine name (Js.JNum (Js.NumberOfZ 1)) (Js.JNum (Js.NumberOfZ 12))))
  ∧ (∀ plan out,
       Http.validateWorkoutPlan NumberToString plan = Js.Normal out →
       Js.field out "schedule" = Js.field plan "schedule")
  ∧ (∀ plan,
       WorkoutSpec.wellFormedWorkout plan = true →
       Http.validateWorkoutPlan NumberToString plan = Js.Normal (NormalizeSpec.keepWorkout plan)).
Proof.
  split; [apply validateWorkoutPlan_routinewise|].
  split; [apply validateWorkoutPlan_plain|].
  split; [intros schedule day name; reflexivity|].
  split; [apply validateRoutine_fields|].
  split; [apply numberOr_number|].
  split; [apply numberOr_parse|].
  split; [apply numberOr_string|].
  split; [apply numberOr_decimal|].
  split; [apply numberOr_absent|].
  split; [intros name; split; reflexivity|].
  split; [apply validateWorkoutPlan_schedule|].
  apply validateWorkoutPlan_wellFormed.
Qed.

Lemma validateWorkoutPlan_normalizes_witness :
  Http.validateWorkoutPlan Samples.integerText Samples.textualPlan
    = Js.Normal
        (Samples.oneDay (Js.JArr [Js.JStr "Monday"]) "Monday"
           [Samples.routine "Squat" (Js.JNum (Js.NumberOfZ 4)) (Js.JNum (Js.NumberOfZ (-12)));
            Samples.routine "Plank" (Js.JNum (Js.NumberOfZ 1)) (Js.JNum (Js.NumberOfZ 10))])
  ∧ Http.numberOr Samples.integerText 1 (Js.JArr [Js.JNum (Js.NumberOfZ 42); Js.JNull])
    = Js.Normal (Js.JNum (Js.NumberOfZ 42))
  ∧ Http.validateWorkoutPlan Samples.integerText Samples.goodPlan
    = Js.Normal (NormalizeSpec.keepWorkout Samples.goodPlan).
Proof.
  destruct (validateWorkoutPlan_normalizes Samples.integerText)
    as (_ & Hplain & _ & _ & _ & Hparse & _ & _ & _ & _ & _ & Hplan).
  split; [|split].
  - rewrite Hplain by reflexivity. vm_compute. reflexivity.
  - rewrite Hparse by reflexivity. vm_compute. reflexivity.
  - apply Hplan. vm_compute. reflexivity.
Defined.

(** ** The plan table *)

Section PlanTable.
Import Js Plans PlansSpec.

Lemma elem_of_documents (db : Table) i d : (i, d) ∈ documents db ↔ db !! i = Some d.
Proof.
  unfold documents. rewrite elem_of_lookup_imap. split.
  - by intros (j & y & [= -> ->] & ?).
  - intros ?. by exists i, d.
Qed.

Lemma documents_snoc (db : Table) d :
  documents (db ++ [d]) = documents db ++ [(length db, d)].
Proof. unfold documents. rewrite imap_app. cbn. by rewrite Nat.add_0_r. Qed.

Lemma deactivate_idemp d : deactivate (deactivate d) = deactivate d.
Proof. reflexivity. Qed.

Lemma deactivate_inactive d : isActive d = false → deactivate d = d.
Proof. destruct d; cbn; by intros ->. Qed.

(** The loop of patches makes inactive exactly the documents it is given. *)
Lemma patchAll_lookup (targets : list Doc) (db : Table) :
  (∀ x, x ∈ targets → x.1 < length db) →
  ∃ db',
    patchAll db targets = Normal db'
    ∧ length db' = length db
    ∧ ∀ k, db' !! k = if decide (k ∈ targets.*1) then deactivate <$> db !! k else db !! k.
Proof.
  revert db. induction targets as [|x rest IH]; intros db Hbound.
  - exists db. split; [done|]. split; [done|]. intros k.
    rewrite decide_False; [done|]. set_solver.
  - assert (x.1 < length db) as Hx by (apply Hbound; set_solver).
    destruct (lookup_lt_is_Some_2 db x.1 Hx) as [d Hd].
    cbn. unfold patch. rewrite Hd. cbn.
    destruct (IH (<[x.1:=deactivate d]> db)) as (db' & Hrun & Hlen & Hlookup).
    { intros y Hy. rewrite length_insert. apply Hbound. set_solver. }
    exists db'. split; [done|]. split; [by rewrite Hlen, length_insert|].
    intros k. rewrite Hlookup.
    destruct (decide (k = x.1)) as [->|Hne].
    + rewrite list_lookup_insert_eq by done. rewrite Hd.
      rewrite (decide_True (P := x.1 ∈ x.1 :: rest.*1)) by set_solver.
      by destruct (decide (x.1 ∈ rest.*1)).
    + rewrite list_lookup_insert_ne by done.
      destruct (decide (k ∈ rest.*1)).
      * rewrite decide_True; [done|]. set_solver.
      * rewrite decide_False; [done|]. set_solver.
Qed.

Lemma createPlan_handler_eq args db :
  createPlan_handler args db
  = Normal (length db, deactivateUser (userId args) db ++ [args]).
Proof.
  unfold createPlan_handler.
  set (targets := filter _ (by_user_id (userId args) db)).
  assert (∀ i d, (i, d) ∈ targets ↔
            db !! i = Some d ∧ userId d = userId args ∧ isActive d = true) as Htargets.
  { intros i d. unfold targets, by_user_id.
    rewrite !list_elem_of_filter, elem_of_documents. cbn. naive_solver. }
  destruct (patchAll_lookup targets db) as (db' & -> & Hlen & Hlookup).
  { intros [i d] [Hi _]%Htargets. by eapply lookup_lt_Some. }
  cbn. unfold insert. rewrite Hlen. do 3 f_equal.
  apply list_eq. intros k. rewrite Hlookup. unfold deactivateUser.
  rewrite list_lookup_fmap.
  destruct (db !! k) as [d|] eqn:Hd; cbn; [|by case_decide].
  destruct (decide (k ∈ targets.*1)) as [Hin|Hout]; cbn.
  - apply list_elem_of_fmap in Hin as ([i d'] & -> & Hin). cbn in Hd.
    apply Htargets in Hin as (Hd' & Hu & _).
    assert (d' = d) as -> by congruence. by rewrite decide_True.
  - case_decide as Hu; [|done].
    destruct (isActive d) eqn:Hactive; [|by rewrite deactivate_inactive].
    destruct Hout. apply list_elem_of_fmap. exists (k, d). split; [done|].
    by apply Htargets.
Qed.

Lemma createPlan_eq args db :
  createPlan_args args = true →
  createPlan args db = Normal (length db, deactivateUser (userId args) db ++ [args]).
Proof. intros Haccepted. unfold createPlan. rewrite Haccepted. apply createPlan_handler_eq. Qed.

Lemma createPlan_rejected args db :
  createPlan_args args = false → createPlan args db = Throw ArgumentValidationError.
Proof. intros Hrejected. unfold createPlan. by rewrite Hrejected. Qed.

Lemma filter_nil_Forall {A} (P : A → Prop) `{!∀ x, Decision (P x)} (l : list A) :
  Forall (λ x, ¬ P x) l → filter P l = [].
Proof. induction 1; [done|]. by rewrite filter_cons_False. Qed.

Lemma deactivateUser_lookup u db i d :
  deactivateUser u db !! i = Some d →
  ∃ d0, db !! i = Some d0 ∧ d = if decide (userId d0 = u) then deactivate d0 else d0.
Proof.
  unfold deactivateUser. rewrite list_lookup_fmap.
  destruct (db !! i) as [d0|]; [|done]. intros [= <-]. eauto.
Qed.

Lemma activePlansOf_deactivateUser u db : activePlansOf u (deactivateUser u db) = [].
Proof.
  apply filter_nil_Forall, Forall_forall.
  intros [i d] (d0 & _ & ->)%elem_of_documents%deactivateUser_lookup. cbn.
  case_decide; cbn; naive_solver.
Qed.

Lemma activePlansOf_created args db :
  activePlansOf (userId args) (deactivateUser (userId args) db ++ [args])
  = if isActive args then [(length db, args)] else [].
Proof.
  unfold activePlansOf. rewrite documents_snoc, filter_app.
  fold (activePlansOf (userId args) (deactivateUser (userId args) db)).
  rewrite activePlansOf_deactivateUser. cbn.
  unfold deactivateUser. rewrite length_fmap.
  destruct (isActive args); case_decide; naive_solver.
Qed.

Lemma getUserPlans_snoc u db d :
  getUserPlans u (db ++ [d])
  = (if decide (userId d = u) then [(length db, d)] else []) ++ getUserPlans u db.
Proof.
  unfold getUserPlans, by_user_id.
  rewrite documents_snoc, filter_app, reverse_app. f_equal.
  rewrite filter_singleton by exact []. cbn. by case_decide.
Qed.

Lemma getUserPlans_elem u db i d :
  (i, d) ∈ getUserPlans u db ↔ db !! i = Some d ∧ userId d = u.
Proof.
  unfold getUserPlans, by_user_id.
  rewrite elem_of_reverse, list_elem_of_filter, elem_of_documents. cbn. naive_solver.
Qed.

Lemma getUserPlans_sorted u db : StronglySorted newerThan (getUserPlans u db).
Proof.
  induction db as [|d db IH] using rev_ind; [constructor|].
  rewrite getUserPlans_snoc. apply StronglySorted_app_2; [|case_decide; repeat constructor|done].
  intros x [i d'] Hx [Hi _]%getUserPlans_elem.
  case_decide; [|set_solver].
  apply list_elem_of_singleton in Hx as ->. unfold newerThan. cbn.
  by eapply lookup_lt_Some.
Qed.

Lemma getUserPlans_deactivateUser u db :
  getUserPlans u (deactivateUser u db) = (λ x : Doc, (x.1, deactivate x.2)) <$> getUserPlans u db.
Proof.
  induction db as [|d db IH] using rev_ind; [done|].
  unfold deactivateUser in *. rewrite fmap_app. cbn.
  rewrite !getUserPlans_snoc, fmap_app, IH, length_fmap. f_equal.
  repeat case_decide; cbn in *; try done; naive_solver.
Qed.

Lemma deactivateUser_snoc u db d :
  deactivateUser u (db ++ [d])
  = deactivateUser u db ++ [if decide (userId d = u) then deactivate d else d].
Proof. unfold deactivateUser. by rewrite fmap_app. Qed.

Lemma deactivateUser_length u db : length (deactivateUser u db) = length db.
Proof. unfold deactivateUser. by rewrite length_fmap. Qed.

Lemma activePlansOf_snoc u db d :
  activePlansOf u (db ++ [d])
  = activePlansOf u db
    ++ (if decide (userId d = u ∧ isActive d = true) then [(length db, d)] else []).
Proof.
  unfold activePlansOf. by rewrite documents_snoc, filter_app.
Qed.

Lemma activePlansOf_deactivateUser_other u u' db :
  u ≠ u' → activePlansOf u (deactivateUser u' db) = activePlansOf u db.
Proof.
  intros Hne. induction db as [|d db IH] using rev_ind; [done|].
  rewrite deactivateUser_snoc, !activePlansOf_snoc, IH, deactivateUser_length.
  f_equal. repeat case_decide; cbn in *; naive_solver.
Qed.

Lemma getUserPlans_deactivateUser_other u u' db :
  u ≠ u' → getUserPlans u (deactivateUser u' db) = getUserPlans u db.
Proof.
  intros Hne. induction db as [|d db IH] using rev_ind; [done|].
  rewrite deactivateUser_snoc, !getUserPlans_snoc, IH, deactivateUser_length.
  f_equal. repeat case_decide; cbn in *; naive_solver.
Qed.

End PlanTable.

(** C1: after a call of [createPlan] for a user, at most one of that user's
    plans is active: every plan of the user is inactive when the new one is
    inserted, so a new plan created active is the only active one, and the
    plans of other users are untouched.  Two calls in a row for one user, both
    active, leave the second as the only active plan and the first inactive.
    This holds whatever the table held, for a call whose arguments the
    validators of the mutation admit; a call they reject throws and writes
    nothing.  Either way, a user who had at most one active plan before the
    call has at most one after it. *)
Theorem createPlan_single_active (db : list Plans.Plan) (args : Plans.Plan) :
  (Plans.createPlan_args args = true →
   ∃ db',
     Plans.createPlan args db = Js.Normal (length db, db')
     ∧ db' = (PlansSpec.deactivateUser (Plans.userId args) db ++ [args])%list
     ∧ length (PlansSpec.activePlansOf (Plans.userId args) db') ≤ 1
     ∧ (Plans.isActive args = true →
        PlansSpec.activePlansOf (Plans.userId args) db' = [(length db, args)])
     ∧ (∀ i d, i < length db → db' !! i = Some d →
               Plans.userId d = Plans.userId args → Plans.isActive d = false)
     ∧ (∀ i d, db !! i = Some d → Plans.userId d ≠ Plans.userId args → db' !! i = Some d)
     ∧ (∀ second,
          Plans.createPlan_args second = true →
          Plans.userId second = Plans.userId args →
          Plans.isActive args = true → Plans.isActive second = true →
          ∃ db'',
            Plans.createPlan second db' = Js.Normal (S (length db), db'')
            ∧ PlansSpec.activePlansOf (Plans.userId args) db'' = [(S (length db), second)]
            ∧ db'' !! length db = Some (Plans.deactivate args)))
  ∧ (Plans.createPlan_args args = false →
     Plans.createPlan args db = Js.Throw Plans.ArgumentValidationError)
  ∧ (∀ u, length (PlansSpec.activePlansOf u db) ≤ 1 →
          length (PlansSpec.activePlansOf u
                    (PlansSpec.tableAfter (Plans.createPlan args db) db)) ≤ 1).
Proof.
  assert (∀ u t, length (PlansSpec.deactivateUser u t) = length t) as Hlen.
  { intros u t. unfold PlansSpec.deactivateUser. by rewrite length_fmap. }
  split; [|split].
  - intros Haccepted.
    eexists. split; [by apply createPlan_eq|]. split; [reflexivity|].
    split; [|split; [|split; [|split]]].
    + rewrite activePlansOf_created. destruct (Plans.isActive args); cbn; lia.
    + intros Hactive. by rewrite activePlansOf_created, Hactive.
    + intros i d Hi Hd Hu.
      rewrite lookup_app_l in Hd by (rewrite Hlen; lia).
      apply deactivateUser_lookup in Hd as (d0 & _ & ->).
      case_decide; [done|]. by destruct d0.
    + intros i d Hd Hu.
      rewrite lookup_app_l by (rewrite Hlen; by eapply lookup_lt_Some).
      unfold PlansSpec.deactivateUser. rewrite list_lookup_fmap, Hd. cbn.
      by rewrite decide_False.
    + intros second Hsecond' Hu Hactive Hsecond. eexists.
      split; [|split].
      * rewrite createPlan_eq by done. by rewrite length_app, Hlen, Nat.add_comm.
      * rewrite <- Hu, activePlansOf_created, Hsecond.
        by rewrite length_app, Hlen, Nat.add_comm.
      * rewrite lookup_app_l by (rewrite Hlen, length_app, Hlen; cbn; lia).
        unfold PlansSpec.deactivateUser at 1. rewrite list_lookup_fmap.
        rewrite lookup_app_r by (rewrite Hlen; lia). rewrite Hlen, Nat.sub_diag. cbn.
        by rewrite decide_True.
  - apply createPlan_rejected.
  - intros u Hu. destruct (Plans.createPlan_args args) eqn:Haccepted.
    + rewrite createPlan_eq by done. cbn [PlansSpec.tableAfter].
      destruct (decide (u = Plans.userId args)) as [->|Hne].
      * rewrite activePlansOf_created. destruct (Plans.isActive args); cbn; lia.
      * rewrite activePlansOf_snoc, activePlansOf_deactivateUser_other by done.
        rewrite decide_False by naive_solver. by rewrite app_nil_r.
    + by rewrite createPlan_rejected.
Qed.

Lemma createPlan_single_active_witness :
  (∃ db',
     Plans.createPlan (Samples.plan "u1" "third" true) Samples.crowdedTable = Js.Normal (3, db')
     ∧ PlansSpec.activePlansOf "u1" db' = [(3, Samples.plan "u1" "third" true)]
     ∧ ∃ db'',
         Plans.createPlan (Samples.plan "u1" "fourth" true) db' = Js.Normal (4, db'')
         ∧ PlansSpec.activePlansOf "u1" db'' = [(4, Samples.plan "u1" "fourth" true)]
         ∧ db'' !! 3 = Some (Samples.plan "u1" "third" false))
  ∧ Plans.createPlan (Samples.illTyped "u1" "third") Samples.crowdedTable
    = Js.Throw Plans.ArgumentValidationError.
Proof.
  split.
  - destruct (proj1 (createPlan_single_active Samples.crowdedTable
                       (Samples.plan "u1" "third" true)) eq_refl)
      as (db' & Hrun & _ & _ & Hone & _ & _ & Htwice).
    exists db'. split; [exact Hrun|]. split; [exact (Hone eq_refl)|].
    exact (Htwice (Samples.plan "u1" "fourth" true) eq_refl eq_refl eq_refl eq_refl).
  - exact (proj1 (proj2 (createPlan_single_active Samples.crowdedTable
                           (Samples.illTyped "u1" "third"))) eq_refl).
Defined.

(** C8: [getUserPlans] returns all the plans the table holds for the user,
    and only them, newest first; after three insertions in a row for one
    user, each a call of [createPlan] with arguments its validators admit, the
    three new plans head the list, the last inserted first. *)
Theorem getUserPlans_newest_first (u : string) (db : list Plans.Plan) :
  (∀ i d, (i, d) ∈ Plans.getUserPlans u db ↔ db !! i = Some d ∧ Plans.userId d = u)
  ∧ StronglySorted PlansSpec.newerThan (Plans.getUserPlans u db)
  ∧ (∀ a1 a2 a3,
       Plans.createPlan_args a1 = true → Plans.createPlan_args a2 = true →
       Plans.createPlan_args a3 = true →
       Plans.userId a1 = u → Plans.userId a2 = u → Plans.userId a3 = u →
       ∃ db1 db2 db3,
         Plans.createPlan a1 db = Js.Normal (length db, db1)
         ∧ Plans.createPlan a2 db1 = Js.Normal (S (length db), db2)
         ∧ Plans.createPlan a3 db2 = Js.Normal (S (S (length db)), db3)
         ∧ Plans.getUserPlans u db3 =
             ((S (S (length db)), a3)
              :: (S (length db), Plans.deactivate a2)
              :: (length db, Plans.deactivate a1)
              :: ((λ x : nat * Plans.Plan, (x.1, Plans.deactivate x.2))
                    <$> Plans.getUserPlans u db))%list).
Proof.
  split; [apply getUserPlans_elem|]. split; [apply getUserPlans_sorted|].
  intros a1 a2 a3 Ha1 Ha2 Ha3 H1 H2 H3.
  assert (∀ t, length (PlansSpec.deactivateUser u t) = length t) as Hlen.
  { intros t. unfold PlansSpec.deactivateUser. by rewrite length_fmap. }
  set (db1 := PlansSpec.deactivateUser u db ++ [a1]).
  set (db2 := PlansSpec.deactivateUser u db1 ++ [a2]).
  set (db3 := PlansSpec.deactivateUser u db2 ++ [a3]).
  assert (length db1 = S (length db)) as Hl1.
  { unfold db1. rewrite length_app, Hlen. apply Nat.add_1_r. }
  assert (length db2 = S (S (length db))) as Hl2.
  { unfold db2. rewrite length_app, Hlen, Hl1. apply Nat.add_1_r. }
  exists db1, db2, db3.
  split; [by rewrite createPlan_eq, H1|].
  split; [by rewrite createPlan_eq, H2, Hl1 by done|].
  split; [by rewrite createPlan_eq, H3, Hl2 by done|].
  unfold db3. rewrite getUserPlans_snoc, getUserPlans_deactivateUser, Hlen, Hl2.
  unfold db2. rewrite getUserPlans_snoc, getUserPlans_deactivateUser, Hlen, Hl1.
  unfold db1. rewrite getUserPlans_snoc, getUserPlans_deactivateUser, Hlen.
  rewrite !decide_True by done.
  rewrite !fmap_app, <- !list_fmap_compose. reflexivity.
Qed.

Lemma getUserPlans_newest_first_witness :
  ∃ db1 db2 db3,
    Plans.createPlan (Samples.plan "u1" "a" true) Samples.crowdedTable = Js.Normal (3, db1)
    ∧ Plans.createPlan (Samples.plan "u1" "b" true) db1 = Js.Normal (4, db2)
    ∧ Plans.createPlan (Samples.plan "u1" "c" true) db2 = Js.Normal (5, db3)
    ∧ Plans.getUserPlans "u1" db3 =
        [(5, Samples.plan "u1" "c" true); (4, Samples.plan "u1" "b" false);
         (3, Samples.plan "u1" "a" false); (2, Samples.plan "u1" "second" false);
         (0, Samples.plan "u1" "first" false)].
Proof.
  exact (proj2 (proj2 (getUserPlans_newest_first "u1" Samples.crowdedTable))
           (Samples.plan "u1" "a" true) (Samples.plan "u1" "b" true)
           (Samples.plan "u1" "c" true) eq_refl eq_refl eq_refl eq_refl eq_refl eq_refl).
Defined.

(** ** The webhook action *)

Section Webhook.
Import Js Http Handlers ActionSpec.
Variable verify : JsValue → string → string → string → Completion WebhookEvent.
Variable syncUser updateUser : UserArgs → Completion unit.

Lemma missing_present (h : option string) text :
  h = Some text → text ≠ "" → missing h = false ∧ default "" h = text.
Proof.
  intros -> Hne. unfold missing, truthy.
  destruct (String.eqb_spec text ""); [done|]. done.
Qed.

Lemma clerkWebhook_absent request w :
  headerAbsent request →
  clerkWebhook verify syncUser updateUser request w
  = (Normal {| status := 400; body := Text "No svix headers found" |}, w).
Proof.
  unfold clerkWebhook.
  intros [H|[H|H]]; rewrite H; cbn [missing truthy orb];
    rewrite ?orb_true_r; reflexivity.
Qed.

Lemma clerkWebhook_verified request w payloadBody evt svix_id svix_signature svix_timestamp :
  headers request !! "svix-id" = Some svix_id → svix_id ≠ "" →
  headers request !! "svix-signature" = Some svix_signature → svix_signature ≠ "" →
  headers request !! "svix-timestamp" = Some svix_timestamp → svix_timestamp ≠ "" →
  json request = Normal payloadBody →
  verify payloadBody svix_id svix_timestamp svix_signature = Normal evt →
  clerkWebhook verify syncUser updateUser request w =
    let processed := {| status := 200; body := Text "Webhooks processed successfully" |} in
    match evt with
    | UserCreated data =>
        (email ← lift (firstEmail data);
         tryCatch
           (runSyncUser syncUser {| email := email; name := displayName data;
                                    image := image_url data; clerkId := id data |};;
            mret processed)
           (λ _, mret {| status := 500; body := Text "Error creating user" |})) w
    | UserUpdated data =>
        (email ← lift (firstEmail data);
         tryCatch
           (runUpdateUser updateUser {| clerkId := id data; email := email;
                                        name := displayName data; image := image_url data |};;
            mret processed)
           (λ _, mret {| status := 500; body := Text "Error updating user" |})) w
    | OtherEvent _ => (Normal processed, w)
    end.
Proof.
  intros Hid Hid' Hsig Hsig' Hts Hts' Hjson Hverify. unfold clerkWebhook.
  destruct (missing_present _ _ Hid Hid') as [-> ->].
  destruct (missing_present _ _ Hsig Hsig') as [-> ->].
  destruct (missing_present _ _ Hts Hts') as [-> ->].
  cbn [orb]. unfold tryCatch at 1, mbind at 1, Action_bind at 1.
  unfold mbind at 1, Action_bind at 1, lift at 1. rewrite Hjson.
  unfold mbind at 1, Action_bind at 1, lift at 1. rewrite Hverify.
  cbn [mret Action_ret]. by destruct evt.
Qed.

End Webhook.

(** C7: a webhook request that lacks any of [svix-id], [svix-signature] and
    [svix-timestamp] is answered with status 400, and the world is left as it
    was: no mutation, neither [syncUser] nor [updateUser], is called. *)
Theorem clerkWebhook_missing_header
    (verify : Js.JsValue → string → string → string → Js.Completion Handlers.WebhookEvent)
    (syncUser updateUser : Handlers.UserArgs → Js.Completion unit)
    (request : Handlers.Request) (w : Handlers.World)
    (Habsent : ActionSpec.headerAbsent request) :
  ∃ response w',
    Handlers.clerkWebhook verify syncUser updateUser request w = (Js.Normal response, w')
    ∧ Handlers.status response = 400
    ∧ w' = w
    ∧ ActionSpec.mutationCalls w' = ActionSpec.mutationCalls w.
Proof.
  do 2 eexists. split; [by apply clerkWebhook_absent|]. done.
Qed.

Lemma clerkWebhook_missing_header_witness :
  ∃ response,
    Handlers.clerkWebhook Samples.acceptAll Samples.mutationOk Samples.mutationOk
      Samples.unsignedRequest Samples.emptyWorld
    = (Js.Normal response, Samples.emptyWorld)
    ∧ Handlers.status response = 400.
Proof.
  destruct (clerkWebhook_missing_header Samples.acceptAll Samples.mutationOk
              Samples.mutationOk Samples.unsignedRequest Samples.emptyWorld)
    as (response & w' & Hrun & Hstatus & -> & _).
  - right. left. reflexivity.
  - exists response. by split.
Defined.

(** C9: for a verified [user.created] or [user.updated] event whose
    [email_addresses] is empty, reading [email_addresses[0].email_address]
    throws before the mutation is called; no [try] encloses the read, so the
    action ends with that exception and gives no response, neither 400 nor
    500, and the world is left as it was. *)
Theorem clerkWebhook_empty_email_addresses
    (verify : Js.JsValue → string → string → string → Js.Completion Handlers.WebhookEvent)
    (syncUser updateUser : Handlers.UserArgs → Js.Completion unit)
    (request : Handlers.Request) (w : Handlers.World)
    (payloadBody : Js.JsValue) (evt : Handlers.WebhookEvent) (data : Handlers.UserJSON)
    (svix_id svix_signature svix_timestamp : string)
    (Hid : Handlers.headers request !! "svix-id" = Some svix_id) (Hid' : svix_id ≠ "")
    (Hsig : Handlers.headers request !! "svix-signature" = Some svix_signature)
    (Hsig' : svix_signature ≠ "")
    (Hts : Handlers.headers request !! "svix-timestamp" = Some svix_timestamp)
    (Hts' : svix_timestamp ≠ "")
    (Hjson : Handlers.json request = Js.Normal payloadBody)
    (Hverify : verify payloadBody svix_id svix_timestamp svix_signature = Js.Normal evt)
    (Hevt : evt = Handlers.UserCreated data ∨ evt = Handlers.UserUpdated data)
    (Hempty : Handlers.email_addresses data = []) :
  ∃ e,
    Handlers.clerkWebhook verify syncUser updateUser request w = (Js.Throw e, w)
    ∧ (∀ response w', Handlers.clerkWebhook verify syncUser updateUser request w
                      ≠ (Js.Normal response, w')).
Proof.
  eexists.
  rewrite (clerkWebhook_verified verify syncUser updateUser request w payloadBody evt
             svix_id svix_signature svix_timestamp) by done.
  destruct Hevt as [-> | ->]; cbn -[Handlers.tryCatch];
    unfold Handlers.lift, Handlers.firstEmail; rewrite Hempty;
    (split; [reflexivity|]); done.
Qed.

Lemma clerkWebhook_empty_email_addresses_witness :
  ∃ e,
    Handlers.clerkWebhook Samples.acceptAll Samples.mutationOk Samples.mutationOk
      Samples.signedRequest Samples.emptyWorld
    = (Js.Throw e, Samples.emptyWorld).
Proof.
  destruct (clerkWebhook_empty_email_addresses Samples.acceptAll Samples.mutationOk
              Samples.mutationOk Samples.signedRequest Samples.emptyWorld
              (Js.JObj {[ "type" := Js.JStr "user.created" ]})
              (Handlers.UserCreated Samples.userWithoutEmail) Samples.userWithoutEmail
              "msg_1" "v1,abc" "1700000000")
    as (e & Hrun & _); try reflexivity; try discriminate.
  - left. reflexivity.
  - exists e. exact Hrun.
Defined.

(** ** The generation action *)

Section Diet.
Import Js Http ActionSpec.

Lemma checkMeals_None i meals :
  checkMeals i meals = None → Forall (λ meal, isNonNullObject meal = true) meals.
Proof.
  revert i. induction meals as [|meal rest IH]; intros i; cbn -[field]; [constructor|].
  destruct (isNonNullObject meal) eqn:Hmeal; cbn -[field]; [|done].
  destruct (isString (field meal "name")); cbn -[field]; [|done].
  destruct (isStringArray (field meal "foods")); cbn -[field]; [|done].
  intros Hrest%IH. by constructor.
Qed.

Lemma validateMeal_object meal :
  isNonNullObject meal = true → validateMeal meal = Normal (keepMeal meal).
Proof. by destruct meal. Qed.

Lemma validateDietPlan_accepted plan :
  assertDietShape plan = succeed plan → validateDietPlan plan = Normal (keepDiet plan).
Proof.
  unfold assertDietShape, keepDiet, mealsOf.
  destruct (isNonNullObject plan) eqn:Hobj; cbn -[field]; [|done].
  destruct (notANumber (field plan "dailyCalories")); cbn -[field]; [done|].
  destruct (field plan "meals") as [| | | | |meals|] eqn:Hmeals; try done.
  destruct (checkMeals 0 meals) eqn:Hcheck; [done|]. intros _.
  unfold validateDietPlan.
  destruct plan; try discriminate; cbn -[field validateMeal].
  all: rewrite Hmeals; cbn -[field validateMeal].
  all: rewrite (mapM_Normal _ keepMeal); [reflexivity|].
  all: eapply Forall_impl; [by eapply checkMeals_None|].
  all: intros meal Hmeal; by apply validateMeal_object.
Qed.

End Diet.

Section DietShape.
Import Js Http DietSpec WorkoutSpec.

Lemma checkMeals_accepts i meals :
  checkMeals i meals = None ↔ forallb wellFormedMeal meals = true.
Proof.
  revert i. induction meals as [|meal rest IH]; intros i; cbn -[field]; [done|].
  unfold wellFormedMeal.
  destruct (isNonNullObject meal); cbn -[field]; [|done].
  destruct (isString (field meal "name")); cbn -[field]; [|done].
  destruct (isStringArray (field meal "foods")); cbn -[field]; [|done].
  apply IH.
Qed.

Lemma checkMeals_first i meals err :
  checkMeals i meals = Some err →
  ∃ k meal, meals !! k = Some meal ∧ wellFormedMeal meal = false
            ∧ forallb wellFormedMeal (take k meals) = true
            ∧ contains (mealPath (i + k)) err.
Proof.
  revert i. induction meals as [|meal rest IH]; intros i; cbn -[field]; [done|].
  destruct (wellFormedMeal meal) eqn:Hmeal.
  - pose proof Hmeal as Hparts. unfold wellFormedMeal in Hparts.
    apply andb_prop in Hparts as [[-> ->]%andb_prop ->].
    cbn -[field]. intros (k & meal' & ? & ? & ? & ?)%IH.
    exists (S k), meal'. cbn -[field]. rewrite Hmeal.
    replace (i + S k) with (S i + k) by lia. done.
  - intros Herr. exists 0, meal. rewrite Nat.add_0_r. repeat split; try done.
    unfold wellFormedMeal in Hmeal. revert Herr. unfold mealPath.
    destruct (isNonNullObject meal); cbn -[field];
      [|intros [= <-]; exists "Diet plan ‘", "’ is not an object.";
        by rewrite !append_assoc].
    destruct (isString (field meal "name")); cbn -[field];
      [|intros [= <-]; exists "Diet plan ‘", ".name’ must be string.";
        by rewrite !append_assoc].
    destruct (isStringArray (field meal "foods")); cbn -[field];
      [|intros [= <-]; exists "Diet plan ‘", ".foods’ must be string[].";
        by rewrite !append_assoc].
    done.
Qed.

Lemma assertDietShape_accepts obj :
  assertDietShape obj = succeed obj ↔ DietSpec.wellFormedDiet obj = true.
Proof.
  unfold assertDietShape, wellFormedDiet.
  destruct (isNonNullObject obj); cbn -[field]; [|done].
  destruct (notANumber (field obj "dailyCalories")); cbn -[field]; [done|].
  destruct (field obj "meals") as [| | | | |meals|]; try done.
  rewrite <- (checkMeals_accepts 0).
  destruct (checkMeals 0 meals); split; intros; done || discriminate.
Qed.

End DietShape.

(** ** What the generation action hands to [createPlan] *)

Section Accepted.
Import Js Http Plans WorkoutSpec NormalizeSpec ActionSpec DietSpec.

Lemma v_array_strings v : isStringArray v = true → v_array v_string v = true.
Proof.
  destruct v as [| | | | |items|]; try done. cbn [isStringArray v_array].
  unfold someNotString. intros Hnone%negb_true_iff.
  induction items as [|x items IH]; [done|]. cbn in Hnone |- *.
  apply orb_false_elim in Hnone as [Hx%negb_false_iff Hrest].
  unfold v_string at 1. rewrite Hx. by apply IH.
Qed.

Lemma v_array_keep (keep : JsValue → JsValue) (wellFormed item : JsValue → bool) xs :
  (∀ x, wellFormed x = true → item (keep x) = true) →
  forallb wellFormed xs = true → v_array item (JArr (keep <$> xs)) = true.
Proof.
  intros Hkeep. cbn [v_array]. induction xs as [|x xs IH]; [done|]. cbn.
  intros [Hx Hxs]%andb_prop. by rewrite (Hkeep x Hx), IH.
Qed.

Lemma v_object_intro fields props :
  Forall (λ f : string * (JsValue → bool), f.2 (field (JObj props) f.1) = true) fields →
  map_Forall (λ k x, isUndefined x = true ∨ k ∈ fields.*1) props →
  v_object fields (JObj props) = true.
Proof.
  intros Hfields Hprops. unfold v_object. apply andb_true_intro. split.
  - apply forallb_forall. intros f Hf%list_elem_of_In.
    by apply (proj1 (Forall_forall _ _) Hfields).
  - by apply bool_decide_eq_true_2.
Qed.

Lemma isNumber_of_number v : notANumber v = false → v_number v = true.
Proof. by destruct v. Qed.

Lemma workoutPlan_args_kept plan :
  wellFormedWorkout plan = true → workoutPlan_args (keepWorkout plan) = true.
Proof.
  unfold wellFormedWorkout.
  intros [[_ Hschedule]%andb_prop Hexercises]%andb_prop.
  apply v_object_intro.
  - repeat constructor.
    + change (v_array v_string (field plan "schedule") = true). by apply v_array_strings.
    + change (v_array (v_object [("day", v_string);
                ("routines", v_array (v_object [("name", v_string); ("sets", v_number);
                                               ("reps", v_number)]))])
                (JArr (keepExercise <$> exercisesOf plan)) = true).
      unfold exercisesOf. destruct (field plan "exercises") as [| | | | |exercises|]; try done.
      apply (v_array_keep _ wellFormedExercise); [|done].
      clear. intros ex. unfold wellFormedExercise.
      intros [[_ Hday]%andb_prop Hroutines]%andb_prop.
      apply v_object_intro.
      * repeat constructor.
        -- exact Hday.
        -- change (v_array (v_object [("name", v_string); ("sets", v_number);
                                      ("reps", v_number)])
                     (JArr (keepRoutine <$> routinesOf ex)) = true).
           unfold routinesOf. destruct (field ex "routines") as [| | | | |routines|]; try done.
           apply (v_array_keep _ wellFormedRoutine); [|done].
           clear. intros r. unfold wellFormedRoutine.
           intros [[[_ Hname]%andb_prop Hsets%negb_true_iff]%andb_prop
                     Hreps%negb_true_iff]%andb_prop.
           apply v_object_intro.
           ++ repeat constructor; [exact Hname| |]; by apply isNumber_of_number.
           ++ repeat apply map_Forall_insert_2; try apply map_Forall_singleton;
                right; set_solver.
      * repeat apply map_Forall_insert_2; try apply map_Forall_singleton;
          right; set_solver.
  - repeat apply map_Forall_insert_2; try apply map_Forall_singleton; right; set_solver.
Qed.

Lemma dietPlan_args_kept plan :
  wellFormedDiet plan = true → dietPlan_args (keepDiet plan) = true.
Proof.
  unfold wellFormedDiet.
  intros [[_ Hcalories%negb_true_iff]%andb_prop Hmeals]%andb_prop.
  apply v_object_intro.
  - repeat constructor.
    + change (v_number (field plan "dailyCalories") = true). by apply isNumber_of_number.
    + change (v_array (v_object [("name", v_string); ("foods", v_array v_string)])
                (JArr (keepMeal <$> mealsOf plan)) = true).
      unfold mealsOf. destruct (field plan "meals") as [| | | | |meals|]; try done.
      apply (v_array_keep _ wellFormedMeal); [|done].
      clear. intros meal. unfold wellFormedMeal.
      intros [[_ Hname]%andb_prop Hfoods]%andb_prop.
      apply v_object_intro.
      * repeat constructor; [exact Hname|].
        change (v_array v_string (field meal "foods") = true). by apply v_array_strings.
      * repeat apply map_Forall_insert_2; try apply map_Forall_singleton;
          right; set_solver.
  - repeat apply map_Forall_insert_2; try apply map_Forall_singleton; right; set_solver.
Qed.

(** The arguments the generation action builds from two replies that passed
    their validators are arguments [createPlan] takes. *)
Lemma createPlan_args_kept who title active workoutRaw dietRaw :
  assertWorkoutShape workoutRaw = succeed workoutRaw →
  assertDietShape dietRaw = succeed dietRaw →
  createPlan_args {| userId := who; name := title;
                     workoutPlan := keepWorkout workoutRaw;
                     dietPlan := keepDiet dietRaw;
                     isActive := active |} = true.
Proof.
  intros Hworkout%assertWorkoutShape_accepts Hdiet%assertDietShape_accepts.
  unfold createPlan_args. cbn [workoutPlan dietPlan].
  by rewrite workoutPlan_args_kept, dietPlan_args_kept.
Qed.

End Accepted.

Section ErrorTexts.
Import Js Http Handlers.

(** Every error a validator reports is a non-empty string, so the test
    [if (error)] of the action sees it. *)
Lemma truthy_text a rest : truthy (Some (String a rest)) = Some (String a rest).
Proof. reflexivity. Qed.

Lemma checkRoutines_text i j routines err :
  checkRoutines i j routines = Some err → ∃ rest, err = String "W" rest.
Proof.
  revert j. induction routines as [|r rest IH]; intros j; cbn -[field]; [done|].
  destruct (negb (isNonNullObject r)); [intros [= <-]; eexists; reflexivity|].
  destruct (negb (isString (field r "name"))); [intros [= <-]; eexists; reflexivity|].
  destruct (notANumber (field r "sets")); [intros [= <-]; eexists; reflexivity|].
  destruct (notANumber (field r "reps")); [intros [= <-]; eexists; reflexivity|].
  apply IH.
Qed.

Lemma checkExercises_text i exercises err :
  checkExercises i exercises = Some err → ∃ rest, err = String "W" rest.
Proof.
  revert i. induction exercises as [|ex rest IH]; intros i; cbn -[field]; [done|].
  destruct (negb (isNonNullObject ex)); [intros [= <-]; eexists; reflexivity|].
  destruct (negb (isString (field ex "day"))); [intros [= <-]; eexists; reflexivity|].
  destruct (field ex "routines") as [| | | | |routines|];
    try (intros [= <-]; eexists; reflexivity).
  destruct (checkRoutines i 0 routines) as [inner|] eqn:Hinner; [|apply IH].
  intros [= <-]. by eapply checkRoutines_text.
Qed.

Lemma assertWorkoutShape_text raw :
  truthy (error (assertWorkoutShape raw)) = error (assertWorkoutShape raw).
Proof.
  unfold assertWorkoutShape.
  destruct (negb (isNonNullObject raw)); [reflexivity|].
  destruct (negb (isStringArray (field raw "schedule"))); [reflexivity|].
  destruct (field raw "exercises") as [| | | | |exercises|]; try reflexivity.
  destruct (checkExercises 0 exercises) as [err|] eqn:Hcheck; [|reflexivity].
  by destruct (checkExercises_text _ _ _ Hcheck) as [rest ->].
Qed.

Lemma checkMeals_text i meals err :
  checkMeals i meals = Some err → ∃ rest, err = String "D" rest.
Proof.
  revert i. induction meals as [|meal rest IH]; intros i; cbn -[field]; [done|].
  destruct (negb (isNonNullObject meal)); [intros [= <-]; eexists; reflexivity|].
  destruct (negb (isString (field meal "name"))); [intros [= <-]; eexists; reflexivity|].
  destruct (negb (isStringArray (field meal "foods")));
    [intros [= <-]; eexists; reflexivity|].
  apply IH.
Qed.

Lemma assertDietShape_text raw :
  truthy (error (assertDietShape raw)) = error (assertDietShape raw).
Proof.
  unfold assertDietShape.
  destruct (negb (isNonNullObject raw)); [reflexivity|].
  destruct (notANumber (field raw "dailyCalories")); [reflexivity|].
  destruct (field raw "meals") as [| | | | |meals|]; try reflexivity.
  destruct (checkMeals 0 meals) as [err|] eqn:Hcheck; [|reflexivity].
  by destruct (checkMeals_text _ _ _ Hcheck) as [rest ->].
Qed.

Lemma assertPayloadShape_text obj :
  truthy (error (assertPayloadShape obj)) = error (assertPayloadShape obj).
Proof.
  unfold assertPayloadShape.
  repeat match goal with
  | |- context [if negb ?c then _ else _] => destruct (negb c); [reflexivity|]
  end.
  reflexivity.
Qed.

Lemma assertDietShape_total raw :
  assertDietShape raw = succeed raw ∨ ∃ err, assertDietShape raw = fail err.
Proof.
  unfold assertDietShape.
  destruct (negb (isNonNullObject raw)); [eauto|].
  destruct (notANumber (field raw "dailyCalories")); [eauto|].
  destruct (field raw "meals") as [| | | | |meals|]; eauto.
  destruct (checkMeals 0 meals); eauto.
Qed.

Lemma assertPayloadShape_total obj :
  (∃ fields, assertPayloadShape obj = succeed fields)
  ∨ ∃ err, assertPayloadShape obj = fail err.
Proof.
  unfold assertPayloadShape.
  repeat match goal with
  | |- context [if negb ?c then _ else _] => destruct (negb c); [eauto|]
  end.
  eauto.
Qed.

End ErrorTexts.

Section Generation.
Import Js Http Handlers ActionSpec.
Variable NumberToString : number → string.
Variable JSON_parse : string → Completion JsValue.
Variable generateContent : nat → string → Completion string.
Variable workoutPrompt dietPrompt : GenerateProgramPayload → string.
Variable toLocaleDateString : string.
Variable createPlanFault : Plans.Plan → option Exn.

Lemma generateJson_run n prompt failure w :
  generateJson JSON_parse generateContent n prompt failure w =
    (Normal match generateContent n prompt ≫= JSON_parse with
            | Normal raw => inr raw
            | Throw _ => inl (errorResponse 500 failure)
            end,
     record (CallGenerateContent prompt) w).
Proof.
  unfold generateJson, tryCatch, runGenerateContent, mbind, Action_bind, lift.
  destruct (generateContent n prompt) as [text|e]; cbn; [|done].
  by destruct (JSON_parse text).
Qed.

Lemma runCreatePlan_run args w :
  Plans.createPlan_args args = true →
  runCreatePlan createPlanFault args w =
    match createPlanFault args with
    | Some e => (Throw e, record (CallCreatePlan args) w)
    | None =>
        (Normal (length (plans w)),
         {| plans := PlansSpec.deactivateUser (Plans.userId args) (plans w) ++ [args];
            calls := calls w ++ [CallCreatePlan args] |})
    end.
Proof.
  intros Haccepted. unfold runCreatePlan. destruct (createPlanFault args); [done|].
  by rewrite createPlan_eq.
Qed.

Lemma createPlanCalls_record c w :
  createPlanCalls (record c w) =
    createPlanCalls w ++ match c with CallCreatePlan args => [args] | _ => [] end.
Proof.
  unfold createPlanCalls, record. cbn. rewrite omap_app. by destruct c.
Qed.

Lemma run_bind {A B} (act : Action A) (k : A → Action B) w :
  (act ≫= k) w =
    match act w with
    | (Normal a, w') => k a w'
    | (Throw e, w') => (Throw e, w')
    end.
Proof. reflexivity. Qed.

Lemma run_tryCatch {A} (act : Action A) (handler : Exn → Action A) w :
  tryCatch act handler w =
    match act w with
    | (Throw e, w') => handler e w'
    | (Normal a, w') => (Normal a, w')
    end.
Proof. unfold tryCatch. by destruct (act w) as [[a|e] w']. Qed.

(** The action always answers, and it either leaves the table and the list of
    [createPlan] calls as they were, or has called [createPlan] once, after
    both replies passed their validators. *)
Lemma generateProgram_outcome (request : Request) (w : World) :
  ∃ response w',
    generateProgram NumberToString JSON_parse generateContent workoutPrompt dietPrompt
      toLocaleDateString createPlanFault request w = (Normal response, w')
    ∧ ((createPlanCalls w' = createPlanCalls w ∧ plans w' = plans w
        ∧ (status response = 500
           ∨ status response = 400
             ∧ ∃ rawBody err, json request = Normal rawBody ∧ checkBody rawBody = fail err))
       ∨ ∃ rawBody fields workoutRaw dietRaw args,
           json request = Normal rawBody
           ∧ checkBody rawBody = succeed fields
           ∧ (generateContent 0 (workoutPrompt fields) ≫= JSON_parse) = Normal workoutRaw
           ∧ assertWorkoutShape workoutRaw = succeed workoutRaw
           ∧ (generateContent 1 (dietPrompt fields) ≫= JSON_parse) = Normal dietRaw
           ∧ assertDietShape dietRaw = succeed dietRaw
           ∧ args = {| Plans.userId := user_id fields;
                       Plans.name := fitness_goal fields +:+ " Plan - " +:+ toLocaleDateString;
                       Plans.workoutPlan := NormalizeSpec.keepWorkout workoutRaw;
                       Plans.dietPlan := keepDiet dietRaw;
                       Plans.isActive := true |}
           ∧ calls w' = calls w ++ [CallGenerateContent (workoutPrompt fields);
                                    CallGenerateContent (dietPrompt fields);
                                    CallCreatePlan args]
           ∧ (status response = 200
                ∧ Plans.createPlan args (plans w) = Normal (length (plans w), plans w')
              ∨ status response = 500 ∧ plans w' = plans w)).
Proof.
  unfold generateProgram. rewrite run_tryCatch.
  unfold generateProgramBody. rewrite run_bind. unfold lift at 1.
  destruct (json request) as [rawBody|e] eqn:Hjson.
  2:{ do 2 eexists. split; [reflexivity|]. left. auto. }
  unfold checkBody at 1. rewrite assertPayloadShape_text. fold (checkBody rawBody).
  destruct (assertPayloadShape_total (or_else (unwrapNode rawBody) JNull))
    as [[fields Hbody]|[err Hbody]]; fold (checkBody rawBody) in Hbody; rewrite Hbody.
  2:{ do 2 eexists. split; [reflexivity|]. left. cbn. eauto 10. }
  cbn [error payload value succeed destructure].
  rewrite run_bind. unfold lift at 1.
  rewrite run_bind, generateJson_run.
  destruct (generateContent 0 (workoutPrompt fields) ≫= JSON_parse)
    as [workoutRaw|e] eqn:Hworkout.
  2:{ do 2 eexists. split; [reflexivity|]. left.
      rewrite createPlanCalls_record, app_nil_r. auto. }
  rewrite assertWorkoutShape_text.
  destruct (assertWorkoutShape_total workoutRaw) as [Hshape|[err Hshape]]; rewrite Hshape.
  2:{ do 2 eexists. split; [reflexivity|]. left.
      rewrite createPlanCalls_record, app_nil_r. auto. }
  cbn [error value succeed default].
  rewrite run_bind. unfold lift at 1, Datatypes.id.
  rewrite (validateWorkoutPlan_wellFormed NumberToString workoutRaw)
    by (by apply assertWorkoutShape_accepts).
  rewrite run_bind, generateJson_run.
  destruct (generateContent 1 (dietPrompt fields) ≫= JSON_parse)
    as [dietRaw|e] eqn:Hdiet.
  2:{ do 2 eexists. split; [reflexivity|]. left.
      rewrite !createPlanCalls_record, !app_nil_r. auto. }
  rewrite assertDietShape_text.
  destruct (assertDietShape_total dietRaw) as [Hdshape|[err Hdshape]]; rewrite Hdshape.
  2:{ do 2 eexists. split; [reflexivity|]. left.
      rewrite !createPlanCalls_record, !app_nil_r. auto. }
  cbn [error value succeed default].
  rewrite run_bind. unfold lift at 1, Datatypes.id.
  rewrite (validateDietPlan_accepted dietRaw) by done.
  rewrite run_bind, run_tryCatch, run_bind.
  rewrite runCreatePlan_run by (by apply createPlan_args_kept).
  set (args := {| Plans.userId := user_id fields |}).
  destruct (createPlanFault args) as [fault|] eqn:Hfault.
  - do 2 eexists. split; [reflexivity|]. right.
    exists rawBody, fields, workoutRaw, dietRaw, args.
    repeat (split; [done|]). split.
    + cbn. by rewrite <- !app_assoc.
    + right. done.
  - do 2 eexists. split; [reflexivity|]. right.
    exists rawBody, fields, workoutRaw, dietRaw, args.
    repeat (split; [done|]). split.
    + cbn. by rewrite <- !app_assoc.
    + left. split; [done|]. cbn.
      by rewrite createPlan_eq by (by apply createPlan_args_kept).
Qed.

End Generation.

(** C3: the generation action calls [createPlan] only after both the workout
    reply and the diet reply have passed their shape validators, and then as
    the last of its calls; when the model call, [JSON.parse] or the shape
    validator fails for either plan, it answers with status 500, calls
    [createPlan] not at all and leaves the table as it was. *)
Theorem generateProgram_persists_after_validation
    (NumberToString : Js.number → string)
    (JSON_parse : string → Js.Completion Js.JsValue)
    (generateContent : nat → string → Js.Completion string)
    (workoutPrompt dietPrompt : Http.GenerateProgramPayload → string)
    (toLocaleDateString : string)
    (createPlanFault : Plans.Plan → option Js.Exn)
    (request : Handlers.Request) (w : Handlers.World) :
  ∃ response w',
    Handlers.generateProgram NumberToString JSON_parse generateContent workoutPrompt
      dietPrompt toLocaleDateString createPlanFault request w = (Js.Normal response, w')
    ∧ (ActionSpec.createPlanCalls w' ≠ ActionSpec.createPlanCalls w
       ∨ Handlers.plans w' ≠ Handlers.plans w →
       ∃ rawBody fields workoutRaw dietRaw args,
         Handlers.json request = Js.Normal rawBody
         ∧ Http.checkBody rawBody = Http.succeed fields
         ∧ (generateContent 0 (workoutPrompt fields) ≫= JSON_parse) = Js.Normal workoutRaw
         ∧ Http.assertWorkoutShape workoutRaw = Http.succeed workoutRaw
         ∧ (generateContent 1 (dietPrompt fields) ≫= JSON_parse) = Js.Normal dietRaw
         ∧ Http.assertDietShape dietRaw = Http.succeed dietRaw
         ∧ Plans.workoutPlan args = NormalizeSpec.keepWorkout workoutRaw
         ∧ Plans.dietPlan args = ActionSpec.keepDiet dietRaw
         ∧ Handlers.calls w' =
             Handlers.calls w ++ [Handlers.CallGenerateContent (workoutPrompt fields);
                                  Handlers.CallGenerateContent (dietPrompt fields);
                                  Handlers.CallCreatePlan args])
    ∧ (∀ rawBody fields,
         Handlers.json request = Js.Normal rawBody →
         Http.checkBody rawBody = Http.succeed fields →
         ActionSpec.stageFails Http.assertWorkoutShape
           (generateContent 0 (workoutPrompt fields) ≫= JSON_parse)
         ∨ ActionSpec.stageFails Http.assertDietShape
             (generateContent 1 (dietPrompt fields) ≫= JSON_parse) →
         Handlers.status response = 500
         ∧ ActionSpec.createPlanCalls w' = ActionSpec.createPlanCalls w
         ∧ Handlers.plans w' = Handlers.plans w).
Proof.
  destruct (generateProgram_outcome NumberToString JSON_parse generateContent workoutPrompt
              dietPrompt toLocaleDateString createPlanFault request w)
    as (response & w' & Hrun & Hcases).
  exists response, w'. split; [exact Hrun|].
  destruct Hcases as [(Hcalls & Hplans & Hstatus)
    |(rawBody & fields & workoutRaw & dietRaw & args & Hjson & Hbody & Hworkout & Hshape
      & Hdiet & Hdshape & -> & Hlog & _)].
  - split.
    + intros [Hne|Hne]; by destruct Hne.
    + intros rawBody fields Hjson Hbody _.
      destruct Hstatus as [Hstatus|(_ & rawBody' & err & Hjson' & Hbody')]; [done|].
      rewrite Hjson in Hjson'. injection Hjson' as <-.
      rewrite Hbody in Hbody'. discriminate.
  - split.
    + intros _. eexists rawBody, fields, workoutRaw, dietRaw, _.
      repeat (split; [done|]). split; [|split]; [| |exact Hlog]; reflexivity.
    + intros rawBody' fields' Hjson' Hbody' Hfail.
      rewrite Hjson in Hjson'. injection Hjson' as <-.
      rewrite Hbody in Hbody'. injection Hbody' as <-.
      rewrite Hworkout, Hdiet in Hfail. cbn in Hfail.
      rewrite Hshape, Hdshape in Hfail.
      destruct Hfail as [[err [=]]|[err [=]]].
Qed.

Lemma generateProgram_persists_after_validation_witness :
  ∃ response w',
    Handlers.generateProgram Samples.integerText Samples.parseReply Samples.replies
      Samples.promptOf Samples.promptOf "11/3/2026" Samples.noFault
      Samples.generationRequest Samples.emptyWorld = (Js.Normal response, w')
    ∧ Handlers.status response = 500
    ∧ ActionSpec.createPlanCalls w' = []
    ∧ Handlers.plans w' = [].
Proof.
  destruct (generateProgram_persists_after_validation Samples.integerText
              Samples.parseReply Samples.replies Samples.promptOf Samples.promptOf
              "11/3/2026" Samples.noFault Samples.generationRequest Samples.emptyWorld)
    as (response & w' & Hrun & _ & Hfail).
  exists response, w'. split; [exact Hrun|].
  eapply Hfail; [reflexivity|vm_compute; reflexivity|].
  right. exact I.
Defined.

(** * Further properties *)

(** ** The diet validator *)

(** X1: the diet validator checks every meal: it returns the plan itself,
    extraneous fields and all, exactly when [dailyCalories] is a number other
    than NaN and every meal is an object with a string [name] and a
    string-list [foods]; otherwise it returns an error that is not empty, so
    that the caller's [if (error)] sees it. *)
Theorem assertDietShape_exhaustive (obj : Js.JsValue) :
  if DietSpec.wellFormedDiet obj
  then Http.assertDietShape obj = Http.succeed obj
  else ∃ err, Http.assertDietShape obj = Http.fail err ∧ err ≠ "".
Proof.
  unfold DietSpec.wellFormedDiet, Http.assertDietShape.
  destruct (Js.isNonNullObject obj); cbn -[Js.field]; [|by eexists].
  destruct (Http.notANumber (Js.field obj "dailyCalories")); cbn -[Js.field];
    [by eexists|].
  destruct (Js.field obj "meals") as [| | | | |meals|]; try by eexists.
  destruct (forallb DietSpec.wellFormedMeal meals) eqn:Hall.
  - by rewrite (proj2 (checkMeals_accepts 0 meals) Hall).
  - destruct (Http.checkMeals 0 meals) as [err|] eqn:Hcheck.
    + exists err. split; [done|].
      by destruct (checkMeals_text _ _ _ Hcheck) as [rest ->].
    + apply checkMeals_accepts in Hcheck. congruence.
Qed.

(** X2: when a diet plan is rejected for its meals, the error holds the
    index path [meals[i]] of the first meal that is not well formed; all
    meals before it are well formed. *)
Theorem assertDietShape_meal_path (obj : Js.JsValue) (meals : list Js.JsValue) (err : string)
    (Hobj : Js.isNonNullObject obj = true)
    (Hcalories : Http.notANumber (Js.field obj "dailyCalories") = false)
    (Hmeals : Js.field obj "meals" = Js.JArr meals)
    (Hfail : Http.assertDietShape obj = Http.fail err) :
  ∃ i meal,
    meals !! i = Some meal
    ∧ DietSpec.wellFormedMeal meal = false
    ∧ forallb DietSpec.wellFormedMeal (take i meals) = true
    ∧ WorkoutSpec.contains (DietSpec.mealPath i) err.
Proof.
  unfold Http.assertDietShape in Hfail.
  rewrite Hobj, Hcalories, Hmeals in Hfail. cbn in Hfail.
  destruct (Http.checkMeals 0 meals) as [err'|] eqn:Hcheck; [|done].
  injection Hfail as ->. by apply checkMeals_first in Hcheck.
Qed.

Lemma assertDietShape_meal_path_witness :
  ∃ meal,
    meal = Samples.meal "Dinner" [Js.JStr "Rice"; Js.JNum (Js.NumberOfZ 2)]
    ∧ DietSpec.wellFormedMeal meal = false
    ∧ WorkoutSpec.contains (DietSpec.mealPath 2)
        "Diet plan ‘meals[2].foods’ must be string[].".
Proof.
  destruct (assertDietShape_meal_path Samples.badFoodsDiet
              [Samples.meal "Breakfast" [Js.JStr "Oats"]; Samples.meal "Lunch" [];
               Samples.meal "Dinner" [Js.JStr "Rice"; Js.JNum (Js.NumberOfZ 2)]]
              "Diet plan ‘meals[2].foods’ must be string[]."
              eq_refl eq_refl eq_refl eq_refl)
    as (i & meal & Hi & Hbad & Hbefore & Hpath).
  destruct i as [|[|[|i]]]; [| | |discriminate Hi]; injection Hi as <-.
  - vm_compute in Hbad. discriminate Hbad.
  - vm_compute in Hbad. discriminate Hbad.
  - eexists. split; [reflexivity|]. by split.
Defined.

(** ** The normalizers, run twice *)

Section Renormalize.
Import Js Http WorkoutSpec NormalizeSpec ActionSpec ExtraSpec.
Variable NumberToString : number → string.

Lemma mapM_fixed {A} (f : A → Completion A) ys :
  Forall (λ y, f y = Normal y) ys → mapM f ys = Normal ys.
Proof.
  intros H. rewrite (mapM_Normal f id) by done. by rewrite list_fmap_id.
Qed.

Lemma keepRoutine_field x :
  field (keepRoutine x) "name" = field x "name"
  ∧ field (keepRoutine x) "sets" = field x "sets"
  ∧ field (keepRoutine x) "reps" = field x "reps".
Proof. by repeat split. Qed.

Lemma validateRoutine_again r out :
  validateRoutine NumberToString r = Normal out →
  validateRoutine NumberToString out = Normal out.
Proof.
  intros (Hsets & Hreps & Hout)%validateRoutine_out.
  rewrite Hout. destruct (keepRoutine_field out) as (Hn & Hs & Hr).
  assert (∀ k, getProp (keepRoutine out) k = Normal (field (keepRoutine out) k))
    as Hget by done.
  unfold validateRoutine. rewrite !Hget. cbn [mbind Completion_bind].
  rewrite Hn, Hs, Hr. unfold numberOr. by rewrite Hsets, Hreps.
Qed.

Lemma validateExercise_out ex out :
  validateExercise NumberToString ex = Normal out →
  ∃ routines,
    out = JObj {[ "day" := field ex "day"; "routines" := JArr routines ]}
    ∧ Forall (λ r, validateRoutine NumberToString r = Normal r
                   ∧ isNumber (field r "sets") = true
                   ∧ isNumber (field r "reps") = true) routines.
Proof.
  unfold validateExercise.
  destruct (getProp ex "day") as [day|] eqn:Hday; cbn -[validateRoutine]; [|done].
  destruct (getProp ex "routines") as [rawRoutines|]; cbn -[validateRoutine]; [|done].
  destruct rawRoutines as [| | | | |items|]; try done. cbn -[validateRoutine].
  destruct (mapM (validateRoutine NumberToString) items) as [routines|] eqn:Hmap;
    cbn -[validateRoutine]; [|done].
  intros [= <-]. exists routines. split.
  - destruct ex; try done; by injection Hday as <-.
  - apply mapM_Normal_inv in Hmap.
    induction Hmap as [|r out routines' outs Hr _ IH]; constructor; [|done].
    split; [by eapply validateRoutine_again|].
    by apply validateRoutine_out in Hr as (? & ? & _).
Qed.

Lemma validateExercise_object props routines :
  props !! "routines" = Some (JArr routines) →
  validateExercise NumberToString (JObj props) =
    (rs ← mapM (validateRoutine NumberToString) routines;
     Normal (JObj {[ "day" := field (JObj props) "day"; "routines" := JArr rs ]})).
Proof.
  intros Hroutines. unfold validateExercise, getProp, field. rewrite Hroutines.
  cbn [mbind Completion_bind default]. unfold id, mapArray.
  by destruct (mapM _ routines).
Qed.

Lemma validateExercise_again ex out :
  validateExercise NumberToString ex = Normal out →
  validateExercise NumberToString out = Normal out.
Proof.
  intros (routines & -> & Hall)%validateExercise_out.
  rewrite (validateExercise_object _ routines) by done.
  rewrite mapM_fixed; [done|].
  eapply Forall_impl; [exact Hall|]. by intros r [? _].
Qed.

Lemma validateWorkoutPlan_object props exercises :
  props !! "exercises" = Some (JArr exercises) →
  validateWorkoutPlan NumberToString (JObj props) =
    (exs ← mapM (validateExercise NumberToString) exercises;
     Normal (JObj {[ "schedule" := field (JObj props) "schedule";
                     "exercises" := JArr exs ]})).
Proof.
  intros Hexercises. unfold validateWorkoutPlan, getProp, field. rewrite Hexercises.
  cbn [mbind Completion_bind default]. unfold id, mapArray.
  by destruct (mapM _ exercises).
Qed.

Lemma validateWorkoutPlan_again plan out :
  validateWorkoutPlan NumberToString plan = Normal out →
  validateWorkoutPlan NumberToString out = Normal out
  ∧ Forall (λ r, isNumber (field r "sets") = true ∧ isNumber (field r "reps") = true
                 ∧ r = keepRoutine r) (allRoutines out).
Proof.
  intros (exercises & -> & Hall)%validateWorkoutPlan_out.
  assert (Forall (λ ex', ∃ ex, validateExercise NumberToString ex = Normal ex') exercises)
    as Hfrom.
  { clear -Hall. induction Hall; constructor; eauto. }
  split.
  - rewrite (validateWorkoutPlan_object _ exercises) by done.
    rewrite mapM_fixed; [done|].
    eapply Forall_impl; [exact Hfrom|]. intros ex' [ex Hex].
    by eapply validateExercise_again.
  - unfold allRoutines.
    change (exercisesOf (JObj _)) with exercises.
    apply Forall_bind. eapply Forall_impl; [exact Hfrom|].
    intros ex' [ex (routines & -> & Hroutines)%validateExercise_out].
    change (routinesOf (JObj _)) with routines.
    eapply Forall_impl; [exact Hroutines|]. intros r (Hr & ? & ?).
    repeat split; try done. by apply validateRoutine_out in Hr as (_ & _ & ?).
Qed.

Lemma validateDietPlan_object props meals :
  props !! "meals" = Some (JArr meals) →
  validateDietPlan (JObj props) =
    (ms ← mapM validateMeal meals;
     Normal (JObj {[ "dailyCalories" := field (JObj props) "dailyCalories";
                     "meals" := JArr ms ]})).
Proof.
  intros Hmeals. unfold validateDietPlan, getProp, field. rewrite Hmeals.
  cbn [mbind Completion_bind default]. unfold id, mapArray.
  by destruct (mapM _ meals).
Qed.

Lemma validateDietPlan_again plan out :
  validateDietPlan plan = Normal out → validateDietPlan out = Normal out.
Proof.
  unfold validateDietPlan at 1.
  destruct (getProp plan "dailyCalories") as [calories|]; cbn -[validateMeal]; [|done].
  destruct (getProp plan "meals") as [rawMeals|]; cbn -[validateMeal]; [|done].
  destruct rawMeals as [| | | | |items|]; try done. cbn -[validateMeal].
  destruct (mapM validateMeal items) as [meals|] eqn:Hmap; cbn -[validateMeal]; [|done].
  intros [= <-].
  assert (mapM validateMeal meals = Normal meals) as Hfixed.
  { apply mapM_fixed. apply mapM_Normal_inv in Hmap.
    induction Hmap as [|meal out items' outs Hmeal _ IH]; constructor; [|done].
    unfold validateMeal in Hmeal.
    destruct (getProp meal "name"); cbn in Hmeal; [|done].
    destruct (getProp meal "foods"); cbn in Hmeal; [|done].
    by injection Hmeal as <-. }
  rewrite (validateDietPlan_object _ meals) by done.
  by rewrite Hfixed.
Qed.

Lemma wellFormedRoutine_keep r :
  wellFormedRoutine r = true → wellFormedRoutine (keepRoutine r) = true.
Proof.
  unfold wellFormedRoutine. destruct (keepRoutine_field r) as (-> & -> & ->).
  by intros [[[_ ->]%andb_prop ->]%andb_prop ->]%andb_prop.
Qed.

Lemma forallb_fmap {A B} (f : A → B) (p : B → bool) (q : A → bool) xs :
  (∀ x, q x = true → p (f x) = true) →
  forallb q xs = true → forallb p (f <$> xs) = true.
Proof.
  intros Hpq. induction xs as [|x xs IH]; [done|]. cbn.
  intros [Hx Hxs]%andb_prop. by rewrite (Hpq x Hx), IH.
Qed.

Lemma wellFormedExercise_keep ex :
  wellFormedExercise ex = true → wellFormedExercise (keepExercise ex) = true.
Proof.
  unfold wellFormedExercise.
  intros [[_ Hday]%andb_prop Hroutines]%andb_prop.
  change (field (keepExercise ex) "day") with (field ex "day").
  change (field (keepExercise ex) "routines") with (JArr (keepRoutine <$> routinesOf ex)).
  rewrite Hday. cbn [isNonNullObject keepExercise andb].
  unfold routinesOf. destruct (field ex "routines"); try done.
  by apply (forallb_fmap _ _ wellFormedRoutine), Hroutines; apply wellFormedRoutine_keep.
Qed.

Lemma wellFormedWorkout_keep plan :
  wellFormedWorkout plan = true → wellFormedWorkout (keepWorkout plan) = true.
Proof.
  unfold wellFormedWorkout.
  intros [[_ Hschedule]%andb_prop Hexercises]%andb_prop.
  change (field (keepWorkout plan) "schedule") with (field plan "schedule").
  change (field (keepWorkout plan) "exercises")
    with (JArr (keepExercise <$> exercisesOf plan)).
  rewrite Hschedule. cbn [isNonNullObject keepWorkout andb].
  unfold exercisesOf. destruct (field plan "exercises"); try done.
  by apply (forallb_fmap _ _ wellFormedExercise), Hexercises; apply wellFormedExercise_keep.
Qed.

Lemma wellFormedDiet_keep plan :
  DietSpec.wellFormedDiet plan = true → DietSpec.wellFormedDiet (keepDiet plan) = true.
Proof.
  unfold DietSpec.wellFormedDiet.
  intros [[_ Hcalories]%andb_prop Hmeals]%andb_prop.
  change (field (keepDiet plan) "dailyCalories") with (field plan "dailyCalories").
  change (field (keepDiet plan) "meals") with (JArr (keepMeal <$> mealsOf plan)).
  rewrite Hcalories. cbn [isNonNullObject keepDiet andb].
  unfold mealsOf. destruct (field plan "meals"); try done.
  apply (forallb_fmap _ _ DietSpec.wellFormedMeal), Hmeals.
  intros meal. unfold DietSpec.wellFormedMeal.
  change (field (keepMeal meal) "name") with (field meal "name").
  change (field (keepMeal meal) "foods") with (field meal "foods").
  by intros [[_ ->]%andb_prop ->]%andb_prop.
Qed.

End Renormalize.

(** X3: whenever the workout normalizer completes, every [sets] and [reps]
    of its result is a number, never text, every routine holds [name], [sets]
    and [reps] and nothing else, and normalizing the result again changes
    nothing. *)
Theorem validateWorkoutPlan_idempotent (NumberToString : Js.number → string)
    (plan out : Js.JsValue)
    (Hout : Http.validateWorkoutPlan NumberToString plan = Js.Normal out) :
  Http.validateWorkoutPlan NumberToString out = Js.Normal out
  ∧ Forall (λ r, Js.isNumber (Js.field r "sets") = true
                 ∧ Js.isNumber (Js.field r "reps") = true
                 ∧ r = NormalizeSpec.keepRoutine r) (ExtraSpec.allRoutines out).
Proof. exact (validateWorkoutPlan_again NumberToString plan out Hout). Qed.

Lemma validateWorkoutPlan_idempotent_witness :
  ∃ out,
    Http.validateWorkoutPlan Samples.integerText Samples.textualPlan = Js.Normal out
    ∧ Http.validateWorkoutPlan Samples.integerText out = Js.Normal out
    ∧ ExtraSpec.allRoutines out =
        [Samples.routine "Squat" (Js.JNum (Js.NumberOfZ 4)) (Js.JNum (Js.NumberOfZ (-12)));
         Samples.routine "Plank" (Js.JNum (Js.NumberOfZ 1)) (Js.JNum (Js.NumberOfZ 10))].
Proof.
  eexists. split; [vm_compute; reflexivity|].
  split; [|vm_compute; reflexivity].
  refine (proj1 (validateWorkoutPlan_idempotent Samples.integerText Samples.textualPlan _ _)).
  vm_compute. reflexivity.
Defined.

(** X4: a workout plan that passed shape validation is normalized without
    an exception, to the plan with only the schema's fields, and the result
    passes shape validation again. *)
Theorem validateWorkoutPlan_revalidates (NumberToString : Js.number → string)
    (plan : Js.JsValue)
    (Hvalid : Http.assertWorkoutShape plan = Http.succeed plan) :
  ∃ out,
    Http.validateWorkoutPlan NumberToString plan = Js.Normal out
    ∧ out = NormalizeSpec.keepWorkout plan
    ∧ Http.assertWorkoutShape out = Http.succeed out.
Proof.
  apply assertWorkoutShape_accepts in Hvalid.
  exists (NormalizeSpec.keepWorkout plan).
  split; [by apply validateWorkoutPlan_wellFormed|]. split; [done|].
  by apply assertWorkoutShape_accepts, wellFormedWorkout_keep.
Qed.

Lemma validateWorkoutPlan_revalidates_witness :
  ∃ out,
    Http.validateWorkoutPlan Samples.integerText Samples.goodPlan = Js.Normal out
    ∧ Js.field out "notes" = Js.JUndefined
    ∧ Http.assertWorkoutShape out = Http.succeed out.
Proof.
  destruct (validateWorkoutPlan_revalidates Samples.integerText Samples.goodPlan)
    as (out & Hrun & -> & Hagain); [vm_compute; reflexivity|].
  eexists. split; [exact Hrun|]. split; [reflexivity|exact Hagain].
Defined.

(** X5: a diet plan that passed shape validation is normalized without an
    exception, to the plan with only [dailyCalories] and each meal's [name]
    and [foods]; the result passes shape validation again and normalizing it
    again changes nothing. *)
Theorem validateDietPlan_revalidates (plan : Js.JsValue)
    (Hvalid : Http.assertDietShape plan = Http.succeed plan) :
  ∃ out,
    Http.validateDietPlan plan = Js.Normal out
    ∧ out = ActionSpec.keepDiet plan
    ∧ Http.assertDietShape out = Http.succeed out
    ∧ Http.validateDietPlan out = Js.Normal out.
Proof.
  exists (ActionSpec.keepDiet plan).
  pose proof (validateDietPlan_accepted plan Hvalid) as Hrun.
  split; [done|]. split; [done|]. split; [|by eapply validateDietPlan_again].
  by apply assertDietShape_accepts, wellFormedDiet_keep, assertDietShape_accepts.
Qed.

Lemma validateDietPlan_revalidates_witness :
  ∃ out,
    Http.validateDietPlan (Js.JObj {[ "dailyCalories" := Js.JNum (Js.NumberOfZ 1800);
                                      "macros" := Js.JStr "40/30/30";
                                      "meals" := Js.JArr [Samples.meal "Lunch" []] ]})
      = Js.Normal out
    ∧ Js.field out "macros" = Js.JUndefined
    ∧ Http.assertDietShape out = Http.succeed out.
Proof.
  destruct (validateDietPlan_revalidates
              (Js.JObj {[ "dailyCalories" := Js.JNum (Js.NumberOfZ 1800);
                          "macros" := Js.JStr "40/30/30";
                          "meals" := Js.JArr [Samples.meal "Lunch" []] ]}))
    as (out & Hrun & -> & Hagain & _); [vm_compute; reflexivity|].
  eexists. split; [exact Hrun|]. split; [reflexivity|exact Hagain].
Defined.

(** ** The plan table, across users *)

(** X6: a call of [createPlan] that the validators admit keeps the rule of
    one active plan per user for the whole table: the plans of other users
    that are active stay exactly the same, so a table in which every user has
    at most one active plan is still such a table afterwards. *)
Theorem createPlan_keeps_single_active (db : list Plans.Plan) (args : Plans.Plan)
    (Haccepted : Plans.createPlan_args args = true) :
  ∃ db',
    Plans.createPlan args db = Js.Normal (length db, db')
    ∧ (∀ u, u ≠ Plans.userId args →
            PlansSpec.activePlansOf u db' = PlansSpec.activePlansOf u db)
    ∧ (ExtraSpec.singleActive db → ExtraSpec.singleActive db').
Proof.
  eexists. split; [by apply createPlan_eq|].
  assert (∀ u, u ≠ Plans.userId args →
            PlansSpec.activePlansOf u (PlansSpec.deactivateUser (Plans.userId args) db ++ [args])
            = PlansSpec.activePlansOf u db) as Hother.
  { intros u Hu. rewrite activePlansOf_snoc, activePlansOf_deactivateUser_other by done.
    rewrite decide_False by naive_solver. apply app_nil_r. }
  split; [exact Hother|].
  intros Hsingle u. destruct (decide (u = Plans.userId args)) as [->|Hu].
  - rewrite activePlansOf_created. destruct (Plans.isActive args); cbn; lia.
  - rewrite Hother by done. apply Hsingle.
Qed.

Lemma createPlan_keeps_single_active_witness :
  ∃ db',
    Plans.createPlan (Samples.plan "u2" "b" true) [Samples.plan "u1" "a" true]
      = Js.Normal (1, db')
    ∧ ExtraSpec.singleActive db'.
Proof.
  destruct (createPlan_keeps_single_active [Samples.plan "u1" "a" true]
              (Samples.plan "u2" "b" true) eq_refl) as (db' & Hrun & _ & Hkeeps).
  exists db'. split; [exact Hrun|]. apply Hkeeps.
  intros u. unfold PlansSpec.activePlansOf. cbn. case_decide; cbn; lia.
Defined.

(** X7: a call of [createPlan] that the validators admit never deletes or
    rewrites a stored plan and never makes one active: the table grows by
    exactly the new document, whose [_id] was not in use, and every older
    document keeps its [_id], owner, name and both plans; only [isActive] may
    change, and only from true to false for the caller's own plans. *)
Theorem createPlan_only_deactivates (db : list Plans.Plan) (args : Plans.Plan)
    (Haccepted : Plans.createPlan_args args = true) :
  ∃ db',
    Plans.createPlan args db = Js.Normal (length db, db')
    ∧ length db' = S (length db)
    ∧ db !! length db = None
    ∧ db' !! length db = Some args
    ∧ ∀ i d, db !! i = Some d →
        ∃ d', db' !! i = Some d'
              ∧ Plans.userId d' = Plans.userId d ∧ Plans.name d' = Plans.name d
              ∧ Plans.workoutPlan d' = Plans.workoutPlan d
              ∧ Plans.dietPlan d' = Plans.dietPlan d
              ∧ Plans.isActive d' =
                  Plans.isActive d && negb (bool_decide (Plans.userId d = Plans.userId args)).
Proof.
  eexists. split; [by apply createPlan_eq|].
  split; [rewrite length_app, deactivateUser_length; cbn; lia|].
  split; [by apply lookup_ge_None|].
  split.
  { rewrite lookup_app_r by (rewrite deactivateUser_length; lia).
    by rewrite deactivateUser_length, Nat.sub_diag. }
  intros i d Hd.
  rewrite lookup_app_l by (rewrite deactivateUser_length; by eapply lookup_lt_Some).
  unfold PlansSpec.deactivateUser. rewrite list_lookup_fmap, Hd. cbn.
  eexists. split; [reflexivity|].
  case_decide as Hu.
  - rewrite bool_decide_eq_true_2 by done. cbn. by rewrite andb_false_r.
  - rewrite bool_decide_eq_false_2 by done. cbn. by rewrite andb_true_r.
Qed.

Lemma createPlan_only_deactivates_witness :
  ∃ db',
    Plans.createPlan (Samples.plan "u1" "third" true) Samples.crowdedTable
      = Js.Normal (3, db')
    ∧ ∃ d', db' !! 2 = Some d' ∧ Plans.name d' = "second" ∧ Plans.isActive d' = false.
Proof.
  destruct (createPlan_only_deactivates Samples.crowdedTable (Samples.plan "u1" "third" true)
              eq_refl)
    as (db' & Hrun & _ & _ & _ & Hold).
  exists db'. split; [exact Hrun|].
  destruct (Hold 2 (Samples.plan "u1" "second" true) eq_refl)
    as (d' & Hd' & _ & Hname & _ & _ & Hactive).
  exists d'. split; [exact Hd'|]. split; [exact Hname|exact Hactive].
Defined.

(** X8: after a call of [createPlan] that the validators admit, the new
    plan is the first that [getUserPlans] returns for its owner, followed by
    the owner's older plans, all inactive; what [getUserPlans] returns for any
    other user is unchanged. *)
Theorem getUserPlans_after_createPlan (db : list Plans.Plan) (args : Plans.Plan)
    (Haccepted : Plans.createPlan_args args = true) :
  ∃ db',
    Plans.createPlan args db = Js.Normal (length db, db')
    ∧ Plans.getUserPlans (Plans.userId args) db' =
        (length db, args)
        :: ((λ x : nat * Plans.Plan, (x.1, Plans.deactivate x.2))
              <$> Plans.getUserPlans (Plans.userId args) db)
    ∧ ∀ u, u ≠ Plans.userId args → Plans.getUserPlans u db' = Plans.getUserPlans u db.
Proof.
  eexists. split; [by apply createPlan_eq|]. split.
  - rewrite getUserPlans_snoc, getUserPlans_deactivateUser, deactivateUser_length.
    by rewrite decide_True.
  - intros u Hu.
    rewrite getUserPlans_snoc, getUserPlans_deactivateUser_other by done.
    by rewrite decide_False by naive_solver.
Qed.

Lemma getUserPlans_after_createPlan_witness :
  ∃ db',
    Plans.createPlan (Samples.plan "u1" "third" true) Samples.crowdedTable
      = Js.Normal (3, db')
    ∧ Plans.getUserPlans "u2" db' = [(1, Samples.plan "u2" "other" true)].
Proof.
  destruct (getUserPlans_after_createPlan Samples.crowdedTable
              (Samples.plan "u1" "third" true) eq_refl) as (db' & Hrun & _ & Hother).
  exists db'. split; [exact Hrun|].
  rewrite (Hother "u2") by discriminate. reflexivity.
Defined.

(** ** The webhook action, branch by branch *)

Section WebhookMore.
Import Js Http Handlers ActionSpec ExtraSpec.
Variable verify : JsValue → string → string → string → Completion WebhookEvent.
Variable syncUser updateUser : UserArgs → Completion unit.

Lemma missing_false h :
  missing h = false → ∃ text, h = Some text ∧ text ≠ "".
Proof.
  unfold missing, truthy. destruct h as [text|]; [|done].
  destruct (String.eqb_spec text ""); [done|]. eauto.
Qed.

Lemma missing_empty : missing (Some "") = true.
Proof. reflexivity. Qed.

Lemma clerkWebhook_rejected request w e svix_id svix_signature svix_timestamp :
  headers request !! "svix-id" = Some svix_id → svix_id ≠ "" →
  headers request !! "svix-signature" = Some svix_signature → svix_signature ≠ "" →
  headers request !! "svix-timestamp" = Some svix_timestamp → svix_timestamp ≠ "" →
  (payloadBody ← json request;
   verify payloadBody svix_id svix_timestamp svix_signature) = Throw e →
  clerkWebhook verify syncUser updateUser request w =
    (Normal {| status := 400; body := Text "Invalid webhook signature" |}, w).
Proof.
  intros Hid Hid' Hsig Hsig' Hts Hts' Hfail. unfold clerkWebhook.
  destruct (missing_present _ _ Hid Hid') as [-> ->].
  destruct (missing_present _ _ Hsig Hsig') as [-> ->].
  destruct (missing_present _ _ Hts Hts') as [-> ->].
  cbn [orb]. unfold tryCatch at 1, mbind at 1, Action_bind at 1.
  unfold mbind at 1, Action_bind at 1, lift at 1.
  destruct (json request) as [payloadBody|]; [|done].
  cbn [mbind Completion_bind] in Hfail.
  unfold mbind at 1, Action_bind at 1, lift at 1. by rewrite Hfail.
Qed.

Lemma runSyncUser_outcome args w :
  tryCatch
    (runSyncUser syncUser args;;
     mret {| status := 200; body := Text "Webhooks processed successfully" |})
    (λ _, mret {| status := 500; body := Text "Error creating user" |}) w
  = (Normal match syncUser args with
            | Normal _ => {| status := 200; body := Text "Webhooks processed successfully" |}
            | Throw _ => {| status := 500; body := Text "Error creating user" |}
            end,
     record (CallSyncUser args) w).
Proof.
  unfold tryCatch, mbind, Action_bind, runSyncUser. by destruct (syncUser args).
Qed.

Lemma runUpdateUser_outcome args w :
  tryCatch
    (runUpdateUser updateUser args;;
     mret {| status := 200; body := Text "Webhooks processed successfully" |})
    (λ _, mret {| status := 500; body := Text "Error updating user" |}) w
  = (Normal match updateUser args with
            | Normal _ => {| status := 200; body := Text "Webhooks processed successfully" |}
            | Throw _ => {| status := 500; body := Text "Error updating user" |}
            end,
     record (CallUpdateUser args) w).
Proof.
  unfold tryCatch, mbind, Action_bind, runUpdateUser. by destruct (updateUser args).
Qed.

End WebhookMore.

(** X9: a webhook request that carries the three headers but whose body
    cannot be read, or whose signature svix does not accept, is answered with
    status 400 "Invalid webhook signature"; nothing is called. *)
Theorem clerkWebhook_bad_signature
    (verify : Js.JsValue → string → string → string → Js.Completion Handlers.WebhookEvent)
    (syncUser updateUser : Handlers.UserArgs → Js.Completion unit)
    (request : Handlers.Request) (w : Handlers.World) (e : Js.Exn)
    (svix_id svix_signature svix_timestamp : string)
    (Hid : Handlers.headers request !! "svix-id" = Some svix_id) (Hid' : svix_id ≠ "")
    (Hsig : Handlers.headers request !! "svix-signature" = Some svix_signature)
    (Hsig' : svix_signature ≠ "")
    (Hts : Handlers.headers request !! "svix-timestamp" = Some svix_timestamp)
    (Hts' : svix_timestamp ≠ "")
    (Hfail : (payloadBody ← Handlers.json request;
              verify payloadBody svix_id svix_timestamp svix_signature) = Js.Throw e) :
  Handlers.clerkWebhook verify syncUser updateUser request w =
    (Js.Normal {| Handlers.status := 400;
                  Handlers.body := Handlers.Text "Invalid webhook signature" |}, w).
Proof. by eapply clerkWebhook_rejected. Qed.

Lemma clerkWebhook_bad_signature_witness :
  Handlers.clerkWebhook Samples.rejectAll Samples.mutationOk Samples.mutationOk
    Samples.signedRequest Samples.emptyWorld =
    (Js.Normal {| Handlers.status := 400;
                  Handlers.body := Handlers.Text "Invalid webhook signature" |},
     Samples.emptyWorld).
Proof.
  apply (clerkWebhook_bad_signature Samples.rejectAll Samples.mutationOk Samples.mutationOk
           Samples.signedRequest Samples.emptyWorld (Js.ErrorExn "No matching signature found")
           "msg_1" "v1,abc" "1700000000"); try reflexivity; discriminate.
Defined.

(** X10: a verified event calls exactly one mutation or none.  For
    [user.created] with at least one email address it calls [syncUser] once,
    with the first address, the trimmed display name, the image and the Clerk
    id, and answers 200, or 500 when the mutation throws; for [user.updated]
    it does the same with [updateUser]; for any other event type it answers
    200 and calls nothing. *)
Theorem clerkWebhook_verified_event
    (verify : Js.JsValue → string → string → string → Js.Completion Handlers.WebhookEvent)
    (syncUser updateUser : Handlers.UserArgs → Js.Completion unit)
    (request : Handlers.Request) (w : Handlers.World)
    (payloadBody : Js.JsValue) (evt : Handlers.WebhookEvent)
    (svix_id svix_signature svix_timestamp : string)
    (Hid : Handlers.headers request !! "svix-id" = Some svix_id) (Hid' : svix_id ≠ "")
    (Hsig : Handlers.headers request !! "svix-signature" = Some svix_signature)
    (Hsig' : svix_signature ≠ "")
    (Hts : Handlers.headers request !! "svix-timestamp" = Some svix_timestamp)
    (Hts' : svix_timestamp ≠ "")
    (Hjson : Handlers.json request = Js.Normal payloadBody)
    (Hverify : verify payloadBody svix_id svix_timestamp svix_signature = Js.Normal evt) :
  let processed := {| Handlers.status := 200;
                      Handlers.body := Handlers.Text "Webhooks processed successfully" |} in
  let argsOf data first :=
    {| Handlers.email := Handlers.email_address first;
       Handlers.name := Handlers.displayName data;
       Handlers.image := Handlers.image_url data;
       Handlers.clerkId := Handlers.id data |} in
  match evt with
  | Handlers.UserCreated data =>
      ∀ first others, Handlers.email_addresses data = first :: others →
        Handlers.clerkWebhook verify syncUser updateUser request w =
          (Js.Normal match syncUser (argsOf data first) with
                     | Js.Normal _ => processed
                     | Js.Throw _ =>
                         {| Handlers.status := 500;
                            Handlers.body := Handlers.Text "Error creating user" |}
                     end,
           Handlers.record (Handlers.CallSyncUser (argsOf data first)) w)
  | Handlers.UserUpdated data =>
      ∀ first others, Handlers.email_addresses data = first :: others →
        Handlers.clerkWebhook verify syncUser updateUser request w =
          (Js.Normal match updateUser (argsOf data first) with
                     | Js.Normal _ => processed
                     | Js.Throw _ =>
                         {| Handlers.status := 500;
                            Handlers.body := Handlers.Text "Error updating user" |}
                     end,
           Handlers.record (Handlers.CallUpdateUser (argsOf data first)) w)
  | Handlers.OtherEvent _ =>
      Handlers.clerkWebhook verify syncUser updateUser request w = (Js.Normal processed, w)
  end.
Proof.
  intros processed argsOf.
  rewrite (clerkWebhook_verified verify syncUser updateUser request w payloadBody evt
             svix_id svix_signature svix_timestamp) by done.
  destruct evt as [data|data|type]; [| |done].
  - intros first others Hemails. cbn zeta.
    unfold mbind at 1, Handlers.Action_bind at 1, Handlers.lift, Handlers.firstEmail.
    rewrite Hemails. apply runSyncUser_outcome.
  - intros first others Hemails. cbn zeta.
    unfold mbind at 1, Handlers.Action_bind at 1, Handlers.lift, Handlers.firstEmail.
    rewrite Hemails. apply runUpdateUser_outcome.
Qed.

Lemma clerkWebhook_verified_event_witness :
  Handlers.clerkWebhook Samples.acceptUpdate Samples.mutationOk Samples.mutationFails
    Samples.signedRequest Samples.emptyWorld =
    (Js.Normal {| Handlers.status := 500;
                  Handlers.body := Handlers.Text "Error updating user" |},
     {| Handlers.plans := [];
        Handlers.calls :=
          [Handlers.CallUpdateUser
             {| Handlers.email := "grace@example.org"; Handlers.name := "Grace Hopper";
                Handlers.image := "https://img/2"; Handlers.clerkId := "user_2" |}] |}).
Proof.
  exact (clerkWebhook_verified_event Samples.acceptUpdate Samples.mutationOk
           Samples.mutationFails Samples.signedRequest Samples.emptyWorld
           (Js.JObj {[ "type" := Js.JStr "user.created" ]})
           (Handlers.UserUpdated Samples.userWithEmails)
           "msg_1" "v1,abc" "1700000000"
           eq_refl ltac:(discriminate) eq_refl ltac:(discriminate)
           eq_refl ltac:(discriminate) eq_refl eq_refl
           _ _ eq_refl).
Defined.

(** X11: a signature header that is present but empty counts as missing: the
    request is answered with status 400 "No svix headers found" before the
    body is read, and nothing is called. *)
Theorem clerkWebhook_empty_header
    (verify : Js.JsValue → string → string → string → Js.Completion Handlers.WebhookEvent)
    (syncUser updateUser : Handlers.UserArgs → Js.Completion unit)
    (request : Handlers.Request) (w : Handlers.World)
    (Hempty : Handlers.headers request !! "svix-id" = Some ""
              ∨ Handlers.headers request !! "svix-signature" = Some ""
              ∨ Handlers.headers request !! "svix-timestamp" = Some "") :
  Handlers.clerkWebhook verify syncUser updateUser request w =
    (Js.Normal {| Handlers.status := 400;
                  Handlers.body := Handlers.Text "No svix headers found" |}, w).
Proof.
  unfold Handlers.clerkWebhook.
  destruct Hempty as [H|[H|H]]; rewrite H, missing_empty;
    rewrite ?orb_true_r; reflexivity.
Qed.

Lemma clerkWebhook_empty_header_witness :
  Handlers.clerkWebhook Samples.acceptAll Samples.mutationOk Samples.mutationOk
    Samples.emptySignatureRequest Samples.emptyWorld =
    (Js.Normal {| Handlers.status := 400;
                  Handlers.body := Handlers.Text "No svix headers found" |},
     Samples.emptyWorld).
Proof.
  apply clerkWebhook_empty_header. right. left. reflexivity.
Defined.

(** X12: whatever the request and whatever svix and the mutations do, the
    webhook action leaves the plans table alone, calls nothing but at most one
    mutation of the users table, never the model and never [createPlan], and
    when it answers, its status is 200, 400 or 500; when it throws, it has
    called nothing. *)
Theorem clerkWebhook_effects
    (verify : Js.JsValue → string → string → string → Js.Completion Handlers.WebhookEvent)
    (syncUser updateUser : Handlers.UserArgs → Js.Completion unit)
    (request : Handlers.Request) (w : Handlers.World) :
  ∃ outcome w',
    Handlers.clerkWebhook verify syncUser updateUser request w = (outcome, w')
    ∧ Handlers.plans w' = Handlers.plans w
    ∧ (Handlers.calls w' = Handlers.calls w
       ∨ ∃ m, ExtraSpec.userMutation m = true
              ∧ Handlers.calls w' = Handlers.calls w ++ [m])
    ∧ match outcome with
      | Js.Normal response =>
          Handlers.status response = 200 ∨ Handlers.status response = 400
          ∨ Handlers.status response = 500
      | Js.Throw _ => w' = w
      end.
Proof.
  destruct (Handlers.missing (Handlers.headers request !! "svix-id")
            || Handlers.missing (Handlers.headers request !! "svix-signature")
            || Handlers.missing (Handlers.headers request !! "svix-timestamp")) eqn:Hmissing.
  { unfold Handlers.clerkWebhook. rewrite Hmissing.
    do 2 eexists. split; [reflexivity|]. cbn. auto. }
  apply orb_false_elim in Hmissing as [[Hid Hsig]%orb_false_elim Hts].
  apply missing_false in Hid as (svix_id & Hid & Hid').
  apply missing_false in Hsig as (svix_signature & Hsig & Hsig').
  apply missing_false in Hts as (svix_timestamp & Hts & Hts').
  destruct (payloadBody ← Handlers.json request;
            verify payloadBody svix_id svix_timestamp svix_signature) as [evt|e] eqn:Hverify.
  2:{ rewrite (clerkWebhook_rejected verify syncUser updateUser request w e
                 svix_id svix_signature svix_timestamp) by done.
      do 2 eexists. split; [reflexivity|]. cbn. auto. }
  destruct (Handlers.json request) as [payloadBody|] eqn:Hjson; [|done].
  cbn [mbind Js.Completion_bind] in Hverify.
  rewrite (clerkWebhook_verified verify syncUser updateUser request w payloadBody evt
             svix_id svix_signature svix_timestamp) by done.
  destruct evt as [data|data|type]; cbn zeta.
  - unfold mbind at 1, Handlers.Action_bind at 1, Handlers.lift, Handlers.firstEmail.
    destruct (Handlers.email_addresses data) as [|first others].
    { do 2 eexists. split; [reflexivity|]. auto. }
    rewrite runSyncUser_outcome. do 2 eexists. split; [reflexivity|].
    split; [done|]. split; [right; eexists; split; [|reflexivity]; reflexivity|].
    destruct (syncUser _); cbn; auto.
  - unfold mbind at 1, Handlers.Action_bind at 1, Handlers.lift, Handlers.firstEmail.
    destruct (Handlers.email_addresses data) as [|first others].
    { do 2 eexists. split; [reflexivity|]. auto. }
    rewrite runUpdateUser_outcome. do 2 eexists. split; [reflexivity|].
    split; [done|]. split; [right; eexists; split; [|reflexivity]; reflexivity|].
    destruct (updateUser _); cbn; auto.
  - do 2 eexists. split; [reflexivity|]. cbn. auto.
Qed.

(** ** The generation action, stage by stage *)

Section GenerationMore.
Import Js Http Handlers ActionSpec.
Variable NumberToString : number → string.
Variable JSON_parse : string → Completion JsValue.
Variable generateContent : nat → string → Completion string.
Variable workoutPrompt dietPrompt : GenerateProgramPayload → string.
Variable toLocaleDateString : string.
Variable createPlanFault : Plans.Plan → option Exn.

Lemma generateProgram_unreadable request w e :
  json request = Throw e →
  generateProgram NumberToString JSON_parse generateContent workoutPrompt dietPrompt
    toLocaleDateString createPlanFault request w
  = (Normal (errorResponse 500 (messageOf e)), w).
Proof.
  intros Hjson. unfold generateProgram. rewrite run_tryCatch.
  unfold generateProgramBody. rewrite run_bind. unfold lift at 1. by rewrite Hjson.
Qed.

Lemma generateProgram_invalid request w rawBody err :
  json request = Normal rawBody → checkBody rawBody = fail err →
  generateProgram NumberToString JSON_parse generateContent workoutPrompt dietPrompt
    toLocaleDateString createPlanFault request w
  = (Normal (errorResponse 400 err), w).
Proof.
  intros Hjson Hbody. unfold generateProgram. rewrite run_tryCatch.
  unfold generateProgramBody. rewrite run_bind. unfold lift at 1. rewrite Hjson.
  pose proof (assertPayloadShape_text (or_else (unwrapNode rawBody) JNull)) as Htext.
  fold (checkBody rawBody) in Htext. rewrite Htext, Hbody. reflexivity.
Qed.

(** The stages after a request that validates. *)
Lemma generateProgram_run request w rawBody fields :
  json request = Normal rawBody → checkBody rawBody = succeed fields →
  generateProgram NumberToString JSON_parse generateContent workoutPrompt dietPrompt
    toLocaleDateString createPlanFault request w =
    let w1 := record (CallGenerateContent (workoutPrompt fields)) w in
    match generateContent 0 (workoutPrompt fields) ≫= JSON_parse with
    | Throw _ =>
        (Normal (errorResponse 500 "Failed to generate a valid workout plan from AI."), w1)
    | Normal workoutRaw =>
        match error (assertWorkoutShape workoutRaw) with
        | Some err => (Normal (errorResponse 500 ("Invalid workout plan: " +:+ err)), w1)
        | None =>
            let w2 := record (CallGenerateContent (dietPrompt fields)) w1 in
            match generateContent 1 (dietPrompt fields) ≫= JSON_parse with
            | Throw _ =>
                (Normal (errorResponse 500 "Failed to generate a valid diet plan from AI."),
                 w2)
            | Normal dietRaw =>
                match error (assertDietShape dietRaw) with
                | Some err => (Normal (errorResponse 500 ("Invalid diet plan: " +:+ err)), w2)
                | None =>
                    let args :=
                      {| Plans.userId := user_id fields;
                         Plans.name := fitness_goal fields +:+ " Plan - " +:+ toLocaleDateString;
                         Plans.workoutPlan := NormalizeSpec.keepWorkout workoutRaw;
                         Plans.dietPlan := keepDiet dietRaw;
                         Plans.isActive := true |} in
                    match createPlanFault args with
                    | Some _ =>
                        (Normal (errorResponse 500 "Failed to save plan to database."),
                         record (CallCreatePlan args) w2)
                    | None =>
                        (Normal (successResponse (length (plans w))
                                   (NormalizeSpec.keepWorkout workoutRaw) (keepDiet dietRaw)),
                         {| plans := PlansSpec.deactivateUser (user_id fields) (plans w)
                                     ++ [args];
                            calls := calls w2 ++ [CallCreatePlan args] |})
                    end
                end
            end
        end
    end.
Proof.
  intros Hjson Hbody. unfold generateProgram. rewrite run_tryCatch.
  unfold generateProgramBody. rewrite run_bind. unfold lift at 1. rewrite Hjson.
  pose proof (assertPayloadShape_text (or_else (unwrapNode rawBody) JNull)) as Htext.
  fold (checkBody rawBody) in Htext. rewrite Htext, Hbody. clear Htext.
  cbn [error payload value succeed destructure].
  rewrite run_bind. unfold lift at 1.
  rewrite run_bind, generateJson_run. cbn zeta.
  destruct (generateContent 0 (workoutPrompt fields) ≫= JSON_parse) as [workoutRaw|e];
    [|reflexivity].
  rewrite assertWorkoutShape_text.
  destruct (assertWorkoutShape_total workoutRaw) as [Hshape|[err Hshape]]; rewrite Hshape;
    [|reflexivity].
  cbn [error value succeed default].
  rewrite run_bind. unfold lift at 1, Datatypes.id.
  rewrite (validateWorkoutPlan_wellFormed NumberToString workoutRaw)
    by (by apply assertWorkoutShape_accepts).
  rewrite run_bind, generateJson_run.
  destruct (generateContent 1 (dietPrompt fields) ≫= JSON_parse) as [dietRaw|e];
    [|reflexivity].
  rewrite assertDietShape_text.
  destruct (assertDietShape_total dietRaw) as [Hdshape|[err Hdshape]]; rewrite Hdshape;
    [|reflexivity].
  cbn [error value succeed default].
  rewrite run_bind. unfold lift at 1, Datatypes.id.
  rewrite (validateDietPlan_accepted dietRaw) by done.
  rewrite run_bind, run_tryCatch, run_bind.
  rewrite runCreatePlan_run by (by apply createPlan_args_kept).
  by destruct (createPlanFault _).
Qed.

End GenerationMore.

(** X13: a generation request is turned down before anything is called: a
    body that cannot be read gives status 500 with the exception's message, a
    body that fails validation gives status 400 with the validator's error;
    the model is not called and the table is not touched. *)
Theorem generateProgram_rejects_request
    (NumberToString : Js.number → string)
    (JSON_parse : string → Js.Completion Js.JsValue)
    (generateContent : nat → string → Js.Completion string)
    (workoutPrompt dietPrompt : Http.GenerateProgramPayload → string)
    (toLocaleDateString : string)
    (createPlanFault : Plans.Plan → option Js.Exn)
    (request : Handlers.Request) (w : Handlers.World) :
  (∀ e, Handlers.json request = Js.Throw e →
        Handlers.generateProgram NumberToString JSON_parse generateContent workoutPrompt
          dietPrompt toLocaleDateString createPlanFault request w
        = (Js.Normal (Handlers.errorResponse 500 (Handlers.messageOf e)), w))
  ∧ (∀ rawBody err,
       Handlers.json request = Js.Normal rawBody → Http.checkBody rawBody = Http.fail err →
       Handlers.generateProgram NumberToString JSON_parse generateContent workoutPrompt
         dietPrompt toLocaleDateString createPlanFault request w
       = (Js.Normal (Handlers.errorResponse 400 err), w)).
Proof.
  split.
  - intros e. apply generateProgram_unreadable.
  - intros rawBody err. apply generateProgram_invalid.
Qed.

Lemma generateProgram_rejects_request_witness :
  Handlers.generateProgram Samples.integerText Samples.parseGoodReply Samples.goodReplies
    Samples.promptOf Samples.promptOf "11/3/2026" Samples.noFault
    Samples.ageless Samples.emptyWorld
  = (Js.Normal (Handlers.errorResponse 400 "Missing or invalid 'age' (expected number)."),
     Samples.emptyWorld).
Proof.
  eapply (proj2 (generateProgram_rejects_request Samples.integerText Samples.parseGoodReply
                   Samples.goodReplies Samples.promptOf Samples.promptOf "11/3/2026"
                   Samples.noFault Samples.ageless Samples.emptyWorld));
    [reflexivity|vm_compute; reflexivity].
Defined.

(** X14: for a request that validates, the model is called once when the
    workout stage fails and twice when the diet stage fails, the diet prompt
    being sent only after the workout plan has passed validation.  When the
    model call or [JSON.parse] throws, the answer is a fixed message that
    holds nothing of the exception; when the shape validator fails, the answer
    holds the validator's error. *)
Theorem generateProgram_stage_failure
    (NumberToString : Js.number → string)
    (JSON_parse : string → Js.Completion Js.JsValue)
    (generateContent : nat → string → Js.Completion string)
    (workoutPrompt dietPrompt : Http.GenerateProgramPayload → string)
    (toLocaleDateString : string)
    (createPlanFault : Plans.Plan → option Js.Exn)
    (request : Handlers.Request) (w : Handlers.World)
    (rawBody : Js.JsValue) (fields : Http.GenerateProgramPayload)
    (Hjson : Handlers.json request = Js.Normal rawBody)
    (Hbody : Http.checkBody rawBody = Http.succeed fields) :
  let run := Handlers.generateProgram NumberToString JSON_parse generateContent
               workoutPrompt dietPrompt toLocaleDateString createPlanFault request w in
  let w1 := Handlers.record (Handlers.CallGenerateContent (workoutPrompt fields)) w in
  let w2 := Handlers.record (Handlers.CallGenerateContent (dietPrompt fields)) w1 in
  let workoutReply := generateContent 0 (workoutPrompt fields) ≫= JSON_parse in
  let dietReply := generateContent 1 (dietPrompt fields) ≫= JSON_parse in
  (∀ e, workoutReply = Js.Throw e →
        run = (Js.Normal (Handlers.errorResponse 500
                            "Failed to generate a valid workout plan from AI."), w1))
  ∧ (∀ workoutRaw err,
       workoutReply = Js.Normal workoutRaw →
       Http.assertWorkoutShape workoutRaw = Http.fail err →
       run = (Js.Normal (Handlers.errorResponse 500 ("Invalid workout plan: " +:+ err)), w1))
  ∧ (∀ workoutRaw,
       workoutReply = Js.Normal workoutRaw →
       Http.assertWorkoutShape workoutRaw = Http.succeed workoutRaw →
       (∀ e, dietReply = Js.Throw e →
             run = (Js.Normal (Handlers.errorResponse 500
                                 "Failed to generate a valid diet plan from AI."), w2))
       ∧ (∀ dietRaw err,
            dietReply = Js.Normal dietRaw →
            Http.assertDietShape dietRaw = Http.fail err →
            run = (Js.Normal (Handlers.errorResponse 500 ("Invalid diet plan: " +:+ err)),
                   w2))).
Proof.
  intros run w1 w2 workoutReply dietReply. unfold run.
  rewrite (generateProgram_run NumberToString JSON_parse generateContent workoutPrompt
             dietPrompt toLocaleDateString createPlanFault request w rawBody fields Hjson Hbody).
  cbn zeta. fold workoutReply dietReply w1 w2.
  split; [by intros e ->|].
  split; [by intros workoutRaw err -> ->|].
  intros workoutRaw -> ->. cbn [Http.error Http.succeed].
  split; [by intros e ->|]. by intros dietRaw err -> ->.
Qed.

Lemma generateProgram_stage_failure_witness :
  Handlers.generateProgram Samples.integerText Samples.parseReply Samples.replies
    Samples.promptOf Samples.promptOf "11/3/2026" Samples.noFault
    Samples.generationRequest Samples.emptyWorld
  = (Js.Normal (Handlers.errorResponse 500 "Failed to generate a valid diet plan from AI."),
     {| Handlers.plans := [];
        Handlers.calls := [Handlers.CallGenerateContent "Strength";
                           Handlers.CallGenerateContent "Strength"] |}).
Proof.
  eapply (proj1 (proj2 (proj2 (generateProgram_stage_failure Samples.integerText
            Samples.parseReply Samples.replies Samples.promptOf Samples.promptOf
            "11/3/2026" Samples.noFault Samples.generationRequest Samples.emptyWorld
            _ _ eq_refl eq_refl)) _ eq_refl eq_refl)).
  reflexivity.
Defined.

(** X15: when both replies pass validation and Convex accepts the mutation,
    the generation action answers 200 with the identifier of the stored plan
    and the two normalized plans, having called the model twice and
    [createPlan] once; afterwards the stored plan is the only active plan of
    the requesting user and the first that [getUserPlans] returns for that
    user. *)
Theorem generateProgram_success
    (NumberToString : Js.number → string)
    (JSON_parse : string → Js.Completion Js.JsValue)
    (generateContent : nat → string → Js.Completion string)
    (workoutPrompt dietPrompt : Http.GenerateProgramPayload → string)
    (toLocaleDateString : string)
    (createPlanFault : Plans.Plan → option Js.Exn)
    (request : Handlers.Request) (w : Handlers.World)
    (rawBody workoutRaw dietRaw : Js.JsValue) (fields : Http.GenerateProgramPayload)
    (Hjson : Handlers.json request = Js.Normal rawBody)
    (Hbody : Http.checkBody rawBody = Http.succeed fields)
    (Hworkout : (generateContent 0 (workoutPrompt fields) ≫= JSON_parse) = Js.Normal workoutRaw)
    (Hwshape : Http.assertWorkoutShape workoutRaw = Http.succeed workoutRaw)
    (Hdiet : (generateContent 1 (dietPrompt fields) ≫= JSON_parse) = Js.Normal dietRaw)
    (Hdshape : Http.assertDietShape dietRaw = Http.succeed dietRaw)
    (Hsaved : createPlanFault
                {| Plans.userId := Http.user_id fields;
                   Plans.name := Http.fitness_goal fields +:+ " Plan - " +:+ toLocaleDateString;
                   Plans.workoutPlan := NormalizeSpec.keepWorkout workoutRaw;
                   Plans.dietPlan := ActionSpec.keepDiet dietRaw;
                   Plans.isActive := true |} = None) :
  let args :=
    {| Plans.userId := Http.user_id fields;
       Plans.name := Http.fitness_goal fields +:+ " Plan - " +:+ toLocaleDateString;
       Plans.workoutPlan := NormalizeSpec.keepWorkout workoutRaw;
       Plans.dietPlan := ActionSpec.keepDiet dietRaw;
       Plans.isActive := true |} in
  let planId := length (Handlers.plans w) in
  ∃ w',
    Handlers.generateProgram NumberToString JSON_parse generateContent workoutPrompt
      dietPrompt toLocaleDateString createPlanFault request w
    = (Js.Normal (Handlers.successResponse planId (NormalizeSpec.keepWorkout workoutRaw)
                    (ActionSpec.keepDiet dietRaw)), w')
    ∧ Handlers.calls w' =
        Handlers.calls w ++ [Handlers.CallGenerateContent (workoutPrompt fields);
                             Handlers.CallGenerateContent (dietPrompt fields);
                             Handlers.CallCreatePlan args]
    ∧ Handlers.plans w' !! planId = Some args
    ∧ PlansSpec.activePlansOf (Http.user_id fields) (Handlers.plans w') = [(planId, args)]
    ∧ head (Plans.getUserPlans (Http.user_id fields) (Handlers.plans w'))
      = Some (planId, args).
Proof.
  intros args planId.
  rewrite (generateProgram_run NumberToString JSON_parse generateContent workoutPrompt
             dietPrompt toLocaleDateString createPlanFault request w rawBody fields Hjson Hbody).
  cbn zeta. rewrite Hworkout, Hwshape. cbn [Http.error Http.succeed].
  rewrite Hdiet, Hdshape. cbn [Http.error Http.succeed]. rewrite Hsaved. fold args.
  eexists. split; [reflexivity|].
  cbn [Handlers.calls Handlers.plans Handlers.record].
  split; [by rewrite <- !app_assoc|].
  split.
  { rewrite lookup_app_r by (rewrite deactivateUser_length; lia).
    by rewrite deactivateUser_length, Nat.sub_diag. }
  split.
  - exact (activePlansOf_created args (Handlers.plans w)).
  - change (Http.user_id fields) with (Plans.userId args).
    rewrite getUserPlans_snoc, decide_True, deactivateUser_length by done. reflexivity.
Qed.

Lemma generateProgram_success_witness :
  ∃ w',
    Handlers.generateProgram Samples.integerText Samples.parseGoodReply Samples.goodReplies
      Samples.promptOf Samples.promptOf "11/3/2026" Samples.noFault
      Samples.generationRequest
      {| Handlers.plans := Samples.crowdedTable; Handlers.calls := [] |}
    = (Js.Normal
         (Handlers.successResponse 3
            (Js.JObj {[ "schedule" := Js.JArr [Js.JStr "Monday"]; "exercises" := Js.JArr [] ]})
            (Js.JObj {[ "dailyCalories" := Js.JNum (Js.NumberOfZ 2000);
                        "meals" := Js.JArr [] ]})), w')
    ∧ length (PlansSpec.activePlansOf "u1" (Handlers.plans w')) = 1.
Proof.
  destruct (generateProgram_success Samples.integerText Samples.parseGoodReply
              Samples.goodReplies Samples.promptOf Samples.promptOf "11/3/2026" Samples.noFault
              Samples.generationRequest
              {| Handlers.plans := Samples.crowdedTable; Handlers.calls := [] |}
              _ _ _ _ eq_refl eq_refl eq_refl eq_refl eq_refl eq_refl eq_refl)
    as (w' & Hrun & _ & _ & Hactive & _).
  exists w'. split; [exact Hrun|].
  change (Http.user_id _) with "u1" in Hactive. by rewrite Hactive.
Defined.

(** X16: when Convex rejects the [createPlan] call, the generation action
    answers 500 "Failed to save plan to database.", whatever the fault was,
    and the table is as it was before the request. *)
Theorem generateProgram_save_failure
    (NumberToString : Js.number → string)
    (JSON_parse : string → Js.Completion Js.JsValue)
    (generateContent : nat → string → Js.Completion string)
    (workoutPrompt dietPrompt : Http.GenerateProgramPayload → string)
    (toLocaleDateString : string)
    (createPlanFault : Plans.Plan → option Js.Exn)
    (request : Handlers.Request) (w : Handlers.World)
    (rawBody workoutRaw dietRaw : Js.JsValue) (fields : Http.GenerateProgramPayload)
    (fault : Js.Exn)
    (Hjson : Handlers.json request = Js.Normal rawBody)
    (Hbody : Http.checkBody rawBody = Http.succeed fields)
    (Hworkout : (generateContent 0 (workoutPrompt fields) ≫= JSON_parse) = Js.Normal workoutRaw)
    (Hwshape : Http.assertWorkoutShape workoutRaw = Http.succeed workoutRaw)
    (Hdiet : (generateContent 1 (dietPrompt fields) ≫= JSON_parse) = Js.Normal dietRaw)
    (Hdshape : Http.assertDietShape dietRaw = Http.succeed dietRaw)
    (Hfault : createPlanFault
                {| Plans.userId := Http.user_id fields;
                   Plans.name := Http.fitness_goal fields +:+ " Plan - " +:+ toLocaleDateString;
                   Plans.workoutPlan := NormalizeSpec.keepWorkout workoutRaw;
                   Plans.dietPlan := ActionSpec.keepDiet dietRaw;
                   Plans.isActive := true |} = Some fault) :
  ∃ w',
    Handlers.generateProgram NumberToString JSON_parse generateContent workoutPrompt
      dietPrompt toLocaleDateString createPlanFault request w
    = (Js.Normal (Handlers.errorResponse 500 "Failed to save plan to database."), w')
    ∧ Handlers.plans w' = Handlers.plans w.
Proof.
  rewrite (generateProgram_run NumberToString JSON_parse generateContent workoutPrompt
             dietPrompt toLocaleDateString createPlanFault request w rawBody fields Hjson Hbody).
  cbn zeta. rewrite Hworkout, Hwshape. cbn [Http.error Http.succeed].
  rewrite Hdiet, Hdshape. cbn [Http.error Http.succeed]. rewrite Hfault.
  eexists. split; reflexivity.
Qed.

Lemma generateProgram_save_failure_witness :
  ∃ w',
    Handlers.generateProgram Samples.integerText Samples.parseGoodReply Samples.goodReplies
      Samples.promptOf Samples.promptOf "11/3/2026" Samples.alwaysFault
      Samples.generationRequest
      {| Handlers.plans := Samples.crowdedTable; Handlers.calls := [] |}
    = (Js.Normal (Handlers.errorResponse 500 "Failed to save plan to database."), w')
    ∧ Handlers.plans w' = Samples.crowdedTable.
Proof.
  exact (generateProgram_save_failure Samples.integerText Samples.parseGoodReply
           Samples.goodReplies Samples.promptOf Samples.promptOf "11/3/2026"
           Samples.alwaysFault Samples.generationRequest
           {| Handlers.plans := Samples.crowdedTable; Handlers.calls := [] |}
           _ _ _ _ (Js.ErrorExn "too large")
           eq_refl eq_refl eq_refl eq_refl eq_refl eq_refl eq_refl).
Defined.

(** X17: the generation action never throws: whatever the request, the
    model, [JSON.parse] and the store do, it answers, with status 200, 400 or
    500.  A plan is stored exactly when the status is 200, and then exactly
    one; on 400 and 500 the table is as it was.  It makes at most three
    calls. *)
Theorem generateProgram_answers
    (NumberToString : Js.number → string)
    (JSON_parse : string → Js.Completion Js.JsValue)
    (generateContent : nat → string → Js.Completion string)
    (workoutPrompt dietPrompt : Http.GenerateProgramPayload → string)
    (toLocaleDateString : string)
    (createPlanFault : Plans.Plan → option Js.Exn)
    (request : Handlers.Request) (w : Handlers.World) :
  ∃ response w' new,
    Handlers.generateProgram NumberToString JSON_parse generateContent workoutPrompt
      dietPrompt toLocaleDateString createPlanFault request w = (Js.Normal response, w')
    ∧ (Handlers.status response = 200
         ∧ length (Handlers.plans w') = S (length (Handlers.plans w))
       ∨ (Handlers.status response = 400 ∨ Handlers.status response = 500)
         ∧ Handlers.plans w' = Handlers.plans w)
    ∧ Handlers.calls w' = Handlers.calls w ++ new
    ∧ length new ≤ 3.
Proof.
  destruct (Handlers.json request) as [rawBody|e] eqn:Hjson.
  2:{ rewrite (generateProgram_unreadable _ _ _ _ _ _ _ request w e Hjson).
      exists (Handlers.errorResponse 500 (Handlers.messageOf e)), w, [].
      rewrite app_nil_r. cbn. auto with lia. }
  destruct (assertPayloadShape_total (Js.or_else (Http.unwrapNode rawBody) Js.JNull))
    as [[fields Hbody]|[err Hbody]]; fold (Http.checkBody rawBody) in Hbody.
  2:{ rewrite (generateProgram_invalid _ _ _ _ _ _ _ request w rawBody err Hjson Hbody).
      exists (Handlers.errorResponse 400 err), w, [].
      rewrite app_nil_r. cbn. auto with lia. }
  rewrite (generateProgram_run NumberToString JSON_parse generateContent workoutPrompt
             dietPrompt toLocaleDateString createPlanFault request w rawBody fields Hjson Hbody).
  cbn zeta.
  destruct (generateContent 0 (workoutPrompt fields) ≫= JSON_parse) as [workoutRaw|].
  2:{ do 2 eexists. exists [Handlers.CallGenerateContent (workoutPrompt fields)].
      split; [reflexivity|]. cbn. auto with lia. }
  destruct (Http.error (Http.assertWorkoutShape workoutRaw)).
  { do 2 eexists. exists [Handlers.CallGenerateContent (workoutPrompt fields)].
    split; [reflexivity|]. cbn. auto with lia. }
  destruct (generateContent 1 (dietPrompt fields) ≫= JSON_parse) as [dietRaw|].
  2:{ do 2 eexists. exists [Handlers.CallGenerateContent (workoutPrompt fields);
                            Handlers.CallGenerateContent (dietPrompt fields)].
      split; [reflexivity|]. cbn. rewrite <- app_assoc. auto with lia. }
  destruct (Http.error (Http.assertDietShape dietRaw)).
  { do 2 eexists. exists [Handlers.CallGenerateContent (workoutPrompt fields);
                          Handlers.CallGenerateContent (dietPrompt fields)].
    split; [reflexivity|]. cbn. rewrite <- app_assoc. auto with lia. }
  set (args := {| Plans.userId := Http.user_id fields |}).
  destruct (createPlanFault args).
  - do 2 eexists. exists [Handlers.CallGenerateContent (workoutPrompt fields);
                          Handlers.CallGenerateContent (dietPrompt fields);
                          Handlers.CallCreatePlan args].
    split; [reflexivity|]. cbn. rewrite <- !app_assoc. auto with lia.
  - do 2 eexists. exists [Handlers.CallGenerateContent (workoutPrompt fields);
                          Handlers.CallGenerateContent (dietPrompt fields);
                          Handlers.CallCreatePlan args].
    split; [reflexivity|]. cbn. rewrite <- !app_assoc.
    split; [left|auto with lia].
    split; [done|]. rewrite length_app, deactivateUser_length. cbn. lia.
Qed.

(** ** Validators and the fields they do not read *)

Section Tolerance.
Import Js Http ExtraSpec.

Lemma field_insert_ne props k v name :
  k ≠ name → field (JObj (<[k:=v]> props)) name = field (JObj props) name.
Proof. intros Hne. unfold field. by rewrite lookup_insert_ne. Qed.

Lemma decided_of {A} (r : Result A) :
  ((∃ a, r = succeed a) ∨ ∃ err, r = fail err) →
  Handlers.truthy (error r) = error r → decided r.
Proof.
  intros [Hok|[err ->]] Htext; [by left|]. right. exists err. split; [done|].
  intros ->. discriminate Htext.
Qed.

End Tolerance.

(** X18: the request validator tolerates extraneous properties: adding or
    changing a property whose name is none of the nine it reads does not
    change its answer. *)
Theorem assertPayloadShape_ignores_extra (props : gmap string Js.JsValue)
    (k : string) (v : Js.JsValue)
    (Hextra : k ∉ ExtraSpec.payloadNames) :
  Http.assertPayloadShape (Js.JObj (<[k:=v]> props)) = Http.assertPayloadShape (Js.JObj props).
Proof.
  assert (∀ name, name ∈ ExtraSpec.payloadNames →
            Js.field (Js.JObj (<[k:=v]> props)) name = Js.field (Js.JObj props) name) as Hsame.
  { intros name Hname. apply field_insert_ne. by intros ->. }
  unfold Http.assertPayloadShape. cbn [Js.isNonNullObject negb].
  rewrite !Hsame by (unfold ExtraSpec.payloadNames; set_solver).
  reflexivity.
Qed.

Lemma assertPayloadShape_ignores_extra_witness :
  Http.assertPayloadShape (Js.JObj (<["locale" := Js.JStr "en"]> (Samples.request "u1")))
  = Http.assertPayloadShape (Js.JObj (Samples.request "u1")).
Proof.
  apply assertPayloadShape_ignores_extra.
  apply (bool_decide_unpack _). vm_compute. exact I.
Defined.

(** X19: each of the three validators returns either a value and no error,
    or an error and no value, and the error is never the empty string, so the
    test [if (error)] of the generation action cannot take a rejected value
    for an accepted one. *)
Theorem validators_decided (v : Js.JsValue) :
  ExtraSpec.decided (Http.assertPayloadShape v)
  ∧ ExtraSpec.decided (Http.assertWorkoutShape v)
  ∧ ExtraSpec.decided (Http.assertDietShape v).
Proof.
  split; [|split].
  - apply decided_of; [apply assertPayloadShape_total|apply assertPayloadShape_text].
  - apply decided_of; [|apply assertWorkoutShape_text].
    destruct (assertWorkoutShape_total v); eauto.
  - apply decided_of; [|apply assertDietShape_text].
    destruct (assertDietShape_total v); eauto.
Qed.

(** ** Counts written as text *)

Section CountsAsText.
Import Js Http NormalizeSpec ExtraSpec.
Variable NumberToString : number → string.

Ltac each_digit H :=
  apply isDecimalDigit_cases in H; cbn [In] in H;
  repeat (destruct H as [<-|H]); [..|destruct H].

Lemma isSign_cases sign : isSign sign = true → sign = "" ∨ sign = "-" ∨ sign = "+".
Proof.
  unfold isSign. intros [[H|H]%orb_prop|H]%orb_prop; apply String.eqb_eq in H; auto.
Qed.

Lemma digitValue_other a : isDecimalDigit a = false → digitValue 10 a = None.
Proof.
  destruct a as [[] [] [] [] [] [] [] []]; intros H; try discriminate H; reflexivity.
Qed.

Lemma digitValue_hex a : isHexDigit a = true → digitValue 16 a = Some (hexDigitValue a).
Proof.
  destruct a as [[] [] [] [] [] [] [] []]; intros H; try discriminate H; reflexivity.
Qed.

Lemma digitValue_not_hex a : isHexDigit a = false → digitValue 16 a = None.
Proof.
  destruct a as [[] [] [] [] [] [] [] []]; intros H; try discriminate H; reflexivity.
Qed.

Lemma parseDigits_stop acc t : endsNumber t = true → parseDigits 10 acc t = acc.
Proof.
  destruct t as [|a t]; [done|]. cbn [endsNumber parseDigits].
  intros Ha%negb_true_iff. by rewrite digitValue_other.
Qed.

Lemma parseDigits_hex_stop acc t : endsHex t = true → parseDigits 16 acc t = acc.
Proof.
  destruct t as [|a t]; [done|]. cbn [endsHex parseDigits].
  intros Ha%negb_true_iff. by rewrite digitValue_not_hex.
Qed.

Lemma parseDigits_prefix s t acc :
  allDigits s = true → endsNumber t = true →
  parseDigits 10 acc (s +:+ t) =
    match s with
    | EmptyString => acc
    | _ => Some (decimalValue (default 0%Z acc) s)
    end.
Proof.
  intros Hs Ht. revert acc Hs. induction s as [|a rest IH]; intros acc Hs.
  - by apply parseDigits_stop.
  - cbn [allDigits] in Hs. apply andb_prop in Hs as [Ha Hrest].
    change (String a rest +:+ t) with (String a (rest +:+ t)).
    cbn [parseDigits]. rewrite digitValue_decimal, IH by done.
    by destruct rest.
Qed.

Lemma parseDigits_hex_prefix h t acc :
  allHex h = true → endsHex t = true →
  parseDigits 16 acc (h +:+ t) =
    match h with
    | EmptyString => acc
    | _ => Some (hexValue (default 0%Z acc) h)
    end.
Proof.
  intros Hh Ht. revert acc Hh. induction h as [|a rest IH]; intros acc Hh.
  - by apply parseDigits_hex_stop.
  - cbn [allHex] in Hh. apply andb_prop in Hh as [Ha Hrest].
    change (String a rest +:+ t) with (String a (rest +:+ t)).
    cbn [parseDigits]. rewrite digitValue_hex, IH by done.
    by destruct rest.
Qed.

(** After the sign, [parseInt] picks the radix and reads the digits. *)
Lemma parseIntString_signed sign a rest :
  isSign sign = true → isDecimalDigit a = true →
  parseIntString (sign +:+ String a rest) =
    let '(radix, s) :=
      match String a rest with
      | String "0" (String "x" more) => (16%Z, more)
      | String "0" (String "X" more) => (16%Z, more)
      | _ => (10%Z, String a rest)
      end in
    match parseDigits radix None s with
    | None => S754_nan
    | Some 0%Z => S754_zero (String.eqb sign "-")
    | Some mathInt => NumberOfZ (if String.eqb sign "-" then - mathInt else mathInt)%Z
    end.
Proof.
  intros Hsign Ha. unfold parseIntString, trimStart.
  destruct (isSign_cases _ Hsign) as [->|[->| ->]].
  - change ("" +:+ String a rest) with (String a rest).
    rewrite stripWhite_digit by done. by each_digit Ha.
  - change ("-" +:+ String a rest) with (String "-" (String a rest)).
    assert (stripWhite true (String "-" (String a rest)) = String "-" (String a rest))
      as -> by (by destruct rest as [|c rest]).
    reflexivity.
  - change ("+" +:+ String a rest) with (String "+" (String a rest)).
    assert (stripWhite true (String "+" (String a rest)) = String "+" (String a rest))
      as -> by (by destruct rest as [|c rest]).
    reflexivity.
Qed.

Lemma parsedOr_signed fallback sign value :
  parsedOr fallback
    match value with
    | 0%Z => S754_zero (String.eqb sign "-")
    | _ => NumberOfZ (if String.eqb sign "-" then - value else value)%Z
    end
  = countOr fallback (signed sign value).
Proof.
  unfold parsedOr, falsyNumber, countOr, signed.
  destruct (Z.eq_dec value 0%Z) as [->|Hne].
  { by destruct (String.eqb sign "-"). }
  set (z := if String.eqb sign "-" then (- value)%Z else value).
  assert (z ≠ 0%Z) as Hz by (unfold z; destruct (String.eqb sign "-"); lia).
  destruct (NumberOfZ_truthy z Hz) as [Hzero Hnan].
  rewrite (proj2 (Z.eqb_neq z 0%Z) Hz).
  destruct value; [done| |]; by rewrite Hzero, Hnan.
Qed.

Lemma radix_decimal a rest :
  isDecimalDigit a = true →
  a ≠ "0"%char
  ∨ (∀ c more, rest = String c more → Ascii.eqb c "x" || Ascii.eqb c "X" = false) →
  match String a rest with
  | String "0" (String "x" more) => (16%Z, more)
  | String "0" (String "X" more) => (16%Z, more)
  | _ => (10%Z, String a rest)
  end = (10%Z, String a rest).
Proof.
  intros Ha [Hne|Hc].
  - each_digit Ha; try reflexivity. by destruct Hne.
  - each_digit Ha; try reflexivity.
    destruct rest as [|c more]; [reflexivity|]. specialize (Hc c more eq_refl).
    destruct c as [[] [] [] [] [] [] [] []]; try reflexivity; discriminate Hc.
Qed.

(** A count written as text is replaced by what its sign and digits write,
    or by the fallback when they write zero. *)
Lemma parsedOr_writes fallback text value :
  writes text value → parsedOr fallback (parseIntString text) = countOr fallback value.
Proof.
  intros [sign s t Hsign Hs Hdigits Ht Hliteral|sign x h t Hsign Hx Hh Hhex Ht].
  - destruct s as [|a rest]; [done|].
    pose proof (parseDigits_prefix (String a rest) t None Hdigits Ht) as Hparse.
    cbn [allDigits] in Hdigits. apply andb_prop in Hdigits as [Ha Hrest].
    change (String a rest +:+ t) with (String a (rest +:+ t)) in *.
    rewrite parseIntString_signed by done.
    assert (match String a (rest +:+ t) with
            | String "0" (String "x" more) => (16%Z, more)
            | String "0" (String "X" more) => (16%Z, more)
            | _ => (10%Z, String a (rest +:+ t))
            end = (10%Z, String a (rest +:+ t))
            ∨ ∃ x t', a = "0"%char ∧ rest = "" ∧ t = String x t'
                      ∧ Ascii.eqb x "x" || Ascii.eqb x "X" = true) as [->|Hhex].
    { destruct (Ascii.eqb a "0") eqn:Ha0.
      2:{ left. apply (radix_decimal a (rest +:+ t)); [done|].
          left. by apply Ascii.eqb_neq. }
      apply Ascii.eqb_eq in Ha0 as ->.
      destruct rest as [|b rest].
      - change ("" +:+ t) with t. destruct t as [|c t'].
        + left. reflexivity.
        + destruct (Ascii.eqb c "x" || Ascii.eqb c "X") eqn:Hc; [right; eauto 10|].
          left. apply (radix_decimal "0" (String c t')); [done|].
          right. by intros ? ? [= <- <-].
      - left. cbn [allDigits] in Hrest. apply andb_prop in Hrest as [Hb _].
        change (String b rest +:+ t) with (String b (rest +:+ t)).
        apply (radix_decimal "0" (String b (rest +:+ t))); [done|].
        right. intros ? ? [= <- <-]. by each_digit Hb. }
    + cbv beta iota. rewrite Hparse. cbn [default]. apply parsedOr_signed.
    + destruct Hhex as (x & t' & -> & -> & -> & Hx).
      change ("" +:+ String x t') with (String x t').
      assert (parseDigits 16 None t' = None) as Hnone.
      { destruct t' as [|d t'']; [done|]. cbn [parseDigits].
        unfold hexLiteral in Hliteral. rewrite Hx in Hliteral.
        rewrite digitValue_not_hex; [done|]. exact Hliteral. }
      apply orb_prop in Hx as [->%Ascii.eqb_eq| ->%Ascii.eqb_eq];
        cbv beta iota; rewrite Hnone;
        unfold parsedOr, countOr, signed; cbn; by destruct (String.eqb sign "-").
  - destruct h as [|a rest]; [done|].
    pose proof (parseDigits_hex_prefix (String a rest) t None Hhex Ht) as Hparse.
    rewrite parseIntString_signed by done.
    change (String a rest +:+ t) with (String a (rest +:+ t)) in *.
    apply orb_prop in Hx as [->%Ascii.eqb_eq| ->%Ascii.eqb_eq];
      cbv beta iota; rewrite Hparse; cbn [default]; apply parsedOr_signed.
Qed.

Lemma routinewise_lookup (normalized : JsValue → JsValue → Prop) plan out i j ex r :
  routinewise normalized plan out →
  exercisesOf plan !! i = Some ex → routinesOf ex !! j = Some r →
  ∃ ex' r',
    exercisesOf out !! i = Some ex' ∧ routinesOf ex' !! j = Some r' ∧ normalized r r'.
Proof.
  intros (exercises & -> & Hall) Hex Hr.
  destruct (Forall2_lookup_l _ _ _ _ _ Hall Hex) as (ex' & Hex' & routines & -> & Hroutines).
  destruct (Forall2_lookup_l _ _ _ _ _ Hroutines Hr) as (r' & Hr' & Hnormalized).
  by exists (JObj {[ "day" := field ex "day"; "routines" := JArr routines ]}), r'.
Qed.

End CountsAsText.

(** X20: in [validateWorkoutPlan] a [sets] or [reps] written as text, an
    optional sign and then digits, is replaced by the number the sign and the
    digits write, and by the fallback (1 for [sets], 10 for [reps]) only when
    they write zero.  The digits are the decimal digits the text begins with,
    and what follows them is ignored, so "12 reps" gives 12 and "-3" gives
    the negative number -3; but text that begins with [0x] or [0X] and a
    hexadecimal digit is read in base sixteen, so "0x1F" gives 31.  This holds
    for the routine at any place of any plan the normalizer completes on. *)
Theorem validateWorkoutPlan_reads_digits (NumberToString : Js.number → string)
    (plan out ex r : Js.JsValue) (i j : nat)
    (Hout : Http.validateWorkoutPlan NumberToString plan = Js.Normal out)
    (Hex : NormalizeSpec.exercisesOf plan !! i = Some ex)
    (Hr : NormalizeSpec.routinesOf ex !! j = Some r) :
  ∃ ex' r',
    NormalizeSpec.exercisesOf out !! i = Some ex'
    ∧ NormalizeSpec.routinesOf ex' !! j = Some r'
    ∧ ∀ text value,
        ExtraSpec.writes text value →
        (Js.field r "sets" = Js.JStr text → Js.field r' "sets" = ExtraSpec.countOr 1 value)
        ∧ (Js.field r "reps" = Js.JStr text → Js.field r' "reps" = ExtraSpec.countOr 10 value).
Proof.
  apply validateWorkoutPlan_routinewise in Hout.
  destruct (routinewise_lookup _ plan out i j ex r Hout Hex Hr)
    as (ex' & r' & Hex' & Hr' & _ & Hsets & Hreps & _).
  exists ex', r'. split; [done|]. split; [done|].
  intros text value Hwrites. split; intros Htext.
  - rewrite Htext, numberOr_string, (parsedOr_writes 1 text value Hwrites) in Hsets.
    by injection Hsets.
  - rewrite Htext, numberOr_string, (parsedOr_writes 10 text value Hwrites) in Hreps.
    by injection Hreps.
Qed.

Lemma validateWorkoutPlan_reads_digits_witness :
  ∃ out ex' r',
    Http.validateWorkoutPlan Samples.integerText
      (Samples.oneDay (Js.JArr []) "Monday"
         [Samples.routine "Squat" (Js.JStr "12 reps") (Js.JStr "-0x1F")]) = Js.Normal out
    ∧ NormalizeSpec.exercisesOf out !! 0 = Some ex'
    ∧ NormalizeSpec.routinesOf ex' !! 0 = Some r'
    ∧ Js.field r' "sets" = Js.JNum (Js.NumberOfZ 12)
    ∧ Js.field r' "reps" = Js.JNum (Js.NumberOfZ (-31)).
Proof.
  assert (Http.validateWorkoutPlan Samples.integerText
            (Samples.oneDay (Js.JArr []) "Monday"
               [Samples.routine "Squat" (Js.JStr "12 reps") (Js.JStr "-0x1F")])
          = Js.Normal
              (NormalizeSpec.normalWorkout
                 (Samples.oneDay (Js.JArr []) "Monday"
                    [Samples.routine "Squat" (Js.JStr "12 reps") (Js.JStr "-0x1F")])))
    as Hrun by (vm_compute; reflexivity).
  destruct (validateWorkoutPlan_reads_digits Samples.integerText _ _
              (Js.JObj {[ "day" := Js.JStr "Monday";
                          "routines" := Js.JArr [Samples.routine "Squat" (Js.JStr "12 reps")
                                                   (Js.JStr "-0x1F")] ]})
              (Samples.routine "Squat" (Js.JStr "12 reps") (Js.JStr "-0x1F")) 0 0 Hrun)
    as (ex' & r' & Hex' & Hr' & Hreads); [reflexivity|reflexivity|].
  eexists _, ex', r'. split; [exact Hrun|]. split; [exact Hex'|]. split; [exact Hr'|]. split.
  - exact (proj1 (Hreads "12 reps" 12%Z
                    (ExtraSpec.writes_decimal "" "12" " reps" eq_refl
                       (λ H, eq_ind "12" (λ s, if s is "" then False else True) I "" H)
                       eq_refl eq_refl eq_refl)) eq_refl).
  - exact (proj2 (Hreads "-0x1F" (-31)%Z
                    (ExtraSpec.writes_hex "-" "x" "1F" "" eq_refl eq_refl
                       (λ H, eq_ind "1F" (λ s, if s is "" then False else True) I "" H)
                       eq_refl eq_refl)) eq_refl).
Defined.

(** X21: [http.ts] loads only when both [GEMINI_API_KEY] and
    [CLERK_WEBHOOK_SECRET] are set to a non-empty value; otherwise loading
    throws, and when the API key is missing the error names it, whatever the
    webhook secret is. *)
Theorem loadModule_requires_both (env : gmap string string) :
  (Startup.loadModule env = Js.Normal tt
   ↔ (∃ key, env !! "GEMINI_API_KEY" = Some key ∧ key ≠ "")
     ∧ (∃ secret, env !! "CLERK_WEBHOOK_SECRET" = Some secret ∧ secret ≠ ""))
  ∧ (Handlers.missing (env !! "GEMINI_API_KEY") = true →
     Startup.loadModule env
     = Js.Throw (Js.ErrorExn "Missing GEMINI_API_KEY environment variable")).
Proof.
  unfold Startup.loadModule. split.
  - destruct (Handlers.missing (env !! "GEMINI_API_KEY")) eqn:Hkey.
    { split; [done|]. intros [(key & Hsome & Hne) _].
      destruct (missing_present _ _ Hsome Hne) as [Hpresent _]. congruence. }
    destruct (Handlers.missing (env !! "CLERK_WEBHOOK_SECRET")) eqn:Hsecret.
    { split; [done|]. intros [_ (secret & Hsome & Hne)].
      destruct (missing_present _ _ Hsome Hne) as [Hpresent _]. congruence. }
    split; [|done]. intros _. split; by apply missing_false.
  - by intros ->.
Qed.

Lemma loadModule_requires_both_witness :
  Startup.loadModule {[ "GEMINI_API_KEY" := ""; "CLERK_WEBHOOK_SECRET" := "whsec_1" ]}
  = Js.Throw (Js.ErrorExn "Missing GEMINI_API_KEY environment variable").
Proof.
  apply (proj2 (loadModule_requires_both _)). reflexivity.
Defined.

(** X22: the two validators of the model's replies tolerate extraneous
    top-level properties, and the normalizers drop them: adding or changing a
    property that the schema does not have changes neither the error a
    validator reports nor what the normalizer returns. *)
Theorem reply_ignores_extra (NumberToString : Js.number → string)
    (props : gmap string Js.JsValue) (k : string) (v : Js.JsValue) :
  (k ∉ ["schedule"; "exercises"] →
   Http.error (Http.assertWorkoutShape (Js.JObj (<[k:=v]> props)))
     = Http.error (Http.assertWorkoutShape (Js.JObj props))
   ∧ Http.validateWorkoutPlan NumberToString (Js.JObj (<[k:=v]> props))
     = Http.validateWorkoutPlan NumberToString (Js.JObj props))
  ∧ (k ∉ ["dailyCalories"; "meals"] →
     Http.error (Http.assertDietShape (Js.JObj (<[k:=v]> props)))
       = Http.error (Http.assertDietShape (Js.JObj props))
     ∧ Http.validateDietPlan (Js.JObj (<[k:=v]> props))
       = Http.validateDietPlan (Js.JObj props)).
Proof.
  split; intros Hk.
  - assert (Js.field (Js.JObj (<[k:=v]> props)) "schedule"
            = Js.field (Js.JObj props) "schedule") as Hschedule
      by (apply field_insert_ne; set_solver).
    assert (Js.field (Js.JObj (<[k:=v]> props)) "exercises"
            = Js.field (Js.JObj props) "exercises") as Hexercises
      by (apply field_insert_ne; set_solver).
    split.
    + unfold Http.assertWorkoutShape. cbn [Js.isNonNullObject negb].
      rewrite Hschedule, Hexercises.
      destruct (Js.isStringArray _); [|done].
      destruct (Js.field (Js.JObj props) "exercises"); try done.
      by destruct (Http.checkExercises 0 _).
    + unfold Http.validateWorkoutPlan, Js.getProp. by rewrite Hschedule, Hexercises.
  - assert (Js.field (Js.JObj (<[k:=v]> props)) "dailyCalories"
            = Js.field (Js.JObj props) "dailyCalories") as Hcalories
      by (apply field_insert_ne; set_solver).
    assert (Js.field (Js.JObj (<[k:=v]> props)) "meals"
            = Js.field (Js.JObj props) "meals") as Hmeals
      by (apply field_insert_ne; set_solver).
    split.
    + unfold Http.assertDietShape. cbn [Js.isNonNullObject negb].
      rewrite Hcalories, Hmeals.
      destruct (Http.notANumber _); [done|].
      destruct (Js.field (Js.JObj props) "meals"); try done.
      by destruct (Http.checkMeals 0 _).
    + unfold Http.validateDietPlan, Js.getProp. by rewrite Hcalories, Hmeals.
Qed.

Lemma reply_ignores_extra_witness :
  Http.validateDietPlan (Js.JObj (<["supplements" := Js.JArr []]>
                                    {[ "dailyCalories" := Js.JNum (Js.NumberOfZ 1800);
                                       "meals" := Js.JArr [Samples.meal "Lunch" []] ]}))
  = Http.validateDietPlan (Js.JObj {[ "dailyCalories" := Js.JNum (Js.NumberOfZ 1800);
                                      "meals" := Js.JArr [Samples.meal "Lunch" []] ]}).
Proof.
  apply (proj2 (reply_ignores_extra Samples.integerText _ "supplements" (Js.JArr []))).
  apply (bool_decide_unpack _). vm_compute. exact I.
Defined.

(** X23: [createPlan] deactivates the user's plans whether or not the new
    plan is active: a call that the validators admit and that has
    [isActive = false] leaves the user without any active plan. *)
Theorem createPlan_inactive (db : list Plans.Plan) (args : Plans.Plan)
    (Haccepted : Plans.createPlan_args args = true)
    (Hinactive : Plans.isActive args = false) :
  ∃ db',
    Plans.createPlan args db = Js.Normal (length db, db')
    ∧ PlansSpec.activePlansOf (Plans.userId args) db' = [].
Proof.
  eexists. split; [by apply createPlan_eq|].
  by rewrite activePlansOf_created, Hinactive.
Qed.

Lemma createPlan_inactive_witness :
  ∃ db',
    Plans.createPlan (Samples.plan "u1" "draft" false) Samples.crowdedTable
      = Js.Normal (3, db')
    ∧ PlansSpec.activePlansOf "u1" db' = [].
Proof.
  exact (createPlan_inactive Samples.crowdedTable (Samples.plan "u1" "draft" false)
           eq_refl eq_refl).
Defined.

(** X24: the two plans the generation action hands to [createPlan], the
    normalized forms of two replies that passed their shape validators, are
    plans the validators of [createPlan] admit; a reply as it came, holding a
    property the schema does not have, is not: [createPlan] admits no
    extraneous property, which the normalizers drop. *)
Theorem createPlan_admits_normalized (who title : string) (active : bool)
    (workoutRaw dietRaw : Js.JsValue)
    (Hworkout : Http.assertWorkoutShape workoutRaw = Http.succeed workoutRaw)
    (Hdiet : Http.assertDietShape dietRaw = Http.succeed dietRaw) :
  Plans.createPlan_args
    {| Plans.userId := who; Plans.name := title;
       Plans.workoutPlan := NormalizeSpec.keepWorkout workoutRaw;
       Plans.dietPlan := ActionSpec.keepDiet dietRaw;
       Plans.isActive := active |} = true
  ∧ (∀ props k v,
       workoutRaw = Js.JObj (<[k:=v]> props) →
       k ∉ ["schedule"; "exercises"] → Plans.isUndefined v = false →
       Plans.createPlan_args
         {| Plans.userId := who; Plans.name := title;
            Plans.workoutPlan := workoutRaw;
            Plans.dietPlan := ActionSpec.keepDiet dietRaw;
            Plans.isActive := active |} = false).
Proof.
  split; [by apply createPlan_args_kept|].
  intros props k v -> Hk Hv.
  unfold Plans.createPlan_args. cbn [Plans.workoutPlan].
  apply andb_false_intro1. unfold Plans.workoutPlan_args, Plans.v_object.
  apply andb_false_intro2, bool_decide_eq_false_2.
  intros Hall. destruct (Hall k v (lookup_insert_eq _ _ _)) as [Hundefined|Hin].
  - congruence.
  - by destruct Hk.
Qed.

Lemma createPlan_admits_normalized_witness :
  Plans.createPlan_args
    {| Plans.userId := "u1"; Plans.name := "Strength Plan";
       Plans.workoutPlan := NormalizeSpec.keepWorkout Samples.goodPlan;
       Plans.dietPlan :=
         ActionSpec.keepDiet
           (Js.JObj {[ "dailyCalories" := Js.JNum (Js.NumberOfZ 1800); "meals" := Js.JArr [] ]});
       Plans.isActive := true |} = true
  ∧ Plans.createPlan_args
      {| Plans.userId := "u1"; Plans.name := "Strength Plan";
         Plans.workoutPlan := Samples.goodPlan;
         Plans.dietPlan :=
           ActionSpec.keepDiet
             (Js.JObj {[ "dailyCalories" := Js.JNum (Js.NumberOfZ 1800);
                         "meals" := Js.JArr [] ]});
         Plans.isActive := true |} = false.
Proof.
  destruct (createPlan_admits_normalized "u1" "Strength Plan" true Samples.goodPlan
              (Js.JObj {[ "dailyCalories" := Js.JNum (Js.NumberOfZ 1800);
                          "meals" := Js.JArr [] ]}))
    as [Hkept Hraw]; [vm_compute; reflexivity|vm_compute; reflexivity|].
  split; [exact Hkept|].
  apply (Hraw {[ "schedule" := Js.JArr [Js.JStr "Monday"];
                 "exercises" := Js.JArr [
                   Js.JObj {[ "day" := Js.JStr "Monday";
                              "routines" := Js.JArr [Samples.routine "Squat" Samples.three
                                                       (Js.JNum (Js.NumberOfZ 10))] ]} ] ]}
              "notes" (Js.JStr "extra")).
  - vm_compute. reflexivity.
  - apply (bool_decide_unpack _). vm_compute. exact I.
  - reflexivity.
Defined.

